(** * Restaurant demand forecast

    A shallow embedding of the hourly demand pipeline:
    - [data_preparation.py]: [prepare_swiggy_demand_data] (calendar and rush
      flags, hourly aggregation) and [create_logistics_features] (lags,
      rolling mean, festival flag, fill of missing values);
    - [forecasting_engine.py]: [get_demand_forecast] (future feature rows,
      translation of the predictions into orders, partners and a rush label)
      and [calculate_logistics_impact] (the summary metrics);
    - [streamlit_app.py]: [highlight_rush], the styling of the staffing
      table, and the rush masks of the chart.

    Python [float] and numpy [float64] values are IEEE-754 binary64 numbers;
    they are modelled by [spec_float] with the operations of [SpecFloat] at
    precision 53 and maximal exponent 1024.  Python [int] is [Z].  A pandas
    table is the list of its rows, a column is the list of its cells, and a
    missing cell (NaN) of a float64 column is [None]. *)

From Stdlib Require Import ZArith List Bool Lia String Ascii.
From Stdlib Require Import QArith Qround Qabs SpecFloat DecimalString DecimalZ DecimalPos.
From Stdlib Require Import Sorted Permutation.
Import ListNotations.
Local Open Scope Z_scope.

(** ** Exceptions *)

Inductive exn : Type :=
| ValueError
| OverflowError
| KeyError.

Inductive result (A : Type) : Type :=
| Ok (a : A)
| Raise (e : exn).

Arguments Ok {A} a.
Arguments Raise {A} e.

Definition bind {A B : Type} (c : result A) (k : A -> result B) : result B :=
  match c with
  | Ok a => k a
  | Raise e => Raise e
  end.

Notation "x <- c ;; k" := (bind c (fun x => k))
  (at level 61, c at next level, right associativity).

(** The body of a [for] loop that appends one value per element and stops at
    the first exception. *)
Fixpoint for_each {A B : Type} (f : A -> result B) (l : list A) : result (list B) :=
  match l with
  | [] => Ok []
  | x :: t => y <- f x ;; ys <- for_each f t ;; Ok (y :: ys)
  end.

(** ** Binary64 arithmetic as Python and numpy use it *)

Module Float64.

Definition prec : Z := 53.
Definition emax : Z := 1024.

(** Conversion of an integer, rounded to nearest-even. *)
Definition of_Z (n : Z) : spec_float := binary_normalize prec emax n 0 false.

Definition add : spec_float -> spec_float -> spec_float := SFadd prec emax.
Definition mul : spec_float -> spec_float -> spec_float := SFmul prec emax.
Definition sub : spec_float -> spec_float -> spec_float := SFsub prec emax.
Definition div : spec_float -> spec_float -> spec_float := SFdiv prec emax.

(** The literals [0.6] and [0.75]: the doubles nearest to 6/10 and 3/4. *)
Definition lit_0_6 : spec_float := S754_finite false 5404319552844595 (-53).
Definition lit_0_75 : spec_float := S754_finite false 6755399441055744 (-53).

(** Truth value of a number in a condition: everything but zero. *)
Definition truthy (x : spec_float) : bool :=
  match x with
  | S754_zero _ => false
  | _ => true
  end.

(** Truncation toward zero of a finite value. *)
Definition trunc (s : bool) (m : positive) (e : Z) : Z :=
  cond_Zopp s
    (match e with
     | Zneg p => Zpos m / 2 ^ Zpos p
     | _ => Zpos m * 2 ^ e
     end).

(** The rational number a finite double stands for (0 for the others). *)
Definition to_Q (x : spec_float) : Q :=
  match x with
  | S754_finite s m e =>
      match e with
      | Zneg p => Qmake (cond_Zopp s (Zpos m)) (2 ^ p)
      | _ => inject_Z (cond_Zopp s (Zpos m * 2 ^ e))
      end
  | _ => 0%Q
  end.

(** Rounding to the nearest integer, ties to even ([numpy.rint]). *)
Definition rint (x : spec_float) : spec_float :=
  match x with
  | S754_finite s m (Zneg p) =>
      let '(mrs, _) := shr (shr_record_of_loc (Zpos m) loc_Exact) (Zneg p) (Zpos p) in
      binary_normalize prec emax
        (cond_Zopp s (round_nearest_even (shr_m mrs) (loc_of_shr_record mrs))) 0 s
  | _ => x
  end.

(** [round(x, 1)] on a numpy scalar: scale by ten, [rint], scale back. *)
Definition round1 (x : spec_float) : spec_float :=
  div (rint (mul x (of_Z 10))) (of_Z 10).

End Float64.

(** [int(x)] on a float: NaN and the infinities raise. *)
Definition py_int (x : spec_float) : result Z :=
  match x with
  | S754_zero _ => Ok 0
  | S754_finite s m e => Ok (Float64.trunc s m e)
  | S754_nan => Raise ValueError
  | S754_infinity _ => Raise OverflowError
  end.

(** [str(n)] for an integer. *)
Definition py_str (n : Z) : string := NilZero.string_of_int (Z.to_int n).

(** [f"{n:,}"]: decimal digits in groups of three, separated by commas. *)
Fixpoint group3 (rev_digits : list ascii) : list ascii :=
  match rev_digits with
  | a :: b :: c :: ((_ :: _) as t) => a :: b :: c :: ","%char :: group3 t
  | l => l
  end.

Definition py_format_thousands (n : Z) : string :=
  let digits := list_ascii_of_string (py_str (Z.abs n)) in
  let body := string_of_list_ascii (rev (group3 (rev digits))) in
  if n <? 0 then String "-"%char body else body.

(** ** data_preparation.py *)

(** The integer columns of the tables are [int64] columns: their cells lie
    in [- 2 ^ 63, 2 ^ 63), and an [int64] sum wraps around. *)
Definition int64 (z : Z) : bool := (- 2 ^ 63 <=? z) && (z <? 2 ^ 63).

Definition wrap64 (z : Z) : Z := (z + 2 ^ 63) mod 2 ^ 64 - 2 ^ 63.

(** Rush windows, inclusive on both ends. *)
Definition in_lunch_window (hour : Z) : bool := (12 <=? hour) && (hour <=? 14).
Definition in_dinner_window (hour : Z) : bool := (19 <=? hour) && (hour <=? 22).

(** One sale of the loaded table, columns already renamed.  [order_date] is
    a naive timestamp in seconds since 1970-01-01 00:00. *)
Module Raw.
Record t : Type := mk {
  order_date : Z;
  restaurant_id : Z;
  menu_item_id : Z;
  order_count : Z
}.

(** [dt.hour] and [dt.dayofweek] (Monday = 0; 1970-01-01 was a Thursday). *)
Definition hour (r : t) : Z := (order_date r / 3600) mod 24.
Definition day_of_week (r : t) : Z := (order_date r / 86400 + 3) mod 7.

Definition is_weekend (r : t) : Z := if 5 <=? day_of_week r then 1 else 0.

(** [df.loc[cond, col] = 1] followed by [fillna(0)]. *)
Definition is_lunch_rush (r : t) : Z := if in_lunch_window (hour r) then 1 else 0.
Definition is_dinner_rush (r : t) : Z := if in_dinner_window (hour r) then 1 else 0.
End Raw.

(** Weather draw of [np.random.choice([0, 0.3, 0.7], ...)]. *)
Inductive weather : Type :=
| Normal
| ModerateRain
| HeavyRain.

Definition weather_value (w : weather) : Q :=
  match w with
  | Normal => 0
  | ModerateRain => 3 # 10
  | HeavyRain => 7 # 10
  end.

(** One row of [demand_data]: a restaurant in one hour.  [order_date] is the
    hour bucket of [pd.Grouper(freq='H')], in hours since 1970-01-01 00:00. *)
Module Demand.
Record t : Type := mk {
  order_date : Z;
  restaurant_id : Z;
  order_count : Z;
  is_weekend : Z;
  is_lunch_rush : Z;
  is_dinner_rush : Z;
  weather_impact : weather
}.

Definition hour (r : t) : Z := order_date r mod 24.
End Demand.

(** The group a sale falls in, and the order of the groups in the output of
    [groupby]: by hour bucket, then by restaurant. *)
Definition group_key (r : Raw.t) : Z * Z := (Raw.order_date r / 3600, Raw.restaurant_id r).

Definition key_compare (a b : Z * Z) : comparison :=
  match fst a ?= fst b with
  | Eq => snd a ?= snd b
  | c => c
  end.

(** A group under construction: key, [int64] sum of [order_count], and the
    flags of its first sale ([agg 'first']).  The columns that [agg] does not name
    ([menu_item_id], [hour], [day_of_week], [is_festival]) are dropped. *)
Record group : Type := mk_group {
  g_key : Z * Z;
  g_order_count : Z;
  g_is_weekend : Z;
  g_is_lunch_rush : Z;
  g_is_dinner_rush : Z
}.

Definition group_of (r : Raw.t) : group :=
  mk_group (group_key r) (Raw.order_count r)
           (Raw.is_weekend r) (Raw.is_lunch_rush r) (Raw.is_dinner_rush r).

Fixpoint agg_insert (r : Raw.t) (acc : list group) : list group :=
  match acc with
  | [] => [group_of r]
  | g :: rest =>
      match key_compare (group_key r) (g_key g) with
      | Eq => mk_group (g_key g) (wrap64 (g_order_count g + Raw.order_count r))
                       (g_is_weekend g) (g_is_lunch_rush g) (g_is_dinner_rush g) :: rest
      | Lt => group_of r :: g :: rest
      | Gt => g :: agg_insert r rest
      end
  end.

Definition groupby_agg (df : list Raw.t) : list group :=
  fold_left (fun acc r => agg_insert r acc) df [].

Fixpoint add_weather (draw : nat -> weather) (i : nat) (gs : list group) : list Demand.t :=
  match gs with
  | [] => []
  | g :: rest =>
      Demand.mk (fst (g_key g)) (snd (g_key g)) (g_order_count g)
                (g_is_weekend g) (g_is_lunch_rush g) (g_is_dinner_rush g) (draw i)
      :: add_weather draw (S i) rest
  end.

(** [prepare_swiggy_demand_data], from the loaded table on.  The random
    weather column is the explicit argument [draw]: the draw for row [i].
    On a table without rows the assignment
    [df.loc[..., 'is_lunch_rush'] = 1] raises [ValueError]. *)
Definition prepare_swiggy_demand_data (draw : nat -> weather) (df : list Raw.t) : result (list Demand.t) :=
  match df with
  | [] => Raise ValueError
  | _ :: _ => Ok (add_weather draw 0 (groupby_agg df))
  end.

(** One row of the table with the logistics features.  The two lag columns
    are float64 columns, as [shift] makes them: a cell holds a count
    converted to float64, or is missing (NaN). *)
Module Feat.
Record t : Type := mk {
  order_date : Z;
  restaurant_id : Z;
  order_count : Z;
  is_weekend : Z;
  is_lunch_rush : Z;
  is_dinner_rush : Z;
  weather_impact : weather;
  orders_last_hour : option spec_float;
  orders_last_day_same_hour : option spec_float;
  orders_3h_mean : spec_float;
  is_festival : Z
}.

Definition set_lags (r : t) (a b : option spec_float) : t :=
  mk (order_date r) (restaurant_id r) (order_count r) (is_weekend r)
     (is_lunch_rush r) (is_dinner_rush r) (weather_impact r)
     a b (orders_3h_mean r) (is_festival r).
End Feat.

(** [sort_values(['restaurant_id', 'order_date'])]: a stable sort. *)
Definition row_le (a b : Demand.t) : bool :=
  (Demand.restaurant_id a <? Demand.restaurant_id b)
  || ((Demand.restaurant_id a =? Demand.restaurant_id b)
      && (Demand.order_date a <=? Demand.order_date b)).

Fixpoint insert_row (x : Demand.t) (l : list Demand.t) : list Demand.t :=
  match l with
  | [] => [x]
  | y :: t => if row_le x y then x :: y :: t else y :: insert_row x t
  end.

Definition sort_values (df : list Demand.t) : list Demand.t :=
  fold_right insert_row [] df.

(** The [order_count] values of the rows of [prev] that are in the group of
    [r] ([groupby('restaurant_id')]), oldest first. *)
Definition same_restaurant (rid : Z) (p : Demand.t) : bool :=
  Demand.restaurant_id p =? rid.

Definition group_history (prev : list Demand.t) (r : Demand.t) : list Z :=
  map Demand.order_count (filter (same_restaurant (Demand.restaurant_id r)) prev).

(** [shift(k)] for [k >= 1]: the value [k] steps back in the group,
    converted to float64 as the whole shifted column is, and NaN when the
    group has fewer than [k] earlier rows. *)
Definition shift_value (k : nat) (hist : list Z) : option spec_float :=
  if (List.length hist <? k)%nat then None
  else option_map Float64.of_Z (nth_error hist (List.length hist - k)).

(** [rolling(3, min_periods=1).mean()]: the mean of the last three values of
    the group up to the current row, fewer at the start of the group.  The
    window is computed on float64 values: every count is converted, the
    converted values are added in float64 and the sum is divided by the
    number of values.  (pandas keeps a running sum from window to window;
    the two give the same value as long as every sum is an integer below
    [2 ^ 53], which is the range the properties below are stated for.) *)
Definition last_n {A : Type} (n : nat) (l : list A) : list A :=
  skipn (List.length l - n) l.

Definition sum_Z (l : list Z) : Z := fold_right Z.add 0 l.

Definition sum_float (l : list spec_float) : spec_float :=
  fold_left Float64.add l (S754_zero false).

Definition mean (w : list Z) : spec_float :=
  Float64.div (sum_float (map Float64.of_Z w)) (Float64.of_Z (Z.of_nat (List.length w))).

Definition rolling_mean_3 (hist : list Z) (current : Z) : spec_float :=
  mean (last_n 3 (hist ++ [current])).

(** Days since 1970-01-01 of '2022-10-24', '2022-11-12', '2022-12-25',
    '2023-01-26' and '2023-03-08'. *)
Definition festival_dates : list Z := [19289; 19308; 19351; 19383; 19424].

Definition on_festival (order_date : Z) : Z :=
  if existsb (Z.eqb (order_date / 24)) festival_dates then 1 else 0.

Definition add_features (prev : list Demand.t) (r : Demand.t) : Feat.t :=
  let hist := group_history prev r in
  Feat.mk (Demand.order_date r) (Demand.restaurant_id r) (Demand.order_count r)
          (Demand.is_weekend r) (Demand.is_lunch_rush r) (Demand.is_dinner_rush r)
          (Demand.weather_impact r)
          (shift_value 1 hist) (shift_value 24 hist)
          (rolling_mean_3 hist (Demand.order_count r))
          (on_festival (Demand.order_date r)).

(** Row by row over the sorted table; [prev] holds the rows already seen. *)
Fixpoint features_from (prev rows : list Demand.t) : list Feat.t :=
  match rows with
  | [] => []
  | r :: rest => add_features prev r :: features_from (prev ++ [r]) rest
  end.

(** The table before [fillna]. *)
Definition features_before_fill (df : list Demand.t) : list Feat.t :=
  features_from [] (sort_values df).

(** [fillna(method='bfill')]: a missing cell takes the next defined value of
    its column. *)
Fixpoint bfill {A : Type} (col : list (option A)) : list (option A) :=
  match col with
  | [] => []
  | x :: rest =>
      let rest' := bfill rest in
      match x with
      | Some _ => x
      | None => hd None rest'
      end :: rest'
  end.

(** [fillna(method='ffill')]: a missing cell takes the last defined value of
    its column. *)
Fixpoint ffill_from {A : Type} (last : option A) (col : list (option A)) : list (option A) :=
  match col with
  | [] => []
  | Some v :: rest => Some v :: ffill_from (Some v) rest
  | None :: rest => last :: ffill_from last rest
  end.

Definition ffill {A : Type} (col : list (option A)) : list (option A) :=
  ffill_from None col.

(** A fill is applied to every column of the whole table; only the two lag
    columns can hold missing cells. *)
Fixpoint with_lag_columns (rows : list Feat.t) (c1 c2 : list (option spec_float)) : list Feat.t :=
  match rows, c1, c2 with
  | r :: rows', a :: c1', b :: c2' => Feat.set_lags r a b :: with_lag_columns rows' c1' c2'
  | _, _, _ => []
  end.

Definition fillna (method : list (option spec_float) -> list (option spec_float))
  (df : list Feat.t) : list Feat.t :=
  with_lag_columns df
    (method (map Feat.orders_last_hour df))
    (method (map Feat.orders_last_day_same_hour df)).

Definition create_logistics_features (df : list Demand.t) : list Feat.t :=
  fillna ffill (fillna bfill (features_before_fill df)).

(** ** forecasting_engine.py *)

(** One row of the [future] frame.  [ds] is an hour-aligned timestamp, in
    hours since 1970-01-01 00:00. *)
Module Future.
Record t : Type := mk {
  ds : Z;
  is_weekend : bool;
  is_lunch_rush : Z;
  is_dinner_rush : Z;
  weather_impact : Z;
  is_festival : Z
}.
End Future.

(** The columns of [model.predict(future)] that the loop reads. *)
Module Forecast.
Record t : Type := mk {
  ds : Z;
  yhat : spec_float;
  yhat_lower : spec_float;
  yhat_upper : spec_float;
  is_lunch_rush : spec_float;
  is_dinner_rush : spec_float
}.
End Forecast.

(** A fitted model is used through [predict] only. *)
Definition predictor : Type := list Future.t -> result (list Forecast.t).

(** One record of the returned list.  [hour] is the timestamp that the code
    renders with [strftime('%Y-%m-%d %H:00')]. *)
Module Result.
Record t : Type := mk {
  hour : Z;
  predicted_orders : Z;
  delivery_partners_needed : Z;
  confidence_interval : string;
  rush_period : string
}.
End Result.

(** [pd.date_range(start, periods, freq='H')], for hours that a pandas
    timestamp can hold: they end in the hour 2562047 after 1970-01-01 00:00
    (2262-04-11 23:00), and a range that reaches further raises in pandas,
    which this definition leaves out. *)
Definition date_range (start : Z) (periods : nat) : list Z :=
  map (fun i => start + Z.of_nat i) (seq 0 periods).

Definition day_of_week (ds : Z) : Z := (ds / 24 + 3) mod 7.
Definition hour_of_day (ds : Z) : Z := ds mod 24.

Definition future_row (ds : Z) : Future.t :=
  Future.mk ds
            (5 <=? day_of_week ds)
            (if in_lunch_window (hour_of_day ds) then 1 else 0)
            (if in_dinner_window (hour_of_day ds) then 1 else 0)
            0 0.

(** [max(0, int(row['yhat']))] *)
Definition predicted_orders_of (yhat : spec_float) : result Z :=
  n <- py_int yhat ;; Ok (Z.max 0 n).

(** [max(1, int(predicted_orders * 0.6))].  An integer too large for a float
    raises [OverflowError] in the product; here it becomes an infinity, on
    which [int] raises the same exception. *)
Definition delivery_partners_of (predicted_orders : Z) : result Z :=
  p <- py_int (Float64.mul (Float64.of_Z predicted_orders) Float64.lit_0_6) ;;
  Ok (Z.max 1 p).

Definition rush_period_of (row : Forecast.t) : string :=
  if Float64.truthy (Forecast.is_lunch_rush row) then "Lunch Rush"
  else if Float64.truthy (Forecast.is_dinner_rush row) then "Dinner Rush"
  else "Regular".

(** The body of the loop over [forecast.iterrows()]. *)
Definition translate_row (row : Forecast.t) : result Result.t :=
  predicted_orders <- predicted_orders_of (Forecast.yhat row) ;;
  delivery_partners <- delivery_partners_of predicted_orders ;;
  lower <- py_int (Forecast.yhat_lower row) ;;
  upper <- py_int (Forecast.yhat_upper row) ;;
  Ok (Result.mk (Forecast.ds row) predicted_orders delivery_partners
                (py_str lower ++ "-" ++ py_str upper)
                (rush_period_of row)).

(** [now] is the clock reading in seconds since 1970-01-01 00:00. *)
Definition get_demand_forecast (model : predictor) (now : Z) (hours : Z) : result (list Result.t) :=
  let last_date := now / 3600 in
  if hours + 1 <? 0 then Raise ValueError
  else
    let future_dates := tl (date_range last_date (Z.to_nat (hours + 1))) in
    let future := map future_row future_dates in
    forecast <- model future ;;
    for_each translate_row forecast.

(** The local variables of [calculate_logistics_impact]. *)
Module Metrics.
Record t : Type := mk {
  total_orders : Z;
  total_partners : Z;
  avg_partners_per_hour : spec_float;
  baseline_partners : spec_float;
  partners_saved : spec_float;
  cost_savings : spec_float
}.
End Metrics.

(** The returned dictionary. *)
Module Impact.
Record t : Type := mk {
  total_predicted_orders : Z;
  delivery_partners_saved : Z;
  estimated_cost_savings : string;
  avg_delivery_partners : spec_float
}.
End Impact.

(** The column sums are taken as exact integers, which they are as long as
    the totals fit the [int64] columns of the frame.  A frame built from an
    empty list has no columns, so that the first column access raises. *)
Definition logistics_metrics (forecast_results : list Result.t) : result Metrics.t :=
  match forecast_results with
  | [] => Raise KeyError
  | _ :: _ =>
      let total_orders := sum_Z (map Result.predicted_orders forecast_results) in
      let total_partners := sum_Z (map Result.delivery_partners_needed forecast_results) in
      let avg_partners_per_hour :=
        Float64.div (Float64.of_Z total_partners)
                    (Float64.of_Z (Z.of_nat (List.length forecast_results))) in
      let baseline_partners := Float64.mul (Float64.of_Z total_orders) Float64.lit_0_75 in
      let partners_saved := Float64.sub baseline_partners (Float64.of_Z total_partners) in
      let cost_savings := Float64.mul partners_saved (Float64.of_Z 150) in
      Ok (Metrics.mk total_orders total_partners avg_partners_per_hour
                     baseline_partners partners_saved cost_savings)
  end.

(** The rupee sign, U+20B9, in UTF-8. *)
Definition rupee : string :=
  String (ascii_of_nat 226) (String (ascii_of_nat 130) (String (ascii_of_nat 185) EmptyString)).

Definition calculate_logistics_impact (forecast_results : list Result.t) : result Impact.t :=
  m <- logistics_metrics forecast_results ;;
  saved <- py_int (Metrics.partners_saved m) ;;
  cost <- py_int (Metrics.cost_savings m) ;;
  Ok (Impact.mk (Metrics.total_orders m) saved
                (rupee ++ py_format_thousands cost)
                (Float64.round1 (Metrics.avg_partners_per_hour m))).

(** ** Rounding to nearest-even, stated arithmetically

    [shifted m k] is the state of the shift register of [SpecFloat] after
    [k] right shifts of [m]: the quotient by [2 ^ k] and the position of the
    remainder with respect to one half.  [rne_div m k] is the integer nearest
    to [m / 2 ^ k], ties to even. *)
Definition shifted (m : Z) (k : Z) : shr_record :=
  Build_shr_record (m / 2 ^ k)
                   (2 ^ (k - 1) <=? m mod 2 ^ k)
                   (negb ((m mod 2 ^ k) mod 2 ^ (k - 1) =? 0)).


Definition rne_div (m k : Z) : Z :=
  let q := m / 2 ^ k in
  let r := m mod 2 ^ k in
  let h := 2 ^ (k - 1) in
  if r <? h then q
  else if h <? r then q + 1
  else if Z.even q then q else q + 1.

(** ** Doubles with an exact value *)

(** The double of sign [s] and magnitude [n * 2 ^ t], for [0 < n < 2 ^ 53]:
    the mantissa is [n] shifted to 53 digits. *)
Definition fz (s : bool) (n t : Z) : spec_float :=
  S754_finite s (Z.to_pos (n * 2 ^ (53 - Zdigits2 n))) (t + Zdigits2 n - 53).

(** [x] is the double whose value is exactly [v * 2 ^ t]. *)
Definition represents (x : spec_float) (v t : Z) : Prop :=
  (v = 0 /\ exists s, x = S754_zero s)
  \/ (0 < v /\ x = fz false v t)
  \/ (v < 0 /\ x = fz true (- v) t).

(** The rational [v * 2 ^ t]. *)
Definition dyadic (v t : Z) : Q :=
  if t <? 0 then Qmake v (Z.to_pos (2 ^ (- t))) else inject_Z (v * 2 ^ t).

(** ** The staffing rule in the words of the specification *)

(** [max(1, floor(predicted_orders * ratio))] with the ratio 0.6 as the
    rational 6/10. *)
Definition spec_partners_needed (predicted_orders : Z) : Z :=
  Z.max 1 (Qfloor (inject_Z predicted_orders * (6 # 10))).

(** A model whose every prediction is undefined. *)
Definition nan_model : predictor :=
  fun future =>
    Ok (map (fun f => Forecast.mk (Future.ds f) S754_nan S754_nan S754_nan
                                  (Float64.of_Z (Future.is_lunch_rush f))
                                  (Float64.of_Z (Future.is_dinner_rush f)))
            future).

(** A model that predicts [y] orders for every hour, with the interval
    [y - 2, y + 3], and returns the rush flags of the future rows. *)
Definition flat_model (y : Z) : predictor :=
  fun future =>
    Ok (map (fun f => Forecast.mk (Future.ds f) (Float64.of_Z y)
                                  (Float64.of_Z (y - 2)) (Float64.of_Z (y + 3))
                                  (Float64.of_Z (Future.is_lunch_rush f))
                                  (Float64.of_Z (Future.is_dinner_rush f)))
            future).

(** A model fitted without any effect of the lunch regressor: it predicts [y]
    orders for every hour, with the interval [y - 2, y + 3]; the lunch column
    of its forecast is the effect of the regressor, 0 in every row, and the
    dinner column is the dinner flag of the future row. *)
Definition no_lunch_effect_model (y : Z) : predictor :=
  fun future =>
    Ok (map (fun f => Forecast.mk (Future.ds f) (Float64.of_Z y)
                                  (Float64.of_Z (y - 2)) (Float64.of_Z (y + 3))
                                  (Float64.mul (Float64.of_Z 0)
                                               (Float64.of_Z (Future.is_lunch_rush f)))
                                  (Float64.of_Z (Future.is_dinner_rush f)))
            future).

(** ** Rush flags as functions of the hour *)

Definition lunch_flag (hour : Z) : Z := if in_lunch_window hour then 1 else 0.
Definition dinner_flag (hour : Z) : Z := if in_dinner_window hour then 1 else 0.

(** Three sales of restaurant 4 on 1970-01-01: two within the hour from
    13:00 and one at 20:30. *)
Definition sample_sales : list Raw.t :=
  [Raw.mk (13 * 3600 + 5) 4 1 2; Raw.mk (13 * 3600 + 900) 4 2 3; Raw.mk (20 * 3600 + 1800) 4 1 1].

(** Every group carries the flags of the hour of its key. *)
Definition group_flags_ok (g : group) : Prop :=
  g_is_lunch_rush g = lunch_flag (fst (g_key g) mod 24)
  /\ g_is_dinner_rush g = dinner_flag (fst (g_key g) mod 24).

(** ** The rush label and the forecast frame *)

(** The label as a function of the two flags alone. *)
Definition label_of_flags (lunch dinner : bool) : string :=
  if lunch then "Lunch Rush" else if dinner then "Dinner Rush" else "Regular".

Definition count_label (label : string) (rs : list Result.t) : nat :=
  List.length (filter (fun r => String.eqb (Result.rush_period r) label) rs).

Fixpoint all2 {A B : Type} (p : A -> B -> bool) (l : list A) (l' : list B) : bool :=
  match l, l' with
  | [], [] => true
  | x :: t, y :: t' => p x y && all2 p t t'
  | _, _ => false
  end.

(** The forecast frame has one row per future row, with the same timestamp
    and with rush columns that are true exactly where the flag is 1. *)
Definition carries_flags (future : list Future.t) (forecast : list Forecast.t) : bool :=
  all2 (fun f c =>
          (Forecast.ds c =? Future.ds f)
          && Bool.eqb (Float64.truthy (Forecast.is_lunch_rush c)) (Future.is_lunch_rush f =? 1)
          && Bool.eqb (Float64.truthy (Forecast.is_dinner_rush c)) (Future.is_dinner_rush f =? 1))
       future forecast.


(** The future frame built by [get_demand_forecast]. *)
Definition future_frame (now hours : Z) : list Future.t :=
  map future_row (tl (date_range (now / 3600) (Z.to_nat (hours + 1)))).

(** ** Forecasts for the summary *)

(** A result as the translation loop builds it: the orders are not negative
    and the partners are computed from the orders. *)
Definition translated (r : Result.t) : bool :=
  (0 <=? Result.predicted_orders r)
  && match delivery_partners_of (Result.predicted_orders r) with
     | Ok p => p =? Result.delivery_partners_needed r
     | Raise _ => false
     end.

Definition positive_multiple_of_5 (r : Result.t) : bool :=
  (0 <? Result.predicted_orders r) && (Result.predicted_orders r mod 5 =? 0).

(** A model that predicts the values of [ys], hour after hour. *)
Definition list_model (ys : list Z) : predictor :=
  fun future =>
    Ok (map (fun fy => Forecast.mk (Future.ds (fst fy)) (Float64.of_Z (snd fy))
                                   (Float64.of_Z (snd fy)) (Float64.of_Z (snd fy))
                                   (Float64.of_Z (Future.is_lunch_rush (fst fy)))
                                   (Float64.of_Z (Future.is_dinner_rush (fst fy))))
            (combine future ys)).

(** ** The series of one restaurant *)

(** The demand row a feature row was built from. *)
Definition demand_of (f : Feat.t) : Demand.t :=
  Demand.mk (Feat.order_date f) (Feat.restaurant_id f) (Feat.order_count f)
            (Feat.is_weekend f) (Feat.is_lunch_rush f) (Feat.is_dinner_rush f)
            (Feat.weather_impact f).

Definition of_restaurant (rid : Z) (f : Feat.t) : bool :=
  Feat.restaurant_id f =? rid.

(** The rows of restaurant [rid] in the feature table before the fill, in
    the order of the table. *)
Definition series (df : list Demand.t) (rid : Z) : list Feat.t :=
  filter (of_restaurant rid) (features_before_fill df).

Definition row_le_prop (a b : Demand.t) : Prop := row_le a b = true.

(** 48 hourly observations of restaurant 7 with [order_count] alternating
    between 10 and 20, no flag set and normal weather. *)
Definition alternating_history : list Demand.t :=
  map (fun i => Demand.mk (Z.of_nat i) 7 (if Nat.even i then 10 else 20) 0 0 0 Normal)
      (seq 0 48).

(** The columns that hold no missing cell: those of the demand table, the
    rolling mean and the festival flag. *)
Definition complete_columns (f : Feat.t) : Demand.t * spec_float * Z :=
  (demand_of f, Feat.orders_3h_mean f, Feat.is_festival f).

Definition defined {A : Type} (cell : option A) : bool :=
  match cell with
  | Some _ => true
  | None => false
  end.

(** One observation: restaurant 7 at hour 0 with 10 orders. *)
Definition single_observation : list Demand.t :=
  [Demand.mk 0 7 10 0 0 0 Normal].

(** A double that is not negative: a zero, a positive finite value or the
    positive infinity. *)
Definition not_negative (x : spec_float) : Prop :=
  match x with
  | S754_zero _ => True
  | S754_finite s _ _ => s = false
  | S754_infinity s => s = false
  | S754_nan => True
  end.

(** ** The groups of the hourly aggregation *)

Definition key_lt (a b : Z * Z) : Prop := key_compare a b = Lt.

Definition key_eqb (a b : Z * Z) : bool :=
  match key_compare a b with
  | Eq => true
  | _ => false
  end.

(** The key of a row of the demand table: hour bucket and restaurant. *)
Definition demand_key (r : Demand.t) : Z * Z :=
  (Demand.order_date r, Demand.restaurant_id r).

(** The sales that fall in the group of key [k]. *)
Definition sales_of (k : Z * Z) (df : list Raw.t) : list Raw.t :=
  filter (fun s => key_eqb (group_key s) k) df.

(** The sum of [order_count] over the groups of key [k]. *)
Definition group_total (k : Z * Z) (gs : list group) : Z :=
  sum_Z (map g_order_count (filter (fun g => key_eqb (g_key g) k) gs)).

Definition weekend_flag (order_date : Z) : Z :=
  if 5 <=? day_of_week order_date then 1 else 0.

(** Every group carries the weekend flag of the day of its key. *)
Definition group_weekend_ok (g : group) : Prop :=
  g_is_weekend g = weekend_flag (fst (g_key g)).

(** Two sales of [2 ^ 62] orders each, of restaurant 4 in the hour from 13:00
    of 1970-01-01. *)
Definition overflowing_sales : list Raw.t :=
  [Raw.mk (13 * 3600) 4 1 (2 ^ 62); Raw.mk (13 * 3600 + 60) 4 2 (2 ^ 62)].

(** Two sales of restaurant 4 on Saturday 1970-01-03, at 13:00 and 13:20,
    and one of restaurant 9 at 13:40. *)
Definition saturday_sales : list Raw.t :=
  [Raw.mk (2 * 86400 + 13 * 3600) 4 1 2;
   Raw.mk (2 * 86400 + 13 * 3600 + 1200) 4 2 5;
   Raw.mk (2 * 86400 + 13 * 3600 + 2400) 9 1 1].

(** ** The values that the fill gives *)

(** The first and the last defined cell of a column. *)
Fixpoint first_defined {A : Type} (col : list (option A)) : option A :=
  match col with
  | [] => None
  | Some v :: _ => Some v
  | None :: rest => first_defined rest
  end.

Fixpoint last_defined {A : Type} (col : list (option A)) : option A :=
  match col with
  | [] => None
  | x :: rest =>
      match last_defined rest with
      | Some w => Some w
      | None => x
      end
  end.

(** The first defined cell at or below position [i]; the last defined cell of
    the column when there is none. *)
Definition filled {A : Type} (col : list (option A)) (i : nat) : option A :=
  match first_defined (skipn i col) with
  | Some v => Some v
  | None => last_defined col
  end.

(** Row [i] of [table] starts the rows of its restaurant. *)
Definition starts_restaurant (table : list Feat.t) (i : nat) (f : Feat.t) : Prop :=
  forall (j : nat) (p : Feat.t),
    (j < i)%nat -> nth_error table j = Some p -> Feat.restaurant_id p <> Feat.restaurant_id f.

(** The order of the sorted table. *)
Definition feat_le (a b : Feat.t) : Prop :=
  Feat.restaurant_id a < Feat.restaurant_id b
  \/ (Feat.restaurant_id a = Feat.restaurant_id b /\ Feat.order_date a <= Feat.order_date b).

(** One observation of restaurant 3 and two of restaurant 7. *)
Definition two_restaurants : list Demand.t :=
  [Demand.mk 1 7 20 0 0 0 Normal; Demand.mk 0 3 5 0 0 0 Normal; Demand.mk 0 7 10 0 0 0 Normal].

(** ** Finite predictions and the label of an hour *)

(** A double that [int] accepts: a zero or a finite value. *)
Definition finite (x : spec_float) : bool :=
  match x with
  | S754_zero _ => true
  | S754_finite _ _ _ => true
  | _ => false
  end.

Definition finite_row (c : Forecast.t) : bool :=
  finite (Forecast.yhat c) && finite (Forecast.yhat_lower c) && finite (Forecast.yhat_upper c).

(** The rush label of an hour of the day. *)
Definition hour_label (hour : Z) : string :=
  label_of_flags (in_lunch_window hour) (in_dinner_window hour).

(** A model whose [predict] fails with the exception [e]. *)
Definition failing_model (e : exn) : predictor := fun _ => Raise e.

(** ** Hours with few and with many orders *)

Definition at_least_two (r : Result.t) : bool := 2 <=? Result.predicted_orders r.
Definition at_most_one (r : Result.t) : bool := Result.predicted_orders r <=? 1.

(** A model that returns a forecast frame without rows. *)
Definition empty_model : predictor := fun _ => Ok [].

(** ** Reading a formatted number *)

Definition not_comma (c : ascii) : bool := negb (Ascii.eqb c ","%char).

(** The text without its commas. *)
Definition without_commas (s : string) : string :=
  string_of_list_ascii (filter not_comma (list_ascii_of_string s)).

(** ** streamlit_app.py *)

(** [needle in hay] for two strings. *)
Fixpoint py_in (needle hay : string) : bool :=
  match hay with
  | EmptyString => prefix needle hay
  | String _ rest => prefix needle hay || py_in needle rest
  end.

(** One row of [staffing_df]: the columns 'Time', 'Predicted Orders',
    'Delivery Partners Needed' and 'Rush Period' of a forecast record.
    [time] is the timestamp that the code renders with
    [strftime('%b %d %I:%M %p')]. *)
Module Staffing.
Record t : Type := mk {
  time : Z;
  predicted_orders : Z;
  delivery_partners_needed : Z;
  rush_period : string
}.
End Staffing.

Definition staffing_row (r : Result.t) : Staffing.t :=
  Staffing.mk (Result.hour r) (Result.predicted_orders r)
              (Result.delivery_partners_needed r) (Result.rush_period r).

(** The style of the four cells of a row. *)
Definition highlight_rush (row : Staffing.t) : list string :=
  let color :=
    if py_in "Lunch" (Staffing.rush_period row) then "background-color: #FFD700"%string
    else if py_in "Dinner" (Staffing.rush_period row) then "background-color: #1E90FF"%string
    else EmptyString in
  [color; EmptyString; EmptyString; EmptyString].

(** The masks of the chart. *)
Definition lunch_mask (r : Result.t) : bool := String.eqb (Result.rush_period r) "Lunch Rush".
Definition dinner_mask (r : Result.t) : bool := String.eqb (Result.rush_period r) "Dinner Rush".

(** ** The feature table of the demand table *)

(** Strictly earlier in the sorted table: a smaller restaurant, or the same
    restaurant at an earlier hour. *)
Definition feat_lt (a b : Feat.t) : Prop :=
  Feat.restaurant_id a < Feat.restaurant_id b
  \/ (Feat.restaurant_id a = Feat.restaurant_id b /\ Feat.order_date a < Feat.order_date b).

(** Sales of restaurant 4 at 09:10 and at 14:30 of 1970-01-01, none between. *)
Definition sales_with_gap : list Raw.t :=
  [Raw.mk (14 * 3600 + 1800) 4 1 6; Raw.mk (9 * 3600 + 600) 4 2 3].

(** Restaurant 7 with [2 ^ 53 + 1] orders in the first hour of 1970-01-01
    and 5 orders in the second. *)
Definition huge_counts : list Demand.t :=
  [Demand.mk 0 7 (2 ^ 53 + 1) 0 0 0 Normal; Demand.mk 1 7 5 0 0 0 Normal].

(** ** The rolling mean in the words of the specification *)

(** The counts of restaurant [rid] over the hour [t] and the two hours
    before it. *)
Definition in_hours (rid t : Z) (r : Demand.t) : bool :=
  same_restaurant rid r && (t - 2 <=? Demand.order_date r) && (Demand.order_date r <=? t).

Definition spec_hour_window (df : list Demand.t) (rid t : Z) : list Z :=
  map Demand.order_count (filter (in_hours rid t) df).

Definition spec_mean (w : list Z) : Q :=
  (inject_Z (sum_Z w) / inject_Z (Z.of_nat (List.length w)))%Q.

(** A restaurant whose series has a row for every hour from its first to its
    last. *)
Definition hourly (s : list Feat.t) : Prop :=
  forall (j : nat) (p q : Feat.t),
    nth_error s j = Some p -> nth_error s (S j) = Some q ->
    Feat.order_date q = Feat.order_date p + 1.

(** Restaurant 7 with 3 orders in the hour from 09:00 and 6 orders in the
    hour from 14:00 of 1970-01-01, and no row between them. *)
Definition gap_history : list Demand.t :=
  [Demand.mk 9 7 3 0 0 0 Normal; Demand.mk 14 7 6 0 0 0 Normal].

(** * Properties *)

(** ** Binary64 rounding *)

Lemma digits2_pos_bounds (p : positive) :
  2 ^ (Zpos (digits2_pos p) - 1) <= Zpos p < 2 ^ Zpos (digits2_pos p).
Proof.
  induction p as [p IH | p IH |]; cbn [digits2_pos].
  - rewrite Pos2Z.inj_succ.
    replace (Z.succ (Zpos (digits2_pos p)) - 1) with (Z.succ (Zpos (digits2_pos p) - 1)) by lia.
    rewrite !Z.pow_succ_r by lia. lia.
  - rewrite Pos2Z.inj_succ.
    replace (Z.succ (Zpos (digits2_pos p)) - 1) with (Z.succ (Zpos (digits2_pos p) - 1)) by lia.
    rewrite !Z.pow_succ_r by lia. lia.
  - cbn. lia.
Qed.

Lemma Zdigits2_bounds (m : Z) :
  0 < m -> 2 ^ (Zdigits2 m - 1) <= m < 2 ^ Zdigits2 m.
Proof.
  destruct m as [| p | p]; try lia. intros _. apply digits2_pos_bounds.
Qed.

Lemma Zdigits2_pos (m : Z) : 0 < m -> 0 < Zdigits2 m.
Proof. destruct m; cbn; lia. Qed.

Lemma Zdigits2_unique (m d : Z) :
  2 ^ (d - 1) <= m < 2 ^ d -> 0 < m -> Zdigits2 m = d.
Proof.
  intros H Hm.
  pose proof (Zdigits2_bounds m Hm) as B.
  pose proof (Zdigits2_pos m Hm) as P.
  assert (Hd : 0 < d).
  { destruct (Z.ltb_spec 0 d); [assumption|].
    rewrite (Z.pow_neg_r 2 d) in H by lia || (destruct (Z.eq_dec d 0); [subst; cbn in H; lia | lia]).
    lia. }
  destruct (Z.lt_trichotomy (Zdigits2 m) d) as [L | [E | G]]; [| assumption |].
  - assert (2 ^ Zdigits2 m <= 2 ^ (d - 1)) by (apply Z.pow_le_mono_r; lia). lia.
  - assert (2 ^ d <= 2 ^ (Zdigits2 m - 1)) by (apply Z.pow_le_mono_r; lia). lia.
Qed.

Lemma iter_pos_nat {A : Type} (f : A -> A) (p : positive) (x : A) :
  iter_pos f p x = Nat.iter (Pos.to_nat p) f x.
Proof.
  revert x. induction p as [p IH | p IH |]; intros x; cbn [iter_pos].
  - rewrite !IH, Pos2Nat.inj_xI.
    replace (S (2 * Pos.to_nat p)) with (Pos.to_nat p + (Pos.to_nat p + 1))%nat by lia.
    rewrite !Nat.iter_add. reflexivity.
  - rewrite !IH, Pos2Nat.inj_xO.
    replace (2 * Pos.to_nat p)%nat with (Pos.to_nat p + Pos.to_nat p)%nat by lia.
    rewrite Nat.iter_add. reflexivity.
  - reflexivity.
Qed.

Lemma shr_1_nonneg (m : Z) (r s : bool) :
  0 <= m ->
  shr_1 (Build_shr_record m r s) = Build_shr_record (m / 2) (Z.odd m) (r || s).
Proof.
  intros Hm. destruct m as [| [p | p |] | p]; try lia; cbn [shr_1].
  - reflexivity.
  - f_equal. rewrite Pos2Z.inj_xI. apply Z.div_unique with (r := 1); lia.
  - f_equal. rewrite Pos2Z.inj_xO. apply Z.div_unique with (r := 0); lia.
  - reflexivity.
Qed.

Lemma iter_shr_1 (m : Z) (n : nat) :
  0 <= m ->
  Nat.iter (S n) shr_1 (Build_shr_record m false false) = shifted m (Z.of_nat (S n)).
Proof.
  intros Hm. induction n as [| n IH].
  - cbn [Nat.iter nat_rect]. rewrite shr_1_nonneg by assumption.
    unfold shifted. cbn [Z.of_nat Pos.of_succ_nat]. 
    change (2 ^ (1 - 1)) with 1. change (2 ^ 1) with 2.
    rewrite Z.mod_1_r. cbn [Z.eqb negb orb].
    f_equal. rewrite Zodd_mod. 
    pose proof (Z.mod_pos_bound m 2 ltac:(lia)).
    destruct (Z.eqb_spec (m mod 2) 1), (Z.leb_spec 1 (m mod 2)); lia || reflexivity.
  - change (Nat.iter (S (S n)) shr_1 ?x) with (shr_1 (Nat.iter (S n) shr_1 x)).
    rewrite IH. unfold shifted.
    set (k := Z.of_nat (S n)).
    assert (Hk : 0 < k) by (unfold k; lia).
    replace (Z.of_nat (S (S n))) with (k + 1) by (unfold k; lia).
    replace (k + 1 - 1) with k by lia.
    assert (P : 0 < 2 ^ k) by (apply Z.pow_pos_nonneg; lia).
    assert (P' : 0 < 2 ^ (k - 1)) by (apply Z.pow_pos_nonneg; lia).
    assert (E2 : 2 ^ k = 2 * 2 ^ (k - 1)).
    { replace k with (Z.succ (k - 1)) at 1 by lia. rewrite Z.pow_succ_r by lia. reflexivity. }
    assert (E3 : 2 ^ (k + 1) = 2 ^ k * 2) by (rewrite Z.pow_add_r by lia; reflexivity).
    rewrite shr_1_nonneg by (apply Z.div_pos; lia).
    pose proof (Z.mod_pos_bound m (2 ^ k) P) as Bm.
    pose proof (Z.mod_pos_bound (m / 2 ^ k) 2 ltac:(lia)) as Bq.
    assert (Em : m mod 2 ^ (k + 1) = m mod 2 ^ k + 2 ^ k * ((m / 2 ^ k) mod 2)).
    { rewrite E3. rewrite Z.rem_mul_r by lia. reflexivity. }
    f_equal.
    + rewrite E3. rewrite Z.div_div by lia. reflexivity.
    + rewrite Zodd_mod, Em.
      destruct (Z.eqb_spec ((m / 2 ^ k) mod 2) 1), (Z.leb_spec (2 ^ k) (m mod 2 ^ k + 2 ^ k * ((m / 2 ^ k) mod 2))); try reflexivity; nia.
    + rewrite Em.
      replace ((m mod 2 ^ k + 2 ^ k * ((m / 2 ^ k) mod 2)) mod 2 ^ k) with (m mod 2 ^ k).
      2:{ rewrite (Z.mul_comm (2 ^ k)), Z.mod_add by lia. rewrite Z.mod_mod by lia. reflexivity. }
      pose proof (Z.mod_pos_bound (m mod 2 ^ k) (2 ^ (k - 1)) P') as Br.
      pose proof (Z.div_mod (m mod 2 ^ k) (2 ^ (k - 1)) ltac:(lia)) as Dv.
      assert (Bd : 0 <= (m mod 2 ^ k) / 2 ^ (k - 1) < 2).
      { split; [apply Z.div_pos; lia | apply Z.div_lt_upper_bound; lia]. }
      assert (Cd : (m mod 2 ^ k) / 2 ^ (k - 1) = 0 \/ (m mod 2 ^ k) / 2 ^ (k - 1) = 1) by lia.
      destruct (Z.leb_spec (2 ^ (k - 1)) (m mod 2 ^ k)),
               (Z.eqb_spec ((m mod 2 ^ k) mod 2 ^ (k - 1)) 0),
               (Z.eqb_spec (m mod 2 ^ k) 0); cbn; try reflexivity;
        exfalso; destruct Cd as [Cd | Cd]; rewrite Cd in Dv; lia.
Qed.

Lemma pow2_pos (k : Z) : 0 <= k -> 0 < 2 ^ k.
Proof. intros. apply Z.pow_pos_nonneg; lia. Qed.

Lemma pow2_half (k : Z) : 0 < k -> 2 ^ k = 2 * 2 ^ (k - 1).
Proof.
  intros. replace k with (Z.succ (k - 1)) at 1 by lia.
  rewrite Z.pow_succ_r by lia. reflexivity.
Qed.

Lemma round_shifted (m k : Z) :
  0 <= m -> 0 < k ->
  round_nearest_even (shr_m (shifted m k)) (loc_of_shr_record (shifted m k)) = rne_div m k.
Proof.
  intros Hm Hk. unfold shifted, rne_div. cbn [shr_m loc_of_shr_record].
  pose proof (pow2_pos (k - 1) ltac:(lia)) as Ph.
  pose proof (pow2_half k Hk) as E2.
  pose proof (Z.mod_pos_bound m (2 ^ k) ltac:(lia)) as Bm.
  pose proof (Z.mod_pos_bound (m mod 2 ^ k) (2 ^ (k - 1)) Ph) as Br.
  pose proof (Z.div_mod (m mod 2 ^ k) (2 ^ (k - 1)) ltac:(lia)) as Dv.
  assert (Bd : 0 <= (m mod 2 ^ k) / 2 ^ (k - 1) < 2).
  { split; [apply Z.div_pos; lia | apply Z.div_lt_upper_bound; lia]. }
  assert (Cd : (m mod 2 ^ k) / 2 ^ (k - 1) = 0 \/ (m mod 2 ^ k) / 2 ^ (k - 1) = 1) by lia.
  destruct (Z.leb_spec (2 ^ (k - 1)) (m mod 2 ^ k)),
           (Z.eqb_spec ((m mod 2 ^ k) mod 2 ^ (k - 1)) 0),
           (Z.ltb_spec (m mod 2 ^ k) (2 ^ (k - 1))),
           (Z.ltb_spec (2 ^ (k - 1)) (m mod 2 ^ k));
    cbn [negb round_nearest_even]; try reflexivity;
    exfalso; destruct Cd as [Cd | Cd]; rewrite Cd in Dv; lia.
Qed.

Lemma shr_exact (m e k : Z) :
  0 <= m -> 0 < k ->
  shr (shr_record_of_loc m loc_Exact) e k = (shifted m k, e + k).
Proof.
  intros Hm Hk. destruct k as [| p | p]; try lia.
  cbn [shr shr_record_of_loc]. rewrite iter_pos_nat.
  destruct (Pos2Nat.is_succ p) as [n En]. rewrite En.
  rewrite iter_shr_1 by assumption.
  replace (Z.of_nat (S n)) with (Z.pos p) by lia. reflexivity.
Qed.

Lemma rne_div_exact (m k : Z) :
  0 < k -> m mod 2 ^ k = 0 -> rne_div m k = m / 2 ^ k.
Proof.
  intros Hk E. unfold rne_div. rewrite E.
  pose proof (pow2_pos (k - 1) ltac:(lia)).
  destruct (Z.ltb_spec 0 (2 ^ (k - 1))); [reflexivity | lia].
Qed.

Lemma rne_div_near (m k : Z) :
  0 < k ->
  m - 2 ^ (k - 1) <= rne_div m k * 2 ^ k <= m + 2 ^ (k - 1).
Proof.
  intros Hk. unfold rne_div.
  pose proof (pow2_pos (k - 1) ltac:(lia)) as Ph.
  pose proof (pow2_half k Hk) as E2.
  pose proof (Z.mod_pos_bound m (2 ^ k) ltac:(lia)) as Bm.
  pose proof (Z.div_mod m (2 ^ k) ltac:(lia)) as Dv.
  destruct (Z.ltb_spec (m mod 2 ^ k) (2 ^ (k - 1)));
    [| destruct (Z.ltb_spec (2 ^ (k - 1)) (m mod 2 ^ k)); [| destruct (Z.even (m / 2 ^ k))]]; lia.
Qed.

Lemma rne_div_unique (m k q : Z) :
  0 < k ->
  q * 2 ^ k - 2 ^ (k - 1) < m < q * 2 ^ k + 2 ^ (k - 1) ->
  rne_div m k = q.
Proof.
  intros Hk H.
  pose proof (rne_div_near m k Hk) as N.
  pose proof (pow2_pos (k - 1) ltac:(lia)) as Ph.
  pose proof (pow2_half k Hk) as E2.
  assert (- 2 ^ k < (rne_div m k - q) * 2 ^ k < 2 ^ k) by lia.
  nia.
Qed.

Lemma fexp_normal (d : Z) :
  -1021 <= d -> fexp 53 1024 d = d - 53.
Proof. intros. unfold fexp, emin. lia. Qed.

Lemma binary_round_aux_shift (s : bool) (m e : Z) :
  0 < m ->
  53 < Zdigits2 m ->
  -1074 <= e + Zdigits2 m - 53 <= 970 ->
  binary_round_aux 53 1024 s m e loc_Exact =
    let k := Zdigits2 m - 53 in
    let m1 := rne_div m k in
    if m1 =? 2 ^ 53 then S754_finite s (2 ^ 52)%positive (e + k + 1)
    else S754_finite s (Z.to_pos m1) (e + k).
Proof.
  intros Hm Hd He. cbv zeta.
  set (k := Zdigits2 m - 53).
  assert (Hk : 0 < k) by (unfold k; lia).
  pose proof (Zdigits2_bounds m Hm) as Bm.
  pose proof (pow2_pos k ltac:(lia)) as Pk.
  pose proof (pow2_pos (k - 1) ltac:(lia)) as Ph.
  pose proof (pow2_half k Hk) as E2.
  assert (E53 : 2 ^ Zdigits2 m = 2 ^ 53 * 2 ^ k).
  { unfold k. rewrite <- Z.pow_add_r by lia. f_equal. lia. }
  assert (E52 : 2 ^ (Zdigits2 m - 1) = 2 ^ 52 * 2 ^ k).
  { unfold k. rewrite <- Z.pow_add_r by lia. f_equal. lia. }
  assert (Bq : 2 ^ 52 <= m / 2 ^ k < 2 ^ 53).
  { split; [apply Z.div_le_lower_bound; lia | apply Z.div_lt_upper_bound; lia]. }
  assert (B1 : 2 ^ 52 <= rne_div m k <= 2 ^ 53).
  { unfold rne_div. 
    destruct (Z.ltb_spec (m mod 2 ^ k) (2 ^ (k - 1)));
    [| destruct (Z.ltb_spec (2 ^ (k - 1)) (m mod 2 ^ k)); [| destruct (Z.even (m / 2 ^ k))]]; lia. }
  unfold binary_round_aux, shr_fexp.
  replace (fexp 53 1024 (Zdigits2 m + e) - e) with k by (rewrite fexp_normal by lia; unfold k; lia).
  rewrite shr_exact by lia.
  rewrite round_shifted by lia.
  destruct (Z.eqb_spec (rne_div m k) (2 ^ 53)) as [E | NE].
  - rewrite E. change (Zdigits2 (2 ^ 53)) with 54.
    replace (fexp 53 1024 (54 + (e + k)) - (e + k)) with 1 by (rewrite fexp_normal by (unfold k; lia); lia).
    rewrite shr_exact by lia.
    change (shr_m (shifted (2 ^ 53) 1)) with (2 ^ 52).
    change (2 ^ 52) with (Z.pos (2 ^ 52)).
    replace (e + k + 1 <=? 1024 - 53) with true by (symmetry; apply Z.leb_le; unfold k; lia).
    reflexivity.
  - assert (D1 : Zdigits2 (rne_div m k) = 53) by (apply Zdigits2_unique; change (2 ^ (53 - 1)) with (2 ^ 52); lia).
    rewrite D1.
    replace (fexp 53 1024 (53 + (e + k)) - (e + k)) with 0 by (rewrite fexp_normal by (unfold k; lia); lia).
    cbn [shr shr_record_of_loc shr_m].
    destruct (rne_div m k) as [| p | p] eqn:E1; try lia.
    replace (e + k <=? 1024 - 53) with true by (symmetry; apply Z.leb_le; unfold k; lia).
    reflexivity.
Qed.

(** ** Operations without rounding error *)

Lemma Zdigits2_le_53 (n : Z) : 0 < n < 2 ^ 53 -> 0 < Zdigits2 n <= 53.
Proof.
  intros [Hn Hb]. pose proof (Zdigits2_bounds n Hn) as B.
  pose proof (Zdigits2_pos n Hn) as P. split; [assumption|].
  destruct (Z.le_gt_cases (Zdigits2 n) 53) as [L | G]; [assumption|].
  assert (2 ^ 53 <= 2 ^ (Zdigits2 n - 1)) by (apply Z.pow_le_mono_r; lia). lia.
Qed.

Lemma Zdigits2_mul_pow2 (n j : Z) :
  0 < n -> 0 <= j -> Zdigits2 (n * 2 ^ j) = Zdigits2 n + j.
Proof.
  intros Hn Hj. pose proof (Zdigits2_bounds n Hn) as B.
  pose proof (Zdigits2_pos n Hn) as P.
  pose proof (pow2_pos j Hj) as Pj.
  apply Zdigits2_unique; [| nia].
  replace (Zdigits2 n + j - 1) with (Zdigits2 n - 1 + j) by lia.
  rewrite !Z.pow_add_r by lia. nia.
Qed.

Lemma mantissa_53 (n : Z) :
  0 < n < 2 ^ 53 ->
  2 ^ 52 <= n * 2 ^ (53 - Zdigits2 n) < 2 ^ 53.
Proof.
  intros Hn. pose proof (Zdigits2_le_53 n Hn) as D.
  pose proof (Zdigits2_bounds n ltac:(lia)) as B.
  pose proof (pow2_pos (53 - Zdigits2 n) ltac:(lia)) as Pj.
  assert (E53 : 2 ^ 53 = 2 ^ Zdigits2 n * 2 ^ (53 - Zdigits2 n)).
  { rewrite <- Z.pow_add_r by lia. f_equal. lia. }
  assert (E52 : 2 ^ 52 = 2 ^ (Zdigits2 n - 1) * 2 ^ (53 - Zdigits2 n)).
  { rewrite <- Z.pow_add_r by lia. f_equal. lia. }
  rewrite E53, E52. nia.
Qed.

(** Rounding a multiple [n * 2 ^ j] with at least 53 digits loses nothing. *)
Lemma binary_round_aux_exact (s : bool) (n j e : Z) :
  0 < n < 2 ^ 53 -> 0 <= j ->
  53 <= Zdigits2 n + j ->
  -1074 <= e + j + Zdigits2 n - 53 <= 970 ->
  binary_round_aux 53 1024 s (n * 2 ^ j) e loc_Exact = fz s n (e + j).
Proof.
  intros Hn Hj Hd He.
  pose proof (Zdigits2_le_53 n Hn) as D.
  pose proof (Zdigits2_mul_pow2 n j ltac:(lia) Hj) as Dm.
  pose proof (pow2_pos j Hj) as Pj.
  pose proof (mantissa_53 n Hn) as M53.
  assert (Hm : 0 < n * 2 ^ j) by nia.
  destruct (Z.eq_dec (Zdigits2 n + j) 53) as [E | NE].
  - unfold binary_round_aux, shr_fexp. rewrite Dm.
    replace (fexp 53 1024 (Zdigits2 n + j + e) - e) with 0 by (rewrite fexp_normal by lia; lia).
    cbn [shr shr_record_of_loc shr_m loc_of_shr_record round_nearest_even]. rewrite Dm.
    replace (fexp 53 1024 (Zdigits2 n + j + e) - e) with 0 by (rewrite fexp_normal by lia; lia).
    cbn [shr shr_record_of_loc shr_m].
    unfold fz. replace (53 - Zdigits2 n) with j by lia.
    destruct (n * 2 ^ j) as [| p | p] eqn:Ep; try lia.
    replace (e <=? 1024 - 53) with true by (symmetry; apply Z.leb_le; lia).
    cbn [Z.to_pos]. f_equal. lia.
  - rewrite binary_round_aux_shift by (rewrite ?Dm; lia).
    cbv zeta. rewrite Dm.
    set (k := Zdigits2 n + j - 53).
    assert (Hk : 0 < k) by (unfold k; lia).
    assert (Ej : 2 ^ j = 2 ^ (53 - Zdigits2 n) * 2 ^ k).
    { rewrite <- Z.pow_add_r by (unfold k; lia). f_equal. unfold k. lia. }
    pose proof (pow2_pos k ltac:(lia)) as Pk.
    assert (Q : n * 2 ^ j / 2 ^ k = n * 2 ^ (53 - Zdigits2 n)).
    { rewrite Ej, Z.mul_assoc. apply Z.div_mul. lia. }
    rewrite rne_div_exact; [| assumption | rewrite Ej, Z.mul_assoc; apply Z.mod_mul; lia].
    rewrite Q.
    destruct (Z.eqb_spec (n * 2 ^ (53 - Zdigits2 n)) (2 ^ 53)); [lia|].
    unfold fz. f_equal. unfold k. lia.
Qed.

Lemma pos_iter_xO (p d : positive) :
  Z.pos (Pos.iter xO p d) = Z.pos p * 2 ^ Z.pos d.
Proof.
  induction d as [| d IH] using Pos.peano_ind.
  - cbn. lia.
  - rewrite Pos.iter_succ, Pos2Z.inj_xO, IH, Pos2Z.inj_succ, Z.pow_succ_r by lia. lia.
Qed.

Lemma binary_round_exact (s : bool) (p : positive) (n j e : Z) :
  0 < n < 2 ^ 53 -> 0 <= j ->
  Z.pos p = n * 2 ^ j ->
  -1074 <= e + j + Zdigits2 n - 53 <= 970 ->
  binary_round 53 1024 s p e = fz s n (e + j).
Proof.
  intros Hn Hj Ep He.
  pose proof (Zdigits2_le_53 n Hn) as D.
  pose proof (Zdigits2_mul_pow2 n j ltac:(lia) Hj) as Dm.
  rewrite <- Ep in Dm. cbn [Zdigits2] in Dm.
  unfold binary_round, shl_align. rewrite Dm.
  rewrite fexp_normal by lia.
  destruct (Zdigits2 n + j + e - 53 - e) as [| q | q] eqn:Ed.
  - rewrite Ep. apply binary_round_aux_exact; lia.
  - rewrite Ep. apply binary_round_aux_exact; lia.
  - rewrite pos_iter_xO, Ep.
    replace (n * 2 ^ j * 2 ^ Z.pos q) with (n * 2 ^ (j + Z.pos q))
      by (rewrite Z.pow_add_r by lia; lia).
    rewrite binary_round_aux_exact by lia.
    f_equal. lia.
Qed.

Lemma binary_normalize_exact (v t : Z) (z : bool) :
  Z.abs v < 2 ^ 53 -> -1000 <= t <= 900 ->
  forall (n j : Z), 0 <= j -> n = v * 2 ^ j ->
  represents (binary_normalize 53 1024 n (t - j) z) v t.
Proof.
  intros Hv Ht n j Hj En.
  pose proof (pow2_pos j Hj) as Pj.
  destruct (Z.lt_trichotomy v 0) as [Neg | [Zero | Pos]].
  - right; right. split; [assumption|].
    pose proof (Zdigits2_le_53 (- v) ltac:(lia)) as D.
    destruct n as [| p | p]; try nia.
    cbn [binary_normalize].
    rewrite (binary_round_exact true p (- v) j) by lia.
    f_equal. lia.
  - left. split; [assumption|]. subst. cbn. eauto.
  - right; left. split; [assumption|].
    pose proof (Zdigits2_le_53 v ltac:(lia)) as D.
    destruct n as [| p | p]; try nia.
    cbn [binary_normalize].
    rewrite (binary_round_exact false p v j) by lia.
    f_equal. lia.
Qed.

Lemma of_Z_represents (n : Z) :
  Z.abs n < 2 ^ 53 -> represents (Float64.of_Z n) n 0.
Proof.
  intros Hn. unfold Float64.of_Z.
  change 0 with (0 - 0) at 1.
  apply (binary_normalize_exact n 0 false Hn ltac:(lia) n 0); [lia|].
  change (2 ^ 0) with 1. lia.
Qed.

Lemma Zdigits2_gt (m k : Z) : 0 < m -> 2 ^ k <= m -> 0 <= k -> k < Zdigits2 m.
Proof.
  intros Hm H Hk. pose proof (Zdigits2_bounds m Hm) as B.
  pose proof (Zdigits2_pos m Hm).
  apply (Z.pow_lt_mono_r_iff 2); lia.
Qed.

Lemma mul_fz (sa sb : bool) (a b s t : Z) :
  0 < a < 2 ^ 53 -> 0 < b < 2 ^ 53 -> a * b < 2 ^ 53 ->
  -1000 <= s + t <= 900 ->
  Float64.mul (fz sa a s) (fz sb b t) = fz (xorb sa sb) (a * b) (s + t).
Proof.
  intros Ha Hb Hab Hst.
  pose proof (Zdigits2_le_53 a Ha) as Da.
  pose proof (Zdigits2_le_53 b Hb) as Db.
  pose proof (mantissa_53 a Ha) as Ma.
  pose proof (mantissa_53 b Hb) as Mb.
  assert (Hp : 0 < a * b < 2 ^ 53) by nia.
  pose proof (Zdigits2_le_53 (a * b) Hp) as Dp.
  unfold Float64.mul, fz at 1 2. cbn [SFmul].
  set (j := 106 - Zdigits2 a - Zdigits2 b).
  assert (Ej : 2 ^ (53 - Zdigits2 a) * 2 ^ (53 - Zdigits2 b) = 2 ^ j).
  { rewrite <- Z.pow_add_r by lia. f_equal. unfold j. lia. }
  assert (Em : Z.pos (Z.to_pos (a * 2 ^ (53 - Zdigits2 a)) * Z.to_pos (b * 2 ^ (53 - Zdigits2 b)))
               = a * b * 2 ^ j).
  { rewrite Pos2Z.inj_mul, !Z2Pos.id by lia. rewrite <- Ej. ring. }
  rewrite Em.
  assert (Hj : 0 <= j) by (unfold j; lia).
  assert (Big : 2 ^ 104 <= a * b * 2 ^ j).
  { rewrite <- Ej. change (2 ^ 104) with (2 ^ 52 * 2 ^ 52). 
    replace (a * b * (2 ^ (53 - Zdigits2 a) * 2 ^ (53 - Zdigits2 b)))
      with ((a * 2 ^ (53 - Zdigits2 a)) * (b * 2 ^ (53 - Zdigits2 b))) by ring.
    apply Z.mul_le_mono_nonneg; lia. }
  pose proof (Zdigits2_gt (a * b * 2 ^ j) 104 ltac:(lia) Big ltac:(lia)) as G.
  rewrite Zdigits2_mul_pow2 in G by lia.
  rewrite binary_round_aux_exact by (unfold j in *; lia).
  f_equal. unfold j. lia.
Qed.

Lemma mul_represents (x y : spec_float) (a b s t : Z) :
  represents x a s -> represents y b t ->
  Z.abs a < 2 ^ 53 -> Z.abs b < 2 ^ 53 -> Z.abs (a * b) < 2 ^ 53 ->
  -1000 <= s + t <= 900 ->
  represents (Float64.mul x y) (a * b) (s + t).
Proof.
  intros [[Ea [sx Ex]] | [[Pa Ex] | [Na Ex]]] [[Eb [sy Ey]] | [[Pb Ey] | [Nb Ey]]] Ha Hb Hab Hst;
    subst x y.
  - left. split; [lia|]. cbn. eauto.
  - left. split; [lia|]. cbn. eauto.
  - left. split; [lia|]. cbn. eauto.
  - left. split; [lia|]. cbn. eauto.
  - right; left. split; [nia|]. apply mul_fz; lia.
  - right; right. split; [nia|]. rewrite mul_fz by lia.
    cbn [xorb]. f_equal. lia.
  - left. split; [lia|]. cbn. eauto.
  - right; right. split; [nia|]. rewrite mul_fz by lia.
    cbn [xorb]. f_equal. lia.
  - right; left. split; [nia|]. rewrite mul_fz by lia.
    cbn [xorb]. f_equal. lia.
Qed.

Lemma shl_align_fst (m : positive) (e e' : Z) :
  e' <= e -> Z.pos (fst (shl_align m e e')) = Z.pos m * 2 ^ (e - e').
Proof.
  intros H. unfold shl_align.
  destruct (e' - e) as [| q | q] eqn:E; cbn [fst].
  - replace (e - e') with 0 by lia. change (2 ^ 0) with 1. lia.
  - lia.
  - rewrite pos_iter_xO. f_equal. f_equal. lia.
Qed.

(** The signed value of a double [fz s n t], in units of [2 ^ t]. *)
Lemma sub_fz (sa sb : bool) (a b t : Z) :
  0 < a < 2 ^ 53 -> 0 < b < 2 ^ 53 ->
  Z.abs (cond_Zopp sa a - cond_Zopp sb b) < 2 ^ 53 ->
  -1000 <= t <= 900 ->
  represents (Float64.sub (fz sa a t) (fz sb b t)) (cond_Zopp sa a - cond_Zopp sb b) t.
Proof.
  intros Ha Hb Hab Ht.
  pose proof (Zdigits2_le_53 a Ha) as Da.
  pose proof (Zdigits2_le_53 b Hb) as Db.
  pose proof (mantissa_53 a Ha) as Ma.
  pose proof (mantissa_53 b Hb) as Mb.
  unfold Float64.sub, fz. cbn [SFsub].
  set (ea := t + Zdigits2 a - 53). set (eb := t + Zdigits2 b - 53).
  set (ez := Z.min ea eb).
  rewrite !shl_align_fst by (unfold ez; lia).
  rewrite !Z2Pos.id by lia.
  assert (Hz : ez <= t) by (unfold ez, ea, eb; lia).
  assert (Ea : a * 2 ^ (53 - Zdigits2 a) * 2 ^ (ea - ez) = a * 2 ^ (t - ez)).
  { rewrite <- Z.mul_assoc, <- Z.pow_add_r by (unfold ez, ea, eb; lia).
    f_equal. f_equal. unfold ea. lia. }
  assert (Eb : b * 2 ^ (53 - Zdigits2 b) * 2 ^ (eb - ez) = b * 2 ^ (t - ez)).
  { rewrite <- Z.mul_assoc, <- Z.pow_add_r by (unfold ez, ea, eb; lia).
    f_equal. f_equal. unfold eb. lia. }
  rewrite Ea, Eb.
  replace ez with (t - (t - ez)) at 3 by lia.
  apply binary_normalize_exact; try lia.
  destruct sa, sb; cbn [cond_Zopp]; ring.
Qed.

Lemma represents_bound_fz (x : spec_float) (v t : Z) :
  represents x v t -> v <> 0 -> x = fz (v <? 0) (Z.abs v) t.
Proof.
  intros [[E _] | [[P E] | [N E]]] Hv; try lia; subst x.
  - replace (v <? 0) with false by (symmetry; apply Z.ltb_ge; lia).
    f_equal. lia.
  - replace (v <? 0) with true by (symmetry; apply Z.ltb_lt; lia).
    f_equal. lia.
Qed.

Lemma cond_Zopp_abs (v : Z) : cond_Zopp (v <? 0) (Z.abs v) = v.
Proof. destruct (Z.ltb_spec v 0); cbn [cond_Zopp]; lia. Qed.

Lemma sub_represents (x y : spec_float) (a b t : Z) :
  represents x a t -> represents y b t ->
  Z.abs a < 2 ^ 53 -> Z.abs b < 2 ^ 53 -> Z.abs (a - b) < 2 ^ 53 ->
  -1000 <= t <= 900 ->
  represents (Float64.sub x y) (a - b) t.
Proof.
  intros Rx Ry Ha Hb Hab Ht.
  destruct (Z.eq_dec a 0) as [Ea | Na], (Z.eq_dec b 0) as [Eb | Nb].
  - destruct Rx as [[_ [sx Ex]] | [[? _] | [? _]]]; try lia.
    destruct Ry as [[_ [sy Ey]] | [[? _] | [? _]]]; try lia.
    subst. left. split; [lia|]. destruct sx, sy; cbn; eauto.
  - destruct Rx as [[_ [sx Ex]] | [[? _] | [? _]]]; try lia.
    rewrite (represents_bound_fz y b t Ry Nb). subst x a.
    unfold fz. cbn [Float64.sub SFsub].
    destruct (Z.ltb_spec b 0).
    + right; left. split; [lia|]. unfold fz. cbn [negb].
      replace (0 - b) with (Z.abs b) by lia. reflexivity.
    + right; right. split; [lia|]. unfold fz. cbn [negb].
      replace (- (0 - b)) with (Z.abs b) by lia. reflexivity.
  - destruct Ry as [[_ [sy Ey]] | [[? _] | [? _]]]; try lia.
    subst y b. replace (a - 0) with a by lia.
    destruct Rx as [[? _] | [[P E] | [N E]]]; try lia; subst x; unfold fz; cbn [Float64.sub SFsub].
    + right; left. split; [lia | reflexivity].
    + right; right. split; [lia | reflexivity].
  - rewrite (represents_bound_fz x a t Rx Na), (represents_bound_fz y b t Ry Nb).
    pose proof (sub_fz (a <? 0) (b <? 0) (Z.abs a) (Z.abs b) t) as S.
    rewrite !cond_Zopp_abs in S. apply S; lia.
Qed.

Lemma fz_rescale (s : bool) (n t i : Z) :
  0 < n -> 0 <= i -> n * 2 ^ i < 2 ^ 53 -> fz s (n * 2 ^ i) (t - i) = fz s n t.
Proof.
  intros Hn Hi Hb. unfold fz. rewrite Zdigits2_mul_pow2 by lia.
  pose proof (pow2_pos i Hi) as Pi.
  pose proof (Zdigits2_le_53 (n * 2 ^ i) ltac:(nia)) as D.
  rewrite Zdigits2_mul_pow2 in D by lia.
  f_equal; [| lia].
  f_equal. rewrite <- Z.mul_assoc, <- Z.pow_add_r by lia.
  f_equal. f_equal. lia.
Qed.

Lemma represents_rescale (x : spec_float) (v t i : Z) :
  represents x v t -> 0 <= i -> Z.abs v * 2 ^ i < 2 ^ 53 ->
  represents x (v * 2 ^ i) (t - i).
Proof.
  intros R Hi Hb. pose proof (pow2_pos i Hi) as Pi.
  destruct R as [[E [s Ex]] | [[P E] | [N E]]]; subst.
  - left. split; [lia | eauto].
  - right; left. split; [nia|]. symmetry. apply fz_rescale; lia.
  - right; right. split; [nia|].
    replace (- (v * 2 ^ i)) with (- v * 2 ^ i) by ring.
    symmetry. apply fz_rescale; lia.
Qed.

Lemma trunc_fz (s : bool) (n t : Z) :
  0 < n < 2 ^ 53 ->
  Float64.trunc s (Z.to_pos (n * 2 ^ (53 - Zdigits2 n))) (t + Zdigits2 n - 53)
  = cond_Zopp s (if t <? 0 then n / 2 ^ (- t) else n * 2 ^ t).
Proof.
  intros Hn. pose proof (Zdigits2_le_53 n Hn) as D.
  pose proof (mantissa_53 n Hn) as M.
  unfold Float64.trunc. f_equal. rewrite Z2Pos.id by lia.
  set (j := 53 - Zdigits2 n). assert (Hj : 0 <= j) by (unfold j; lia).
  pose proof (pow2_pos j Hj) as Pj.
  destruct (t + Zdigits2 n - 53) as [| q | q] eqn:E.
  - replace (t <? 0) with false by (symmetry; apply Z.ltb_ge; lia).
    replace t with j by (unfold j; lia). change (2 ^ 0) with 1. lia.
  - replace (t <? 0) with false by (symmetry; apply Z.ltb_ge; lia).
    rewrite <- Z.mul_assoc, <- Z.pow_add_r by lia. f_equal. f_equal. unfold j. lia.
  - destruct (Z.ltb_spec t 0).
    + replace (Z.pos q) with (j + - t) by (unfold j; lia).
      rewrite Z.pow_add_r by lia.
      rewrite (Z.mul_comm (2 ^ j)).
      apply Z.div_mul_cancel_r; pose proof (pow2_pos (- t) ltac:(lia)); lia.
    + replace j with (t + Z.pos q) by (unfold j; lia).
      rewrite Z.pow_add_r, Z.mul_assoc by lia.
      apply Z.div_mul. lia.
Qed.

Lemma py_int_represents (x : spec_float) (v t : Z) :
  represents x v t -> Z.abs v < 2 ^ 53 ->
  py_int x = Ok (if t <? 0 then Z.quot v (2 ^ (- t)) else v * 2 ^ t).
Proof.
  intros [[E [s Ex]] | [[P E] | [N E]]] Hv; subst.
  - cbn [py_int]. destruct (t <? 0); [destruct (2 ^ (- t)) |]; reflexivity.
  - unfold fz. cbn [py_int]. rewrite trunc_fz by lia. cbn [cond_Zopp].
    destruct (Z.ltb_spec t 0); [| reflexivity].
    pose proof (pow2_pos (- t) ltac:(lia)).
    rewrite Z.quot_div_nonneg by lia. reflexivity.
  - unfold fz. cbn [py_int]. rewrite trunc_fz by lia. cbn [cond_Zopp].
    destruct (Z.ltb_spec t 0); [| f_equal; ring].
    pose proof (pow2_pos (- t) ltac:(lia)).
    rewrite <- Z.quot_div_nonneg by lia.
    rewrite Z.quot_opp_l by lia. f_equal. lia.
Qed.

Lemma to_Q_fz (s : bool) (n t : Z) :
  0 < n < 2 ^ 53 -> (Float64.to_Q (fz s n t) == dyadic (cond_Zopp s n) t)%Q.
Proof.
  intros Hn. pose proof (Zdigits2_le_53 n Hn) as D.
  pose proof (mantissa_53 n Hn) as M.
  unfold fz, Float64.to_Q, dyadic.
  set (j := 53 - Zdigits2 n). assert (Hj : 0 <= j) by (unfold j; lia).
  pose proof (pow2_pos j Hj) as Pj.
  assert (Es : forall a, cond_Zopp s (Z.pos (Z.to_pos (n * 2 ^ j)) * a)
                         = cond_Zopp s n * (2 ^ j * a)).
  { intros a. rewrite Z2Pos.id by lia. destruct s; cbn [cond_Zopp]; ring. }
  assert (Es1 : cond_Zopp s (Z.pos (Z.to_pos (n * 2 ^ j))) = cond_Zopp s n * 2 ^ j).
  { rewrite Z2Pos.id by lia. destruct s; cbn [cond_Zopp]; ring. }
  destruct (t + Zdigits2 n - 53) as [| q | q] eqn:E.
  - replace (t <? 0) with false by (symmetry; apply Z.ltb_ge; lia).
    rewrite Es. replace t with j by (unfold j; lia). change (2 ^ 0) with 1.
    rewrite Z.mul_1_r. reflexivity.
  - replace (t <? 0) with false by (symmetry; apply Z.ltb_ge; lia).
    rewrite Es. rewrite <- Z.pow_add_r by lia.
    replace (j + Z.pos q) with t by (unfold j; lia). reflexivity.
  - rewrite Es1. destruct (Z.ltb_spec t 0).
    + pose proof (pow2_pos (- t) ltac:(lia)).
      unfold Qeq. cbn [Qnum Qden]. rewrite Pos2Z.inj_pow, Z2Pos.id by lia.
      replace (Z.pos q) with (j + - t) by (unfold j; lia).
      rewrite Z.pow_add_r by lia. ring.
    + unfold Qeq. cbn [Qnum Qden inject_Z]. rewrite Pos2Z.inj_pow.
      replace j with (t + Z.pos q) by (unfold j; lia).
      rewrite Z.pow_add_r by lia. ring.
Qed.

Lemma to_Q_represents (x : spec_float) (v t : Z) :
  represents x v t -> Z.abs v < 2 ^ 53 -> (Float64.to_Q x == dyadic v t)%Q.
Proof.
  intros [[E [s Ex]] | [[P E] | [N E]]] Hv; subst.
  - unfold dyadic. cbn [Float64.to_Q]. destruct (t <? 0); reflexivity.
  - rewrite to_Q_fz by lia. reflexivity.
  - rewrite to_Q_fz by lia. cbn [cond_Zopp]. rewrite Z.opp_involutive. reflexivity.
Qed.

Lemma lit_0_75_represents : represents Float64.lit_0_75 3 (-2).
Proof. right; left. split; [lia | reflexivity]. Qed.

(** ** The product by 0.6 *)

(** [5 * 0.6 = 3 - 2 ^ -53]: the literal lies just below three fifths. *)
Lemma lit_0_6_value : 5 * 5404319552844595 = 3 * 2 ^ 53 - 1.
Proof. reflexivity. Qed.

Lemma of_Z_pos (n : Z) : 0 < n < 2 ^ 53 -> Float64.of_Z n = fz false n 0.
Proof.
  intros Hn. destruct (of_Z_represents n ltac:(lia)) as [[? _] | [[_ E] | [? _]]]; try lia.
  exact E.
Qed.

Lemma int_mul_0_6 (n : Z) :
  0 < n < 2 ^ 51 ->
  py_int (Float64.mul (Float64.of_Z n) Float64.lit_0_6) = Ok (3 * n / 5).
Proof.
  intros Hn.
  rewrite of_Z_pos by lia.
  pose proof (Zdigits2_le_53 n ltac:(lia)) as D.
  pose proof (mantissa_53 n ltac:(lia)) as Mn.
  assert (D51 : Zdigits2 n <= 51).
  { pose proof (Zdigits2_bounds n ltac:(lia)) as B.
    destruct (Z.le_gt_cases (Zdigits2 n) 51) as [L | G]; [assumption|].
    assert (2 ^ 51 <= 2 ^ (Zdigits2 n - 1)) by (apply Z.pow_le_mono_r; lia). lia. }
  unfold fz, Float64.lit_0_6, Float64.mul. cbn [SFmul xorb].
  set (d := Zdigits2 n) in *.
  set (A := 2 ^ (53 - d)) in *.
  assert (HA : 4 <= A).
  { unfold A. change 4 with (2 ^ 2). apply Z.pow_le_mono_r; lia. }
  set (NA := n * A) in *.
  rewrite Pos2Z.inj_mul, Z2Pos.id by lia.
  set (M := NA * Z.pos 5404319552844595).
  assert (HM : 2 ^ 104 <= M < 2 ^ 106) by (unfold M; lia).
  assert (Dm : Zdigits2 M = 105 \/ Zdigits2 M = 106).
  { destruct (Z.lt_ge_cases M (2 ^ 105)).
    - left. apply Zdigits2_unique; lia.
    - right. apply Zdigits2_unique; lia. }
  rewrite binary_round_aux_shift by lia. cbv zeta.
  set (k := Zdigits2 M - 53).
  assert (Hk : 0 < k) by (unfold k; lia).
  pose proof (rne_div_near M k Hk) as Near.
  (* the quotient and remainder of 3 n by 5 *)
  pose proof (Z.div_mod (3 * n) 5 ltac:(lia)) as Dv.
  pose proof (Z.mod_pos_bound (3 * n) 5 ltac:(lia)) as Bt.
  set (q := 3 * n / 5) in *. set (t := (3 * n) mod 5) in *.
  set (QA := q * A).
  assert (EQA : 3 * NA = 5 * QA + t * A) by (unfold NA, QA; nia).
  assert (TA : 0 <= t * A <= 4 * A) by nia.
  set (J := 106 - d - k).
  assert (HJ : 2 <= J) by (unfold J, k; lia).
  assert (EJ : 2 ^ J * 2 ^ k = 2 ^ 53 * A).
  { unfold A. rewrite <- !Z.pow_add_r by lia. f_equal. unfold J. lia. }
  assert (EM : M = NA * 5404319552844595) by reflexivity.
  assert (EQ : QA = q * A) by reflexivity.
  assert (Val : rne_div M k / 2 ^ J = q).
  { clearbody M NA QA A t q.
    pose proof (pow2_pos J ltac:(lia)) as PJ.
    pose proof (pow2_pos k ltac:(lia)) as Pk.
    assert (Lo : q * 2 ^ J * 2 ^ k <= rne_div M k * 2 ^ k).
    { destruct (Z.eq_dec t 0) as [T0 | Tn].
      - assert (U : rne_div M k = q * 2 ^ J).
        { apply rne_div_unique; [assumption|].
          rewrite <- Z.mul_assoc, EJ.
          replace (q * (2 ^ 53 * A)) with (2 ^ 53 * QA) by (rewrite EQ; ring).
          destruct Dm as [Dm | Dm]; unfold k; rewrite Dm;
            [change (2 ^ (105 - 53 - 1)) with (2 ^ 51) | change (2 ^ (106 - 53 - 1)) with (2 ^ 52)];
            lia. }
        rewrite U. lia.
      - assert (TA1 : A <= t * A) by nia.
        rewrite <- Z.mul_assoc, EJ.
        replace (q * (2 ^ 53 * A)) with (2 ^ 53 * QA) by (rewrite EQ; ring).
        destruct Dm as [Dm | Dm]; unfold k in *; rewrite Dm in *;
          [change (2 ^ (105 - 53 - 1)) with (2 ^ 51) in Near
          | change (2 ^ (106 - 53 - 1)) with (2 ^ 52) in Near];
          lia. }
    assert (Hi : rne_div M k * 2 ^ k < (q + 1) * 2 ^ J * 2 ^ k).
    { rewrite <- Z.mul_assoc, EJ.
      replace ((q + 1) * (2 ^ 53 * A)) with (2 ^ 53 * QA + 2 ^ 53 * A) by (rewrite EQ; ring).
      destruct Dm as [Dm | Dm]; unfold k in *; rewrite Dm in *;
        [change (2 ^ (105 - 53 - 1)) with (2 ^ 51) in Near
        | change (2 ^ (106 - 53 - 1)) with (2 ^ 52) in Near];
        lia. }
    symmetry. apply Z.div_unique with (r := rne_div M k - q * 2 ^ J); nia. }
  assert (Ee : 0 + d - 53 + -53 + k = - J) by (unfold J; lia).
  rewrite Ee.
  destruct (Z.eqb_spec (rne_div M k) (2 ^ 53)) as [C | NC].
  - cbn [py_int]. unfold Float64.trunc. cbn [cond_Zopp].
    destruct (- J + 1) as [| p | p] eqn:Ep; try lia.
    f_equal. rewrite <- Val, C.
    replace (Z.pos p) with (J - 1) by lia.
    change (Z.pos (2 ^ 52)) with (2 ^ 52). change (2 ^ 53) with (2 * 2 ^ 52).
    rewrite (pow2_half J) by lia.
    pose proof (pow2_pos (J - 1) ltac:(lia)).
    symmetry. apply Z.div_mul_cancel_l; lia.
  - cbn [py_int]. unfold Float64.trunc. cbn [cond_Zopp].
    destruct (- J) as [| p | p] eqn:Ep; try lia.
    f_equal. rewrite <- Val.
    assert (0 < rne_div M k).
    { pose proof (pow2_pos k ltac:(lia)). pose proof (pow2_pos (k - 1) ltac:(lia)).
      pose proof (pow2_half k Hk). 
      destruct Dm as [Dm | Dm]; unfold k in *; rewrite Dm in *;
        [change (2 ^ (105 - 53 - 1)) with (2 ^ 51) in *; change (2 ^ (105 - 53)) with (2 ^ 52) in *
        | change (2 ^ (106 - 53 - 1)) with (2 ^ 52) in *; change (2 ^ (106 - 53)) with (2 ^ 53) in * ];
        lia. }
    rewrite Z2Pos.id by lia.
    f_equal. f_equal. lia.
Qed.

(** ** Loops *)

Lemma for_each_Forall2 {A B : Type} (f : A -> result B) (l : list A) (rs : list B) :
  for_each f l = Ok rs -> Forall2 (fun x y => f x = Ok y) l rs.
Proof.
  revert rs. induction l as [| x l IH]; intros rs H; cbn in H.
  - inversion H. constructor.
  - destruct (f x) as [y | e] eqn:Ex; cbn in H; [| discriminate].
    destruct (for_each f l) as [ys | e] eqn:El; cbn in H; [| discriminate].
    inversion H; subst. constructor; auto.
Qed.

Lemma Forall2_for_each {A B : Type} (f : A -> result B) (l : list A) (rs : list B) :
  Forall2 (fun x y => f x = Ok y) l rs -> for_each f l = Ok rs.
Proof.
  induction 1 as [| x y l rs Hx _ IH]; cbn; [reflexivity|].
  rewrite Hx, IH. reflexivity.
Qed.

(** ** Partners per hour *)

Lemma spec_partners_needed_eq (n : Z) : spec_partners_needed n = Z.max 1 (3 * n / 5).
Proof.
  unfold spec_partners_needed. f_equal.
  unfold Qfloor, Qmult, inject_Z. cbn [Qnum Qden].
  change (Z.pos (1 * 10)) with (5 * 2).
  replace (n * 6) with (3 * n * 2) by ring.
  apply Z.div_mul_cancel_r; lia.
Qed.

Lemma delivery_partners_of_floor (n : Z) :
  0 <= n < 2 ^ 51 -> delivery_partners_of n = Ok (Z.max 1 (3 * n / 5)).
Proof.
  intros Hn. unfold delivery_partners_of.
  destruct (Z.eq_dec n 0) as [E | NE].
  - subst. reflexivity.
  - rewrite int_mul_0_6 by lia. reflexivity.
Qed.

Lemma delivery_partners_of_ge_1 (n p : Z) : delivery_partners_of n = Ok p -> 1 <= p.
Proof.
  unfold delivery_partners_of.
  destruct (py_int _) as [k | e]; cbn; intros H; inversion H. lia.
Qed.

Lemma translate_row_fields (row : Forecast.t) (r : Result.t) :
  translate_row row = Ok r ->
  Result.hour r = Forecast.ds row
  /\ predicted_orders_of (Forecast.yhat row) = Ok (Result.predicted_orders r)
  /\ delivery_partners_of (Result.predicted_orders r) = Ok (Result.delivery_partners_needed r)
  /\ Result.rush_period r = rush_period_of row.
Proof.
  unfold translate_row.
  destruct (predicted_orders_of (Forecast.yhat row)) as [n | e]; cbn [bind]; [| discriminate].
  destruct (delivery_partners_of n) as [p | e] eqn:Ep; cbn [bind]; [| discriminate].
  destruct (py_int (Forecast.yhat_lower row)) as [lo | e]; cbn [bind]; [| discriminate].
  destruct (py_int (Forecast.yhat_upper row)) as [hi | e]; cbn [bind]; [| discriminate].
  intros H. inversion H; subst. cbn. auto.
Qed.

Lemma get_demand_forecast_rows (model : predictor) (now hours : Z) (rs : list Result.t) :
  get_demand_forecast model now hours = Ok rs ->
  exists forecast,
    model (map future_row (tl (date_range (now / 3600) (Z.to_nat (hours + 1))))) = Ok forecast
    /\ Forall2 (fun row r => translate_row row = Ok r) forecast rs.
Proof.
  unfold get_demand_forecast. destruct (hours + 1 <? 0); [discriminate|].
  destruct (model _) as [forecast | e]; cbn [bind]; [| discriminate].
  intros H. exists forecast. split; [reflexivity|]. apply for_each_Forall2. exact H.
Qed.

(** ** Truncation and floor *)

Lemma binary_round_aux_not_negative (m e : Z) (l : location) :
  not_negative (binary_round_aux 53 1024 false m e l).
Proof.
  unfold binary_round_aux.
  destruct (shr_fexp 53 1024 m e l) as [mrs' e'].
  destruct (shr_fexp 53 1024 _ e' loc_Exact) as [mrs'' e''].
  destruct (shr_m mrs''); [exact I | | exact I].
  destruct (e'' <=? 1024 - 53); reflexivity.
Qed.

Lemma of_Z_not_negative (n : Z) : 0 <= n -> not_negative (Float64.of_Z n).
Proof.
  intros Hn. unfold Float64.of_Z. destruct n as [| p | p]; [exact I | | lia].
  cbn [binary_normalize]. unfold binary_round.
  destruct (shl_align _ _ _) as [mz ez]. apply binary_round_aux_not_negative.
Qed.

Lemma mul_lit_0_6_not_negative (x : spec_float) :
  not_negative x -> not_negative (Float64.mul x Float64.lit_0_6).
Proof.
  destruct x as [s | s | | s m e]; cbn; intros H; try exact I; try (subst; reflexivity).
  subst s. apply binary_round_aux_not_negative.
Qed.

Lemma py_int_floor (x : spec_float) (p : Z) :
  not_negative x -> py_int x = Ok p -> p = Qfloor (Float64.to_Q x).
Proof.
  destruct x as [s | s | | s m e]; cbn [not_negative py_int]; intros H E;
    try discriminate; inversion E; subst.
  - reflexivity.
  - unfold Float64.trunc, Float64.to_Q. cbn [cond_Zopp].
    destruct e as [| q | q].
    + rewrite Qfloor_Z. reflexivity.
    + rewrite Qfloor_Z. reflexivity.
    + unfold Qfloor. rewrite Pos2Z.inj_pow. reflexivity.
Qed.

(** C1. For every forecasted hour the staffing translation computes
    [delivery_partners_needed] as [max(1, floor(predicted_orders * 0.6))]; the
    result is an integer of at least 1 for every [predicted_orders >= 0],
    zero included.  The product is a binary64 product, of which [int] takes
    the floor; it has the floor of the exact product by 6/10 for every count
    below [2 ^ 51]. *)
Theorem C1_partners_needed :
  (forall n p : Z, delivery_partners_of n = Ok p -> 1 <= p)
  /\ (forall n p : Z,
        0 <= n -> delivery_partners_of n = Ok p ->
        p = Z.max 1 (Qfloor (Float64.to_Q (Float64.mul (Float64.of_Z n) Float64.lit_0_6))))
  /\ (forall n : Z, 0 <= n < 2 ^ 51 ->
        delivery_partners_of n = Ok (spec_partners_needed n)
        /\ 1 <= spec_partners_needed n)
  /\ (forall (model : predictor) (now hours : Z) (rs : list Result.t),
        get_demand_forecast model now hours = Ok rs ->
        Forall (fun r =>
                  1 <= Result.delivery_partners_needed r
                  /\ (0 <= Result.predicted_orders r < 2 ^ 51 ->
                      Result.delivery_partners_needed r
                      = spec_partners_needed (Result.predicted_orders r))) rs).
Proof.
  split; [exact delivery_partners_of_ge_1 | split; [| split]].
  - intros n p Hn. unfold delivery_partners_of.
    destruct (py_int _) as [k | e] eqn:E; cbn [bind]; intros H; inversion H.
    f_equal. apply py_int_floor; [| exact E].
    apply mul_lit_0_6_not_negative. apply of_Z_not_negative. exact Hn.
  - intros n Hn. rewrite spec_partners_needed_eq. split; [| lia].
    apply delivery_partners_of_floor. exact Hn.
  - intros model now hours rs H.
    destruct (get_demand_forecast_rows _ _ _ _ H) as [forecast [_ F]].
    clear H. induction F as [| row r forecast rs Hr _ IH]; constructor; [| exact IH].
    destruct (translate_row_fields _ _ Hr) as [_ [_ [Hp _]]].
    split; [eapply delivery_partners_of_ge_1; exact Hp |].
    intros Hb. rewrite spec_partners_needed_eq.
    rewrite delivery_partners_of_floor in Hp by exact Hb. inversion Hp. reflexivity.
Qed.

Lemma C1_partners_needed_witness :
  1 <= 1
  /\ 43234556422756760
     = Z.max 1 (Qfloor (Float64.to_Q (Float64.mul (Float64.of_Z (2 ^ 56)) Float64.lit_0_6)))
  /\ (delivery_partners_of 0 = Ok (spec_partners_needed 0) /\ 1 <= spec_partners_needed 0)
  /\ exists rs, get_demand_forecast (flat_model 7) 0 2 = Ok rs
               /\ Forall (fun r =>
                            1 <= Result.delivery_partners_needed r
                            /\ (0 <= Result.predicted_orders r < 2 ^ 51 ->
                                Result.delivery_partners_needed r
                                = spec_partners_needed (Result.predicted_orders r))) rs.
Proof.
  destruct C1_partners_needed as [H1 [H2 [H3 H4]]].
  split; [apply (H1 0 1); reflexivity | split; [| split]].
  - apply (H2 (2 ^ 56)); [cbn; lia | vm_compute; reflexivity].
  - apply (H3 0). cbn. lia.
  - eexists. split; [vm_compute; reflexivity |].
    apply (H4 (flat_model 7) 0 2). vm_compute. reflexivity.
Defined.

(** ** Predicted orders *)

(** C6 (amended). [predicted_orders] is a non-negative integer whatever the
    sign of the raw prediction: a finite value is truncated and a negative
    one is clamped to 0.  An undefined prediction (NaN) is not clamped: the
    conversion raises [ValueError] (an infinite one [OverflowError]) and the
    forecast is not produced. *)
Theorem C6_predicted_orders_nonnegative :
  (forall (yhat : spec_float) (n : Z), predicted_orders_of yhat = Ok n -> 0 <= n)
  /\ (forall (s : bool) (m : positive) (e : Z),
        predicted_orders_of (S754_finite s m e) = Ok (Z.max 0 (Float64.trunc s m e))
        /\ predicted_orders_of (S754_finite true m e) = Ok 0)
  /\ (forall s : bool, predicted_orders_of (S754_zero s) = Ok 0)
  /\ predicted_orders_of S754_nan = Raise ValueError
  /\ (forall s : bool, predicted_orders_of (S754_infinity s) = Raise OverflowError)
  /\ (forall (model : predictor) (now hours : Z) (rs : list Result.t),
        get_demand_forecast model now hours = Ok rs ->
        Forall (fun r => 0 <= Result.predicted_orders r) rs).
Proof.
  assert (Nonneg : forall yhat n, predicted_orders_of yhat = Ok n -> 0 <= n).
  { intros yhat n. unfold predicted_orders_of.
    destruct (py_int yhat) as [k | e]; cbn; intros H; inversion H. lia. }
  split; [exact Nonneg |].
  split; [| split; [| split; [| split]]].
  - intros s m e. split; [| reflexivity || idtac].
    + unfold predicted_orders_of. cbn [py_int bind]. reflexivity.
    + unfold predicted_orders_of. cbn [py_int bind]. f_equal.
      unfold Float64.trunc. cbn [cond_Zopp].
      assert (0 <= match e with
                   | Z.neg p => Z.pos m / 2 ^ Z.pos p
                   | _ => Z.pos m * 2 ^ e
                   end).
      { destruct e as [| p | p].
        - lia.
        - pose proof (pow2_pos (Z.pos p) ltac:(lia)). nia.
        - apply Z.div_pos; [lia | apply pow2_pos; lia]. }
      lia.
  - intros s. reflexivity.
  - reflexivity.
  - intros s. reflexivity.
  - intros model now hours rs H.
    destruct (get_demand_forecast_rows _ _ _ _ H) as [forecast [_ F]].
    clear H. induction F as [| row r forecast rs Hr _ IH]; constructor; [| exact IH].
    destruct (translate_row_fields _ _ Hr) as [_ [Hp _]].
    eapply Nonneg. exact Hp.
Qed.

Lemma C6_predicted_orders_nonnegative_witness :
  0 <= 0
  /\ exists rs, get_demand_forecast (flat_model (-7)) 0 2 = Ok rs
               /\ Forall (fun r => 0 <= Result.predicted_orders r) rs.
Proof.
  destruct C6_predicted_orders_nonnegative as [H1 [_ [_ [_ [_ H6]]]]].
  split.
  - apply (H1 (Float64.of_Z (-7)) 0). vm_compute. reflexivity.
  - eexists. split; [vm_compute; reflexivity |].
    apply (H6 (flat_model (-7)) 0 2). vm_compute. reflexivity.
Defined.

(** The claim as stated fails: an undefined prediction is not turned into 0
    orders, and the forecast over such predictions raises. *)
Lemma C6_counterexample :
  ~ (forall yhat : spec_float, exists n : Z, predicted_orders_of yhat = Ok n /\ 0 <= n)
  /\ get_demand_forecast nan_model 0 24 = Raise ValueError.
Proof.
  split; [| vm_compute; reflexivity].
  intros H. destruct (H S754_nan) as [n [E _]]. discriminate E.
Qed.

(** ** Rush flags *)

Lemma windows_spec (h : Z) :
  (in_lunch_window h = true <-> 12 <= h <= 14)
  /\ (in_dinner_window h = true <-> 19 <= h <= 22)
  /\ in_lunch_window h && in_dinner_window h = false.
Proof.
  unfold in_lunch_window, in_dinner_window.
  destruct (Z.leb_spec 12 h), (Z.leb_spec h 14), (Z.leb_spec 19 h), (Z.leb_spec h 22);
    cbn; repeat split; intros; try lia; try discriminate; reflexivity.
Qed.

Lemma flags_disjoint (h : Z) : ~ (lunch_flag h = 1 /\ dinner_flag h = 1).
Proof.
  unfold lunch_flag, dinner_flag.
  destruct (windows_spec h) as [_ [_ D]].
  destruct (in_lunch_window h), (in_dinner_window h); cbn in D; try discriminate; lia.
Qed.

Lemma group_of_flags_ok (r : Raw.t) : group_flags_ok (group_of r).
Proof. split; reflexivity. Qed.

Lemma agg_insert_flags_ok (r : Raw.t) (acc : list group) :
  Forall group_flags_ok acc -> Forall group_flags_ok (agg_insert r acc).
Proof.
  induction 1 as [| g acc Hg Hacc IH]; cbn [agg_insert].
  - constructor; [apply group_of_flags_ok | constructor].
  - destruct (key_compare (group_key r) (g_key g)).
    + constructor; [exact Hg | exact Hacc].
    + constructor; [apply group_of_flags_ok | constructor; assumption].
    + constructor; assumption.
Qed.

Lemma groupby_agg_flags_ok (df : list Raw.t) : Forall group_flags_ok (groupby_agg df).
Proof.
  unfold groupby_agg.
  assert (G : forall acc, Forall group_flags_ok acc ->
                          Forall group_flags_ok (fold_left (fun a r => agg_insert r a) df acc)).
  { induction df as [| r df IH]; intros acc Hacc; cbn [fold_left]; [exact Hacc|].
    apply IH. apply agg_insert_flags_ok. exact Hacc. }
  apply G. constructor.
Qed.

Lemma add_weather_In (draw : nat -> weather) (gs : list group) (i : nat) (r : Demand.t) :
  In r (add_weather draw i gs) ->
  exists g, In g gs
            /\ Demand.order_date r = fst (g_key g)
            /\ Demand.is_lunch_rush r = g_is_lunch_rush g
            /\ Demand.is_dinner_rush r = g_is_dinner_rush g.
Proof.
  revert i. induction gs as [| g gs IH]; intros i H; cbn [add_weather] in H.
  - destruct H.
  - destruct H as [E | H].
    + exists g. subst r. cbn. auto.
    + destruct (IH _ H) as [g' [Hin Hg]]. exists g'. split; [right; exact Hin | exact Hg].
Qed.

Lemma prepare_table (draw : nat -> weather) (df : list Raw.t) (table : list Demand.t) :
  prepare_swiggy_demand_data draw df = Ok table ->
  df <> [] /\ table = add_weather draw 0 (groupby_agg df).
Proof.
  unfold prepare_swiggy_demand_data. destruct df as [| r df]; [discriminate |].
  intros H. inversion H. split; [discriminate | reflexivity].
Qed.

(** C8. The lunch-rush flag holds exactly for the hours 12 to 14 and the
    dinner-rush flag exactly for the hours 19 to 22, bounds included, so that
    no hour carries both; this holds for the rows of the hourly demand table
    and for the generated future rows alike. *)
Theorem C8_rush_flags_disjoint :
  (forall h : Z,
      (in_lunch_window h = true <-> 12 <= h <= 14)
      /\ (in_dinner_window h = true <-> 19 <= h <= 22)
      /\ in_lunch_window h && in_dinner_window h = false)
  /\ (forall (draw : nat -> weather) (df : list Raw.t) (table : list Demand.t) (r : Demand.t),
        prepare_swiggy_demand_data draw df = Ok table ->
        In r table ->
        (Demand.is_lunch_rush r = 1 <-> 12 <= Demand.hour r <= 14)
        /\ (Demand.is_dinner_rush r = 1 <-> 19 <= Demand.hour r <= 22)
        /\ ~ (Demand.is_lunch_rush r = 1 /\ Demand.is_dinner_rush r = 1))
  /\ (forall ds : Z,
        (Future.is_lunch_rush (future_row ds) = 1 <-> 12 <= hour_of_day ds <= 14)
        /\ (Future.is_dinner_rush (future_row ds) = 1 <-> 19 <= hour_of_day ds <= 22)
        /\ ~ (Future.is_lunch_rush (future_row ds) = 1
              /\ Future.is_dinner_rush (future_row ds) = 1)).
Proof.
  assert (Flag : forall h,
             (lunch_flag h = 1 <-> 12 <= h <= 14) /\ (dinner_flag h = 1 <-> 19 <= h <= 22)).
  { intros h. destruct (windows_spec h) as [L [D _]]. unfold lunch_flag, dinner_flag.
    destruct (in_lunch_window h), (in_dinner_window h);
      (split; split; intros; try lia; try reflexivity;
       try (apply L in H; discriminate H || exact H);
       try (apply D in H; discriminate H || exact H);
       try (apply L; reflexivity); try (apply D; reflexivity)).
    all: try (exfalso; apply L in H; discriminate H).
    all: try (exfalso; apply D in H; discriminate H). }
  split; [exact windows_spec | split].
  - intros draw df table r Ht Hin.
    destruct (prepare_table _ _ _ Ht) as [_ Et]. subst table.
    destruct (add_weather_In _ _ _ _ Hin) as [g [Hg [Ed [El En]]]].
    pose proof (groupby_agg_flags_ok df) as F.
    rewrite Forall_forall in F. destruct (F g Hg) as [Fl Fd].
    unfold Demand.hour. rewrite El, En, Ed, Fl, Fd.
    destruct (Flag (fst (g_key g) mod 24)) as [A B].
    split; [exact A | split; [exact B | apply flags_disjoint]].
  - intros ds. cbn [future_row Future.is_lunch_rush Future.is_dinner_rush].
    fold (lunch_flag (hour_of_day ds)). fold (dinner_flag (hour_of_day ds)).
    destruct (Flag (hour_of_day ds)) as [A B].
    split; [exact A | split; [exact B | apply flags_disjoint]].
Qed.

Lemma C8_rush_flags_disjoint_witness :
  exists table r,
    prepare_swiggy_demand_data (fun _ => Normal) sample_sales = Ok table
    /\ In r table
    /\ Demand.hour r = 13
    /\ (Demand.is_lunch_rush r = 1 <-> 12 <= Demand.hour r <= 14)
    /\ (Demand.is_dinner_rush r = 1 <-> 19 <= Demand.hour r <= 22)
    /\ ~ (Demand.is_lunch_rush r = 1 /\ Demand.is_dinner_rush r = 1).
Proof.
  eexists. eexists.
  split; [reflexivity | split; [left; reflexivity | split; [reflexivity |]]].
  eapply (proj1 (proj2 C8_rush_flags_disjoint) (fun _ => Normal) sample_sales).
  - reflexivity.
  - left. reflexivity.
Defined.

(** ** The future frame *)

Lemma tl_date_range (start : Z) (n : nat) :
  tl (date_range start (S n)) = map (fun i => start + Z.of_nat i) (seq 1 n).
Proof. unfold date_range. cbn [seq map tl]. reflexivity. Qed.

Lemma future_dates_eq (now hours : Z) :
  0 <= hours ->
  tl (date_range (now / 3600) (Z.to_nat (hours + 1)))
  = map (fun i => now / 3600 + Z.of_nat i) (seq 1 (Z.to_nat hours)).
Proof.
  intros H. replace (Z.to_nat (hours + 1)) with (S (Z.to_nat hours)) by lia.
  apply tl_date_range.
Qed.

Lemma all2_Forall2 {A B : Type} (p : A -> B -> bool) (l : list A) (l' : list B) :
  all2 p l l' = true -> Forall2 (fun x y => p x y = true) l l'.
Proof.
  revert l'. induction l as [| x l IH]; intros [| y l'] H; cbn in H; try discriminate.
  - constructor.
  - apply andb_prop in H. destruct H as [Hx Hl]. constructor; auto.
Qed.

(** ** The rush label *)

Lemma rush_period_of_label (row : Forecast.t) :
  rush_period_of row
  = label_of_flags (Float64.truthy (Forecast.is_lunch_rush row))
                   (Float64.truthy (Forecast.is_dinner_rush row)).
Proof. reflexivity. Qed.

Lemma label_is_lunch (lunch dinner : bool) :
  String.eqb (label_of_flags lunch dinner) "Lunch Rush" = lunch.
Proof. destruct lunch, dinner; reflexivity. Qed.

Lemma count_label_lunch (forecast : list Forecast.t) (rs : list Result.t) :
  Forall2 (fun row r => translate_row row = Ok r) forecast rs ->
  count_label "Lunch Rush" rs
  = List.length (filter (fun c => Float64.truthy (Forecast.is_lunch_rush c)) forecast).
Proof.
  unfold count_label.
  induction 1 as [| row r forecast rs Hr _ IH]; [reflexivity|].
  destruct (translate_row_fields _ _ Hr) as [_ [_ [_ Hl]]].
  cbn [filter]. rewrite Hl, rush_period_of_label, label_is_lunch.
  destruct (Float64.truthy (Forecast.is_lunch_rush row)); cbn [List.length]; rewrite IH; reflexivity.
Qed.

Lemma filter_length_by_index {A : Type} (p : A -> bool) (q : nat -> bool) (l : list A) (k : nat) :
  (forall i c, nth_error l i = Some c -> p c = q (k + i)%nat) ->
  List.length (filter p l) = List.length (filter q (seq k (List.length l))).
Proof.
  revert k. induction l as [| x l IH]; intros k H; [reflexivity|].
  cbn [filter List.length seq].
  rewrite (H 0%nat x eq_refl), Nat.add_0_r.
  assert (IH' : List.length (filter p l) = List.length (filter q (seq (S k) (List.length l)))).
  { apply IH. intros i c Hi. rewrite (H (S i) c Hi). f_equal. lia. }
  destruct (q k); cbn [List.length]; rewrite IH'; reflexivity.
Qed.

Lemma Forall2_nth_error {A B : Type} (R : A -> B -> Prop) (l : list A) (l' : list B) :
  Forall2 R l l' ->
  forall i y, nth_error l' i = Some y -> exists x, nth_error l i = Some x /\ R x y.
Proof.
  induction 1 as [| x y l l' Hxy _ IH]; intros i z Hi.
  - destruct i; discriminate.
  - destruct i as [| i]; cbn in Hi.
    + inversion Hi; subst. exists x. split; [reflexivity | exact Hxy].
    + apply IH. exact Hi.
Qed.

Lemma Forall2_length_eq {A B : Type} (R : A -> B -> Prop) (l : list A) (l' : list B) :
  Forall2 R l l' -> List.length l = List.length l'.
Proof. induction 1; cbn; congruence. Qed.

Lemma future_frame_nth (now hours : Z) (i : nat) (f : Future.t) :
  0 <= hours ->
  nth_error (future_frame now hours) i = Some f ->
  f = future_row (now / 3600 + 1 + Z.of_nat i) /\ (i < Z.to_nat hours)%nat.
Proof.
  intros Hh. unfold future_frame. rewrite future_dates_eq by assumption.
  rewrite map_map. intros H.
  assert (Hlt : (i < Z.to_nat hours)%nat).
  { apply nth_error_Some_lt in H || (assert (Hn : nth_error (map (fun x => future_row (now / 3600 + Z.of_nat x)) (seq 1 (Z.to_nat hours))) i <> None) by congruence;
      apply nth_error_Some in Hn; rewrite length_map, length_seq in Hn; exact Hn). }
  split; [| exact Hlt].
  rewrite nth_error_map in H.
  rewrite nth_error_seq in H.
  destruct (Nat.ltb_spec i (Z.to_nat hours)); [| lia].
  cbn in H. inversion H. f_equal. lia.
Qed.

Lemma get_demand_forecast_unfold (model : predictor) (now hours : Z) :
  0 <= hours ->
  get_demand_forecast model now hours
  = (forecast <- model (future_frame now hours) ;; for_each translate_row forecast).
Proof.
  intros H. unfold get_demand_forecast, future_frame.
  destruct (Z.ltb_spec (hours + 1) 0); [lia | reflexivity].
Qed.

Lemma lunch_count_24 :
  List.length (filter (fun i => in_lunch_window (Z.of_nat i)) (seq 0 24)) = 3%nat.
Proof. reflexivity. Qed.

(** C7 (amended). The rush label of every result is a function of the two rush columns
    of the row that [predict] returned for it and of nothing else, lunch
    before dinner before regular; over a horizon of 24 hours that starts at
    hour 0 and has the lunch column of the returned frame true exactly for
    the hours 12 to 14, exactly three results are labelled "Lunch Rush".
    This is the case of the flags of the future rows when [predict] returns
    them with their truth values. *)
Theorem C7_rush_label :
  (forall (row : Forecast.t) (r : Result.t),
      translate_row row = Ok r ->
      Result.rush_period r
      = label_of_flags (Float64.truthy (Forecast.is_lunch_rush row))
                       (Float64.truthy (Forecast.is_dinner_rush row)))
  /\ (forall dinner : bool, label_of_flags true dinner = "Lunch Rush"%string)
  /\ label_of_flags false true = "Dinner Rush"%string
  /\ label_of_flags false false = "Regular"%string
  /\ (forall (forecast : list Forecast.t) (rs : list Result.t),
        for_each translate_row forecast = Ok rs ->
        List.length forecast = 24%nat ->
        (forall i c, nth_error forecast i = Some c ->
                     Float64.truthy (Forecast.is_lunch_rush c) = in_lunch_window (Z.of_nat i)) ->
        count_label "Lunch Rush" rs = 3%nat)
  /\ (forall (model : predictor) (now : Z) (forecast : list Forecast.t) (rs : list Result.t),
        (now / 3600) mod 24 = 23 ->
        model (future_frame now 24) = Ok forecast ->
        carries_flags (future_frame now 24) forecast = true ->
        get_demand_forecast model now 24 = Ok rs ->
        count_label "Lunch Rush" rs = 3%nat).
Proof.
  assert (Scenario : forall forecast rs,
             for_each translate_row forecast = Ok rs ->
             List.length forecast = 24%nat ->
             (forall i c, nth_error forecast i = Some c ->
                          Float64.truthy (Forecast.is_lunch_rush c) = in_lunch_window (Z.of_nat i)) ->
             count_label "Lunch Rush" rs = 3%nat).
  { intros forecast rs H L F.
    rewrite (count_label_lunch forecast rs (for_each_Forall2 _ _ _ H)).
    rewrite (filter_length_by_index _ (fun i => in_lunch_window (Z.of_nat i)) forecast 0 F).
    rewrite L. apply lunch_count_24. }
  split; [| split; [| split; [| split; [| split]]]].
  - intros row r H. destruct (translate_row_fields _ _ H) as [_ [_ [_ Hl]]].
    rewrite Hl. apply rush_period_of_label.
  - intros dinner. reflexivity.
  - reflexivity.
  - reflexivity.
  - exact Scenario.
  - intros model now forecast rs Hnow Hm Hc Hrs.
    rewrite get_demand_forecast_unfold in Hrs by lia.
    rewrite Hm in Hrs. cbn [bind] in Hrs.
    pose proof (all2_Forall2 _ _ _ Hc) as F2.
    apply (Scenario forecast rs Hrs).
    + rewrite <- (Forall2_length_eq _ _ _ F2).
      unfold future_frame. rewrite length_map. reflexivity.
    + intros i c Hi.
      destruct (Forall2_nth_error _ _ _ F2 i c Hi) as [f [Hf Hfc]].
      destruct (future_frame_nth now 24 i f ltac:(lia) Hf) as [Ef Hlt].
      apply andb_prop in Hfc. destruct Hfc as [Hfc _].
      apply andb_prop in Hfc. destruct Hfc as [_ Hl].
      apply Bool.eqb_prop in Hl. rewrite Hl, Ef.
      cbn [future_row Future.is_lunch_rush].
      assert (Eh : hour_of_day (now / 3600 + 1 + Z.of_nat i) = Z.of_nat i).
      { unfold hour_of_day.
        rewrite (Z.div_mod (now / 3600) 24) by lia. rewrite Hnow.
        replace (24 * (now / 3600 / 24) + 23 + 1 + Z.of_nat i)
          with (Z.of_nat i + (now / 3600 / 24 + 1) * 24) by ring.
        rewrite Z.mod_add by lia. apply Z.mod_small. lia. }
      rewrite Eh. destruct (in_lunch_window (Z.of_nat i)); reflexivity.
Qed.

Lemma C7_rush_label_witness :
  exists rs, get_demand_forecast (flat_model 7) (23 * 3600 + 59) 24 = Ok rs
             /\ count_label "Lunch Rush" rs = 3%nat.
Proof.
  eexists. split; [vm_compute; reflexivity |].
  destruct C7_rush_label as [_ [_ [_ [_ [_ H]]]]].
  eapply (H (flat_model 7) (23 * 3600 + 59)).
  - reflexivity.
  - reflexivity.
  - vm_compute. reflexivity.
  - vm_compute. reflexivity.
Defined.

(** The claim as stated fails: the label is read from the frame that
    [predict] returns, not from the future rows.  With a model whose lunch
    regressor has no effect, a horizon of 24 hours from hour 0 has the lunch
    flag of the future rows set exactly at the hours 12 to 14 and no result
    labelled "Lunch Rush"; the result of hour 12 is labelled "Regular", while
    a model that returns the flags labels the same future row "Lunch Rush". *)
Lemma C7_counterexample :
  ~ (forall (model : predictor) (now : Z) (rs : list Result.t),
        (now / 3600) mod 24 = 23 ->
        get_demand_forecast model now 24 = Ok rs ->
        count_label "Lunch Rush" rs = 3%nat)
  /\ map Future.is_lunch_rush (future_frame (23 * 3600) 24)
     = map (fun i => if in_lunch_window (Z.of_nat i) then 1 else 0) (seq 0 24)
  /\ (exists rs r,
        get_demand_forecast (no_lunch_effect_model 7) (23 * 3600) 24 = Ok rs
        /\ count_label "Lunch Rush" rs = 0%nat
        /\ count_label "Dinner Rush" rs = 4%nat
        /\ count_label "Regular" rs = 20%nat
        /\ nth_error rs 12 = Some r
        /\ Result.hour r = 36
        /\ Result.rush_period r = "Regular"%string)
  /\ (exists rs r,
        get_demand_forecast (flat_model 7) (23 * 3600) 24 = Ok rs
        /\ nth_error rs 12 = Some r
        /\ Result.hour r = 36
        /\ Result.rush_period r = "Lunch Rush"%string).
Proof.
  split; [| split; [| split]].
  - intros H.
    pose proof (H (no_lunch_effect_model 7) (23 * 3600) _ eq_refl eq_refl) as C.
    vm_compute in C. discriminate C.
  - vm_compute. reflexivity.
  - eexists. eexists. split; [vm_compute; reflexivity |].
    repeat split; vm_compute; reflexivity.
  - eexists. eexists. split; [vm_compute; reflexivity |].
    repeat split; vm_compute; reflexivity.
Qed.

(** ** The length and the hours of the forecast *)








(** ** The summary metrics *)

Lemma dyadic_quarters (v : Z) : dyadic v (-2) = Qmake v 4.
Proof. reflexivity. Qed.

Lemma logistics_metrics_exact (rs : list Result.t) :
  rs <> [] ->
  Z.abs (sum_Z (map Result.predicted_orders rs)) < 2 ^ 40 ->
  Z.abs (sum_Z (map Result.delivery_partners_needed rs)) < 2 ^ 40 ->
  exists m,
    logistics_metrics rs = Ok m
    /\ Metrics.total_orders m = sum_Z (map Result.predicted_orders rs)
    /\ Metrics.total_partners m = sum_Z (map Result.delivery_partners_needed rs)
    /\ Metrics.avg_partners_per_hour m
       = Float64.div (Float64.of_Z (sum_Z (map Result.delivery_partners_needed rs)))
                     (Float64.of_Z (Z.of_nat (List.length rs)))
    /\ represents (Metrics.baseline_partners m)
                  (3 * sum_Z (map Result.predicted_orders rs)) (-2)
    /\ represents (Metrics.partners_saved m)
                  (3 * sum_Z (map Result.predicted_orders rs)
                   - 4 * sum_Z (map Result.delivery_partners_needed rs)) (-2)
    /\ represents (Metrics.cost_savings m)
                  (150 * (3 * sum_Z (map Result.predicted_orders rs)
                          - 4 * sum_Z (map Result.delivery_partners_needed rs))) (-2)
    /\ Metrics.baseline_partners m
       = Float64.mul (Float64.of_Z (Metrics.total_orders m)) Float64.lit_0_75.
Proof.
  intros Hne HT HP.
  set (T := sum_Z (map Result.predicted_orders rs)) in *.
  set (P := sum_Z (map Result.delivery_partners_needed rs)) in *.
  destruct rs as [| r0 rs0]; [congruence|].
  assert (RB : represents (Float64.mul (Float64.of_Z T) Float64.lit_0_75) (3 * T) (-2)).
  { replace (3 * T) with (T * 3) by ring. change (-2) with (0 + -2).
    apply mul_represents; try lia.
    - apply of_Z_represents. lia.
    - apply lit_0_75_represents. }
  assert (RP : represents (Float64.of_Z P) (4 * P) (-2)).
  { replace (4 * P) with (P * 2 ^ 2) by (change (2 ^ 2) with 4; ring).
    change (-2) with (0 - 2).
    apply represents_rescale; [apply of_Z_represents; lia | lia | change (2 ^ 2) with 4; lia]. }
  assert (RS : represents (Float64.sub (Float64.mul (Float64.of_Z T) Float64.lit_0_75)
                                       (Float64.of_Z P)) (3 * T - 4 * P) (-2)).
  { apply sub_represents; try assumption; lia. }
  assert (RC : represents (Float64.mul (Float64.sub (Float64.mul (Float64.of_Z T) Float64.lit_0_75)
                                                    (Float64.of_Z P)) (Float64.of_Z 150))
                          (150 * (3 * T - 4 * P)) (-2)).
  { replace (150 * (3 * T - 4 * P)) with ((3 * T - 4 * P) * 150) by ring.
    change (-2) with (-2 + 0).
    apply mul_represents; try assumption; try lia.
    apply of_Z_represents. lia. }
  eexists. split.
  - cbn [logistics_metrics]. reflexivity.
  - cbn [Metrics.total_orders Metrics.total_partners Metrics.avg_partners_per_hour
         Metrics.baseline_partners Metrics.partners_saved Metrics.cost_savings].
    repeat split; assumption || reflexivity.
Qed.

Lemma calculate_logistics_impact_exact (rs : list Result.t) :
  rs <> [] ->
  Z.abs (sum_Z (map Result.predicted_orders rs)) < 2 ^ 40 ->
  Z.abs (sum_Z (map Result.delivery_partners_needed rs)) < 2 ^ 40 ->
  exists m,
    logistics_metrics rs = Ok m
    /\ calculate_logistics_impact rs
       = Ok (Impact.mk
               (sum_Z (map Result.predicted_orders rs))
               (Z.quot (3 * sum_Z (map Result.predicted_orders rs)
                        - 4 * sum_Z (map Result.delivery_partners_needed rs)) 4)
               (rupee ++ py_format_thousands
                           (Z.quot (150 * (3 * sum_Z (map Result.predicted_orders rs)
                                           - 4 * sum_Z (map Result.delivery_partners_needed rs))) 4))
               (Float64.round1 (Metrics.avg_partners_per_hour m))).
Proof.
  intros Hne HT HP.
  destruct (logistics_metrics_exact rs Hne HT HP) as [m [Hm [ET [EP [_ [_ [RS [RC _]]]]]]]].
  exists m. split; [exact Hm|].
  unfold calculate_logistics_impact. rewrite Hm. cbn [bind].
  rewrite (py_int_represents _ _ _ RS) by lia.
  rewrite (py_int_represents _ _ _ RC) by lia.
  cbn [bind Z.ltb Z.compare Z.opp]. change (2 ^ 2) with 4. rewrite ET. reflexivity.
Qed.

Lemma quarters_Q (v : Z) (q : Q) :
  (inject_Z v == 4 * q)%Q -> (dyadic v (-2) == q)%Q.
Proof.
  intros H. rewrite dyadic_quarters.
  assert (E : (Qmake v 4 == inject_Z v / 4)%Q).
  { unfold Qeq, Qdiv, Qmult, Qinv, inject_Z. cbn. lia. }
  rewrite E, H. field.
Qed.

Lemma multiples_of_5_partners (rs : list Result.t) :
  forallb translated rs = true ->
  forallb positive_multiple_of_5 rs = true ->
  sum_Z (map Result.predicted_orders rs) < 2 ^ 51 ->
  0 <= sum_Z (map Result.predicted_orders rs)
  /\ 5 * sum_Z (map Result.delivery_partners_needed rs)
     = 3 * sum_Z (map Result.predicted_orders rs).
Proof.
  induction rs as [| r rs IH]; intros Ht Hp Hb; cbn [map sum_Z fold_right] in *.
  - lia.
  - cbn [forallb] in Ht, Hp.
    apply andb_prop in Ht. destruct Ht as [Hr Ht].
    apply andb_prop in Hp. destruct Hp as [Hq Hp].
    fold (sum_Z (map Result.predicted_orders rs)) in *.
    fold (sum_Z (map Result.delivery_partners_needed rs)) in *.
    unfold positive_multiple_of_5 in Hq. apply andb_prop in Hq. destruct Hq as [Hpos Hmod].
    apply Z.ltb_lt in Hpos. apply Z.eqb_eq in Hmod.
    assert (Hnn : 0 <= sum_Z (map Result.predicted_orders rs)).
    { clear - Hp. induction rs as [| r' rs IH]; cbn [map sum_Z fold_right] in *; [lia|].
      cbn [forallb] in Hp. apply andb_prop in Hp. destruct Hp as [Hq Hp].
      unfold positive_multiple_of_5 in Hq. apply andb_prop in Hq. destruct Hq as [Hpos _].
      apply Z.ltb_lt in Hpos. specialize (IH Hp). unfold sum_Z in IH. lia. }
    destruct (IH Ht Hp ltac:(lia)) as [_ IH5].
    unfold translated in Hr. apply andb_prop in Hr. destruct Hr as [_ Hr].
    rewrite delivery_partners_of_floor in Hr by lia.
    apply Z.eqb_eq in Hr.
    pose proof (Z.div_mod (Result.predicted_orders r) 5 ltac:(lia)) as Dv.
    rewrite Hmod in Dv.
    assert (E3 : 3 * Result.predicted_orders r / 5 = 3 * (Result.predicted_orders r / 5)).
    { rewrite Dv at 1.
      replace (3 * (5 * (Result.predicted_orders r / 5) + 0))
        with (3 * (Result.predicted_orders r / 5) * 5) by ring.
      apply Z.div_mul. lia. }
    rewrite E3 in Hr. lia.
Qed.

(** C2 (amended). For a non-empty forecast the summary computes the total of
    the predicted orders, the baseline as 0.75 times that total, the saved
    partners as the baseline minus the sum of the partners of the hours, the
    cost savings as 150 times the saved partners and the average as the
    partners over the number of hours; the reported savings are truncated to
    integers.  When every hour predicts a positive multiple of 5 orders, a
    total of 1000 orders gives a baseline of 750, 600 partners and 150 saved
    partners. *)
Theorem C2_summary_metrics (rs : list Result.t) :
  rs <> [] ->
  Z.abs (sum_Z (map Result.predicted_orders rs)) < 2 ^ 40 ->
  Z.abs (sum_Z (map Result.delivery_partners_needed rs)) < 2 ^ 40 ->
  exists (m : Metrics.t) (i : Impact.t),
    logistics_metrics rs = Ok m
    /\ calculate_logistics_impact rs = Ok i
    /\ Metrics.total_orders m = sum_Z (map Result.predicted_orders rs)
    /\ Metrics.total_partners m = sum_Z (map Result.delivery_partners_needed rs)
    /\ Metrics.avg_partners_per_hour m
       = Float64.div (Float64.of_Z (Metrics.total_partners m))
                     (Float64.of_Z (Z.of_nat (List.length rs)))
    /\ (Float64.to_Q (Metrics.baseline_partners m)
        == (75 # 100) * inject_Z (Metrics.total_orders m))%Q
    /\ (Float64.to_Q (Metrics.partners_saved m)
        == Float64.to_Q (Metrics.baseline_partners m) - inject_Z (Metrics.total_partners m))%Q
    /\ (Float64.to_Q (Metrics.cost_savings m)
        == Float64.to_Q (Metrics.partners_saved m) * 150)%Q
    /\ Impact.total_predicted_orders i = Metrics.total_orders m
    /\ Impact.delivery_partners_saved i
       = Z.quot (3 * Metrics.total_orders m - 4 * Metrics.total_partners m) 4
    /\ Impact.avg_delivery_partners i = Float64.round1 (Metrics.avg_partners_per_hour m)
    /\ (forallb translated rs = true ->
        forallb positive_multiple_of_5 rs = true ->
        Metrics.total_orders m = 1000 ->
        (Float64.to_Q (Metrics.baseline_partners m) == 750)%Q
        /\ Metrics.total_partners m = 600
        /\ (Float64.to_Q (Metrics.partners_saved m) == 150)%Q
        /\ Impact.delivery_partners_saved i = 150).
Proof.
  intros Hne HT HP.
  destruct (logistics_metrics_exact rs Hne HT HP) as [m [Hm [ET [EP [EA [RB [RS [RC _]]]]]]]].
  destruct (calculate_logistics_impact_exact rs Hne HT HP) as [m' [Hm' Hi]].
  rewrite Hm in Hm'. inversion Hm'; subst m'. clear Hm'.
  set (T := sum_Z (map Result.predicted_orders rs)) in *.
  set (P := sum_Z (map Result.delivery_partners_needed rs)) in *.
  pose proof (to_Q_represents _ _ _ RB ltac:(lia)) as QB.
  pose proof (to_Q_represents _ _ _ RS ltac:(lia)) as QS.
  pose proof (to_Q_represents _ _ _ RC ltac:(lia)) as QC.
  assert (QB' : (Float64.to_Q (Metrics.baseline_partners m) == (75 # 100) * inject_Z T)%Q).
  { rewrite QB. apply quarters_Q. rewrite inject_Z_mult. field. }
  assert (QS' : (Float64.to_Q (Metrics.partners_saved m)
                 == (75 # 100) * inject_Z T - inject_Z P)%Q).
  { rewrite QS. apply quarters_Q.
    unfold Z.sub. rewrite inject_Z_plus, inject_Z_opp, !inject_Z_mult. field. }
  assert (QC' : (Float64.to_Q (Metrics.cost_savings m)
                 == ((75 # 100) * inject_Z T - inject_Z P) * 150)%Q).
  { rewrite QC. apply quarters_Q.
    unfold Z.sub. rewrite inject_Z_mult, inject_Z_plus, inject_Z_opp, !inject_Z_mult. field. }
  eexists m, _. split; [exact Hm | split; [exact Hi |]].
  cbn [Impact.total_predicted_orders Impact.delivery_partners_saved Impact.avg_delivery_partners].
  rewrite ET, EP.
  split; [reflexivity | split; [reflexivity | split; [exact EA |]]].
  split; [exact QB' | split; [rewrite QS', QB'; reflexivity |]].
  split; [rewrite QC', QS'; reflexivity |].
  split; [reflexivity | split; [reflexivity | split; [reflexivity |]]].
  intros Htr H5 E1000.
  destruct (multiples_of_5_partners rs Htr H5 ltac:(fold T; lia)) as [_ E5].
  fold T in E5. fold P in E5.
  assert (EP600 : P = 600) by lia.
  split; [rewrite QB', E1000; reflexivity |].
  split; [exact EP600 |].
  split; [rewrite QS', E1000, EP600; reflexivity |].
  rewrite E1000, EP600. reflexivity.
Qed.

Lemma C2_summary_metrics_witness :
  exists rs, get_demand_forecast (list_model [400; 600]) 0 2 = Ok rs
  /\ exists (m : Metrics.t) (i : Impact.t),
      logistics_metrics rs = Ok m
      /\ calculate_logistics_impact rs = Ok i
      /\ Metrics.total_orders m = 1000
      /\ (Float64.to_Q (Metrics.baseline_partners m) == 750)%Q
      /\ Metrics.total_partners m = 600
      /\ (Float64.to_Q (Metrics.partners_saved m) == 150)%Q
      /\ Impact.delivery_partners_saved i = 150.
Proof.
  eexists. split; [vm_compute; reflexivity |].
  match goal with
  | |- exists m i, logistics_metrics ?rs = _ /\ _ =>
      destruct (C2_summary_metrics rs) as [m [i [Hm [Hi [ET [_ [_ [_ [_ [_ [_ [_ [_ H]]]]]]]]]]]]]
  end.
  - discriminate.
  - vm_compute. reflexivity.
  - vm_compute. reflexivity.
  - exists m, i.
    assert (E : Metrics.total_orders m = 1000) by (rewrite ET; vm_compute; reflexivity).
    destruct (H ltac:(vm_compute; reflexivity) ltac:(vm_compute; reflexivity) E) as [B [P [S D]]].
    repeat split; assumption.
Defined.

(** The scenario of the claim fails for a forecast whose hours do not all
    predict a multiple of 5: 997 and 3 orders add up to 1000 and are staffed
    with 598 and 1 partners. *)
Lemma C2_counterexample :
  exists rs m i,
    get_demand_forecast (list_model [997; 3]) 0 2 = Ok rs
    /\ logistics_metrics rs = Ok m
    /\ calculate_logistics_impact rs = Ok i
    /\ Metrics.total_orders m = 1000
    /\ Metrics.total_partners m = 599
    /\ Metrics.total_partners m <> 600
    /\ Impact.delivery_partners_saved i = 151
    /\ Impact.delivery_partners_saved i <> 150.
Proof.
  eexists. eexists. eexists.
  split; [vm_compute; reflexivity |].
  split; [vm_compute; reflexivity |].
  split; [vm_compute; reflexivity |].
  cbn. repeat split; (reflexivity || discriminate || lia).
Qed.

(** ** Savings below zero *)

Lemma all_zero_sums (rs : list Result.t) :
  forallb (fun r => (Result.predicted_orders r =? 0)
                    && (Result.delivery_partners_needed r =? 1)) rs = true ->
  sum_Z (map Result.predicted_orders rs) = 0
  /\ sum_Z (map Result.delivery_partners_needed rs) = Z.of_nat (List.length rs).
Proof.
  induction rs as [| r rs IH]; intros H; cbn [map sum_Z fold_right List.length forallb] in *.
  - split; reflexivity.
  - apply andb_prop in H. destruct H as [Hr H].
    apply andb_prop in Hr. destruct Hr as [H0 H1].
    apply Z.eqb_eq in H0. apply Z.eqb_eq in H1.
    destruct (IH H) as [E0 E1]. unfold sum_Z in E0, E1. lia.
Qed.

(** C10. The summary never clamps the savings at zero.  With no predicted
    order the translation still staffs one partner per hour; for a non-empty
    forecast of such hours the baseline is 0, the saved partners are minus
    the number of hours and the cost savings are negative. *)
Theorem C10_negative_savings (rs : list Result.t) :
  rs <> [] ->
  Z.of_nat (List.length rs) < 2 ^ 40 ->
  forallb (fun r => (Result.predicted_orders r =? 0)
                    && (Result.delivery_partners_needed r =? 1)) rs = true ->
  delivery_partners_of 0 = Ok 1
  /\ exists (m : Metrics.t) (i : Impact.t),
      logistics_metrics rs = Ok m
      /\ calculate_logistics_impact rs = Ok i
      /\ Metrics.baseline_partners m = S754_zero false
      /\ Metrics.total_partners m = Z.of_nat (List.length rs)
      /\ (Float64.to_Q (Metrics.partners_saved m) == inject_Z (- Z.of_nat (List.length rs)))%Q
      /\ (Float64.to_Q (Metrics.cost_savings m)
          == inject_Z (- 150 * Z.of_nat (List.length rs)))%Q
      /\ Impact.delivery_partners_saved i = - Z.of_nat (List.length rs)
      /\ Impact.delivery_partners_saved i < 0
      /\ Impact.estimated_cost_savings i
         = (rupee ++ py_format_thousands (- 150 * Z.of_nat (List.length rs)))%string
      /\ (Float64.to_Q (Metrics.cost_savings m) < 0)%Q.
Proof.
  intros Hne Hlen Hz.
  split; [reflexivity|].
  destruct (all_zero_sums rs Hz) as [E0 E1].
  assert (Hpos : 0 < Z.of_nat (List.length rs)).
  { destruct rs; [congruence | cbn [List.length]; lia]. }
  destruct (logistics_metrics_exact rs Hne ltac:(rewrite E0; cbn; lia) ltac:(rewrite E1; lia))
    as [m [Hm [ET [EP [EA [RB [RS [RC EBm]]]]]]]].
  destruct (calculate_logistics_impact_exact rs Hne ltac:(rewrite E0; cbn; lia) ltac:(rewrite E1; lia))
    as [m' [Hm' Hi]].
  rewrite Hm in Hm'. inversion Hm'; subst m'. clear Hm'.
  rewrite E0, E1 in *.
  set (n := Z.of_nat (List.length rs)) in *.
  pose proof (to_Q_represents _ _ _ RS ltac:(lia)) as QS.
  pose proof (to_Q_represents _ _ _ RC ltac:(lia)) as QC.
  assert (QS' : (Float64.to_Q (Metrics.partners_saved m) == inject_Z (- n))%Q).
  { rewrite QS. apply quarters_Q.
    replace (3 * 0 - 4 * n) with (4 * - n) by ring. rewrite inject_Z_mult. reflexivity. }
  assert (QC' : (Float64.to_Q (Metrics.cost_savings m) == inject_Z (- 150 * n))%Q).
  { rewrite QC. apply quarters_Q.
    replace (150 * (3 * 0 - 4 * n)) with (4 * (- 150 * n)) by ring.
    rewrite inject_Z_mult. reflexivity. }
  assert (EB : Metrics.baseline_partners m = S754_zero false).
  { rewrite EBm, ET. reflexivity. }
  exists m. eexists. split; [exact Hm | split; [exact Hi |]].
  cbn [Impact.delivery_partners_saved Impact.estimated_cost_savings].
  replace (Z.quot (3 * 0 - 4 * n) 4) with (- n).
  2:{ replace (3 * 0 - 4 * n) with (- n * 4) by ring. rewrite Z.quot_mul by lia. reflexivity. }
  replace (Z.quot (150 * (3 * 0 - 4 * n)) 4) with (- 150 * n).
  2:{ replace (150 * (3 * 0 - 4 * n)) with (- 150 * n * 4) by ring.
      rewrite Z.quot_mul by lia. reflexivity. }
  repeat split; try assumption; try reflexivity; try lia.
  rewrite QC'. unfold Qlt, inject_Z. cbn [Qnum Qden]. lia.
Qed.

Lemma C10_negative_savings_witness :
  exists rs, get_demand_forecast (flat_model 0) 0 3 = Ok rs
  /\ exists (m : Metrics.t) (i : Impact.t),
      logistics_metrics rs = Ok m
      /\ calculate_logistics_impact rs = Ok i
      /\ Metrics.baseline_partners m = S754_zero false
      /\ Impact.delivery_partners_saved i = - 3
      /\ Impact.estimated_cost_savings i = (rupee ++ "-450")%string.
Proof.
  eexists. split; [vm_compute; reflexivity |].
  match goal with
  | |- exists m i, logistics_metrics ?rs = _ /\ _ =>
      destruct (C10_negative_savings rs) as [_ [m [i [Hm [Hi [B [_ [_ [_ [S [_ [C _]]]]]]]]]]]]
  end.
  - discriminate.
  - vm_compute. reflexivity.
  - vm_compute. reflexivity.
  - exists m, i. repeat split; assumption.
Defined.

(** ** Sorting *)

Lemma insert_row_perm (x : Demand.t) (l : list Demand.t) :
  Permutation (x :: l) (insert_row x l).
Proof.
  induction l as [| y l IH]; cbn [insert_row]; [reflexivity|].
  destruct (row_le x y); [reflexivity|].
  rewrite perm_swap. constructor. exact IH.
Qed.

Lemma sort_values_perm (df : list Demand.t) : Permutation df (sort_values df).
Proof.
  induction df as [| x df IH]; cbn [sort_values fold_right]; [constructor|].
  rewrite <- insert_row_perm. constructor. exact IH.
Qed.

Lemma row_le_total (a b : Demand.t) : row_le a b = false -> row_le b a = true.
Proof.
  unfold row_le.
  destruct (Z.ltb_spec (Demand.restaurant_id a) (Demand.restaurant_id b)),
           (Z.eqb_spec (Demand.restaurant_id a) (Demand.restaurant_id b)),
           (Z.leb_spec (Demand.order_date a) (Demand.order_date b)),
           (Z.ltb_spec (Demand.restaurant_id b) (Demand.restaurant_id a)),
           (Z.eqb_spec (Demand.restaurant_id b) (Demand.restaurant_id a)),
           (Z.leb_spec (Demand.order_date b) (Demand.order_date a));
    cbn; intros; try reflexivity; try discriminate; lia.
Qed.

Lemma row_le_trans (a b c : Demand.t) :
  row_le a b = true -> row_le b c = true -> row_le a c = true.
Proof.
  unfold row_le.
  destruct (Z.ltb_spec (Demand.restaurant_id a) (Demand.restaurant_id b)),
           (Z.eqb_spec (Demand.restaurant_id a) (Demand.restaurant_id b)),
           (Z.leb_spec (Demand.order_date a) (Demand.order_date b)),
           (Z.ltb_spec (Demand.restaurant_id b) (Demand.restaurant_id c)),
           (Z.eqb_spec (Demand.restaurant_id b) (Demand.restaurant_id c)),
           (Z.leb_spec (Demand.order_date b) (Demand.order_date c)),
           (Z.ltb_spec (Demand.restaurant_id a) (Demand.restaurant_id c)),
           (Z.eqb_spec (Demand.restaurant_id a) (Demand.restaurant_id c)),
           (Z.leb_spec (Demand.order_date a) (Demand.order_date c));
    cbn; intros; try reflexivity; try discriminate; lia.
Qed.

Lemma insert_row_sorted (x : Demand.t) (l : list Demand.t) :
  StronglySorted row_le_prop l -> StronglySorted row_le_prop (insert_row x l).
Proof.
  induction 1 as [| y l Hl IH Hy]; cbn [insert_row].
  - constructor; constructor.
  - destruct (row_le x y) eqn:E.
    + constructor; [constructor; assumption |].
      constructor; [exact E |].
      rewrite Forall_forall in *. intros z Hz.
      apply (row_le_trans x y z E). apply Hy. exact Hz.
    + constructor; [exact IH |].
      apply (Permutation_Forall (insert_row_perm x l)).
      constructor; [apply row_le_total; exact E | exact Hy].
Qed.

Lemma sort_values_sorted (df : list Demand.t) : StronglySorted row_le_prop (sort_values df).
Proof.
  induction df as [| x df IH]; cbn [sort_values fold_right]; [constructor|].
  apply insert_row_sorted. exact IH.
Qed.

Lemma StronglySorted_filter {A : Type} (R : A -> A -> Prop) (p : A -> bool) (l : list A) :
  StronglySorted R l -> StronglySorted R (filter p l).
Proof.
  induction 1 as [| x l Hl IH Hx]; cbn [filter]; [constructor|].
  destruct (p x); [| exact IH].
  constructor; [exact IH |].
  rewrite Forall_forall in *. intros y Hy. apply filter_In in Hy. apply Hx. tauto.
Qed.

Lemma Permutation_filter' {A : Type} (p : A -> bool) (l l' : list A) :
  Permutation l l' -> Permutation (filter p l) (filter p l').
Proof.
  induction 1 as [| x l l' _ IH | x y l | l l' l'' _ IH1 _ IH2]; cbn [filter].
  - constructor.
  - destruct (p x); [constructor |]; exact IH.
  - destruct (p x), (p y); try reflexivity. apply perm_swap.
  - etransitivity; eassumption.
Qed.

(** ** The feature table before the fill *)

Lemma demand_of_add_features (prev : list Demand.t) (r : Demand.t) :
  demand_of (add_features prev r) = r.
Proof. destruct r. reflexivity. Qed.

Lemma features_from_demand (prev rows : list Demand.t) :
  map demand_of (features_from prev rows) = rows.
Proof.
  revert prev. induction rows as [| r rows IH]; intros prev; cbn [features_from map]; [reflexivity|].
  rewrite demand_of_add_features, IH. reflexivity.
Qed.

Lemma filter_map_comm {A B : Type} (f : A -> B) (p : B -> bool) (l : list A) :
  filter p (map f l) = map f (filter (fun x => p (f x)) l).
Proof.
  induction l as [| x l IH]; cbn [map filter]; [reflexivity|].
  destruct (p (f x)); cbn [map]; rewrite IH; reflexivity.
Qed.

Lemma series_demand (df : list Demand.t) (rid : Z) :
  map demand_of (series df rid) = filter (same_restaurant rid) (sort_values df).
Proof.
  unfold series, features_before_fill.
  rewrite <- (features_from_demand [] (sort_values df)) at 2.
  rewrite filter_map_comm. reflexivity.
Qed.

Lemma StronglySorted_map {A B : Type} (R : B -> B -> Prop) (f : A -> B) (l : list A) :
  StronglySorted R (map f l) -> StronglySorted (fun a b => R (f a) (f b)) l.
Proof.
  induction l as [| x l IH]; cbn [map]; intros H; [constructor|].
  inversion H as [| y l' Hl Hx]; subst.
  constructor; [apply IH; exact Hl |].
  rewrite Forall_forall in *. intros z Hz. apply Hx. apply in_map. exact Hz.
Qed.

Lemma series_sorted (df : list Demand.t) (rid : Z) :
  StronglySorted (fun a b => Feat.order_date a <= Feat.order_date b) (series df rid).
Proof.
  pose proof (StronglySorted_filter _ (same_restaurant rid) _ (sort_values_sorted df)) as S.
  rewrite <- series_demand in S. apply StronglySorted_map in S.
  assert (Rid : Forall (fun f => Feat.restaurant_id f = rid) (series df rid)).
  { apply Forall_forall. intros f Hf. unfold series in Hf. apply filter_In in Hf.
    destruct Hf as [_ Hf]. apply Z.eqb_eq. exact Hf. }
  induction S as [| x l Hl IH Hx]; [constructor|].
  inversion Rid as [| ? ? Rx Rl]; subst.
  constructor; [apply IH; exact Rl |].
  rewrite Forall_forall in *. intros y Hy.
  specialize (Hx y Hy). specialize (Rl y Hy).
  unfold row_le_prop, row_le in Hx. cbn [demand_of Demand.restaurant_id Demand.order_date] in Hx.
  rewrite Rl, Z.ltb_irrefl, Z.eqb_refl in Hx. cbn in Hx. apply Z.leb_le. exact Hx.
Qed.

(** The series of a restaurant holds exactly its observations. *)
Lemma series_perm (df : list Demand.t) (rid : Z) :
  Permutation (map demand_of (series df rid)) (filter (same_restaurant rid) df).
Proof.
  rewrite series_demand. symmetry. apply Permutation_filter'. apply sort_values_perm.
Qed.

(** ** Lags and rolling mean along a series *)

Lemma of_restaurant_add_features (rid : Z) (prev : list Demand.t) (r : Demand.t) :
  of_restaurant rid (add_features prev r) = same_restaurant rid r.
Proof. reflexivity. Qed.

Lemma features_from_series (rid : Z) (rows prev : list Demand.t) (i : nat) (f : Feat.t) :
  nth_error (filter (of_restaurant rid) (features_from prev rows)) i = Some f ->
  let counts := map Demand.order_count (filter (same_restaurant rid) rows) in
  let hist := map Demand.order_count (filter (same_restaurant rid) prev) ++ firstn i counts in
  Feat.orders_last_hour f = shift_value 1 hist
  /\ Feat.orders_last_day_same_hour f = shift_value 24 hist
  /\ Feat.orders_3h_mean f = rolling_mean_3 hist (Feat.order_count f)
  /\ nth_error counts i = Some (Feat.order_count f).
Proof.
  revert prev i. induction rows as [| r rows IH]; intros prev i H; cbn [features_from filter] in H.
  - destruct i; discriminate H.
  - rewrite of_restaurant_add_features in H. cbn [filter].
    destruct (same_restaurant rid r) eqn:E.
    + destruct i as [| j]; cbn [nth_error] in H.
      * inversion H; subst f. cbn [map firstn nth_error]. rewrite app_nil_r.
        unfold same_restaurant in E. apply Z.eqb_eq in E.
        cbn [add_features Feat.orders_last_hour Feat.orders_last_day_same_hour
             Feat.orders_3h_mean Feat.order_count].
        unfold group_history. rewrite E. auto.
      * specialize (IH (prev ++ [r]) j H). cbv zeta in IH.
        rewrite filter_app in IH. cbn [filter] in IH. rewrite E in IH.
        rewrite map_app in IH. cbn [map] in IH. rewrite <- app_assoc in IH.
        cbn [map firstn nth_error]. exact IH.
    + specialize (IH (prev ++ [r]) i H). cbv zeta in IH.
      rewrite filter_app in IH. cbn [filter] in IH. rewrite E in IH.
      rewrite app_nil_r in IH. exact IH.
Qed.

Lemma series_counts (df : list Demand.t) (rid : Z) :
  map Feat.order_count (series df rid)
  = map Demand.order_count (filter (same_restaurant rid) (sort_values df)).
Proof.
  rewrite <- series_demand, map_map. reflexivity.
Qed.

Lemma series_features (df : list Demand.t) (rid : Z) (i : nat) (f : Feat.t) :
  nth_error (series df rid) i = Some f ->
  let counts := map Feat.order_count (series df rid) in
  Feat.orders_last_hour f = shift_value 1 (firstn i counts)
  /\ Feat.orders_last_day_same_hour f = shift_value 24 (firstn i counts)
  /\ Feat.orders_3h_mean f = mean (last_n 3 (firstn (S i) counts))
  /\ (i < List.length counts)%nat.
Proof.
  intros H. cbv zeta. rewrite series_counts.
  destruct (features_from_series rid (sort_values df) [] i f H) as [H1 [H24 [Hm Hc]]].
  cbn [filter map app] in *.
  split; [exact H1 | split; [exact H24 | split]].
  - rewrite Hm. unfold rolling_mean_3. f_equal. f_equal.
    set (counts := map Demand.order_count (filter (same_restaurant rid) (sort_values df))) in *.
    rewrite <- (firstn_skipn_middle i counts Hc) at 2.
    replace (S i) with (List.length (firstn i counts) + 1)%nat.
    2:{ rewrite firstn_length_le; [lia |].
        assert (nth_error counts i <> None) by congruence.
        apply nth_error_Some in H0. lia. }
    rewrite firstn_app_2. reflexivity.
  - apply nth_error_Some. congruence.
Qed.

Lemma shift_value_firstn (k i : nat) (l : list Z) :
  (0 < k)%nat -> (i < List.length l)%nat ->
  shift_value k (firstn i l)
  = if (i <? k)%nat then None else option_map Float64.of_Z (nth_error l (i - k)).
Proof.
  intros Hk H. unfold shift_value. rewrite firstn_length_le by lia.
  destruct (Nat.ltb_spec i k); [reflexivity|].
  rewrite nth_error_firstn.
  destruct (Nat.ltb_spec (i - k) i); [reflexivity | lia].
Qed.

Lemma series_lag (df : list Demand.t) (rid : Z) (k i : nat) (f : Feat.t) (lag : option spec_float) :
  (0 < k)%nat ->
  nth_error (series df rid) i = Some f ->
  lag = shift_value k (firstn i (map Feat.order_count (series df rid))) ->
  ((i < k)%nat -> lag = None)
  /\ ((k <= i)%nat ->
      exists p, nth_error (series df rid) (i - k) = Some p
                /\ Feat.restaurant_id p = rid
                /\ lag = Some (Float64.of_Z (Feat.order_count p))).
Proof.
  intros Hk Hf E.
  assert (Hi : (i < List.length (series df rid))%nat) by (apply nth_error_Some; congruence).
  rewrite shift_value_firstn in E by (rewrite ?length_map; lia).
  split; intros H.
  - destruct (Nat.ltb_spec i k); [exact E | lia].
  - destruct (Nat.ltb_spec i k); [lia|].
    rewrite nth_error_map in E.
    destruct (nth_error (series df rid) (i - k)) as [p |] eqn:Ep.
    + exists p. split; [reflexivity | split; [| exact E]].
      apply nth_error_In in Ep. unfold series in Ep. apply filter_In in Ep.
      apply Z.eqb_eq. apply Ep.
    + apply nth_error_None in Ep. lia.
Qed.

(** A count of at most [2 ^ 53] in absolute value is converted to float64
    without rounding. *)
Lemma of_Z_exact (c : Z) :
  Z.abs c <= 2 ^ 53 ->
  py_int (Float64.of_Z c) = Ok c /\ (Float64.to_Q (Float64.of_Z c) == inject_Z c)%Q.
Proof.
  intros H.
  destruct (Z.eq_dec c (2 ^ 53)) as [E | N1]; [subst; split; vm_compute; reflexivity |].
  destruct (Z.eq_dec c (- 2 ^ 53)) as [E | N2]; [subst; split; vm_compute; reflexivity |].
  assert (B : Z.abs c < 2 ^ 53) by lia.
  pose proof (of_Z_represents c B) as R. split.
  - rewrite (py_int_represents _ _ _ R B). cbn [Z.ltb Z.compare]. f_equal.
    change (2 ^ 0) with 1. ring.
  - rewrite (to_Q_represents _ _ _ R B). unfold dyadic. cbn [Z.ltb Z.compare].
    change (2 ^ 0) with 1. rewrite Z.mul_1_r. reflexivity.
Qed.

Lemma of_Z_exact_injective (c c' : Z) :
  Z.abs c <= 2 ^ 53 -> Z.abs c' <= 2 ^ 53 -> Float64.of_Z c = Float64.of_Z c' -> c = c'.
Proof.
  intros H H' E.
  destruct (of_Z_exact c H) as [P _]. destruct (of_Z_exact c' H') as [P' _].
  rewrite E, P' in P. inversion P. reflexivity.
Qed.

(** C4 (amended). For a table whose counts are [int64] values: within the series of
    each restaurant, sorted ascending by time, [orders_last_hour] at step [i]
    is the [order_count] of step [i - 1] for every [i > 0] and is undefined
    before the fill at [i = 0]; [orders_last_day_same_hour] at step [i] is
    the [order_count] of step [i - 24] for every [i >= 24] (and undefined
    before the fill below 24).  The value always comes from a row of the same
    restaurant.  The lag is a float64 cell: it holds the count converted to
    float64, which is the count itself, without rounding, for every count of
    at most [2 ^ 53] in absolute value; the count [2 ^ 53 + 1] is the first
    that the conversion rounds. *)
Theorem C4_lag_features (df : list Demand.t) (rid : Z) :
  forallb (fun r => int64 (Demand.order_count r)) df = true ->
  StronglySorted (fun a b => Feat.order_date a <= Feat.order_date b) (series df rid)
  /\ Permutation (map demand_of (series df rid)) (filter (same_restaurant rid) df)
  /\ (forall (i : nat) (f : Feat.t),
        nth_error (series df rid) i = Some f ->
        (i = 0%nat -> Feat.orders_last_hour f = None)
        /\ ((0 < i)%nat ->
            exists p, nth_error (series df rid) (i - 1) = Some p
                      /\ Feat.restaurant_id p = rid
                      /\ Feat.orders_last_hour f = Some (Float64.of_Z (Feat.order_count p)))
        /\ ((i < 24)%nat -> Feat.orders_last_day_same_hour f = None)
        /\ ((24 <= i)%nat ->
            exists p, nth_error (series df rid) (i - 24) = Some p
                      /\ Feat.restaurant_id p = rid
                      /\ Feat.orders_last_day_same_hour f
                         = Some (Float64.of_Z (Feat.order_count p))))
  /\ (forall c : Z,
        Z.abs c <= 2 ^ 53 ->
        py_int (Float64.of_Z c) = Ok c
        /\ (Float64.to_Q (Float64.of_Z c) == inject_Z c)%Q)
  /\ (forall c c' : Z,
        Z.abs c <= 2 ^ 53 -> Z.abs c' <= 2 ^ 53 ->
        Float64.of_Z c = Float64.of_Z c' -> c = c')
  /\ Float64.of_Z (2 ^ 53 + 1) = Float64.of_Z (2 ^ 53).
Proof.
  intros _.
  split; [apply series_sorted | split; [apply series_perm | split; [| split; [| split]]]].
  - intros i f Hf.
    destruct (series_features df rid i f Hf) as [H1 [H24 _]].
    destruct (series_lag df rid 1 i f _ ltac:(lia) Hf H1) as [A1 B1].
    destruct (series_lag df rid 24 i f _ ltac:(lia) Hf H24) as [A24 B24].
    split; [intros; apply A1; lia | split; [intros; apply B1; lia | split; assumption]].
  - exact of_Z_exact.
  - exact of_Z_exact_injective.
  - vm_compute. reflexivity.
Qed.

Lemma C4_lag_features_witness :
  exists f p,
    nth_error (series alternating_history 7) 25 = Some f
    /\ nth_error (series alternating_history 7) (25 - 24) = Some p
    /\ Feat.restaurant_id p = 7
    /\ Feat.orders_last_day_same_hour f = Some (Float64.of_Z (Feat.order_count p))
    /\ py_int (Float64.of_Z (Feat.order_count p)) = Ok (Feat.order_count p).
Proof.
  destruct (C4_lag_features alternating_history 7 ltac:(vm_compute; reflexivity))
    as [_ [_ [H [Hx _]]]].
  eexists.
  destruct (H 25%nat _ ltac:(vm_compute; reflexivity)) as [_ [_ [_ H24]]].
  destruct (H24 ltac:(lia)) as [p [Hp [Hr Hl]]].
  exists p. split; [vm_compute; reflexivity | split; [exact Hp | split; [exact Hr | split; [exact Hl |]]]].
  apply Hx.
  assert (E : Feat.order_count p = 20).
  { vm_compute in Hp. inversion Hp. reflexivity. }
  rewrite E. cbn. lia.
Defined.

(** The claim as stated fails for a count above [2 ^ 53]: the lag column is
    a float64 column.  After an hour with [2 ^ 53 + 1] orders,
    [orders_last_hour] is [2 ^ 53], one order less than the [order_count] of
    the hour before. *)
Lemma C4_counterexample :
  exists f p x,
    nth_error (series huge_counts 7) 0 = Some p
    /\ nth_error (series huge_counts 7) 1 = Some f
    /\ int64 (Feat.order_count p) = true
    /\ Feat.order_count p = 2 ^ 53 + 1
    /\ Feat.orders_last_hour f = Some x
    /\ py_int x = Ok (2 ^ 53)
    /\ ~ (Float64.to_Q x == inject_Z (Feat.order_count p))%Q.
Proof.
  eexists. eexists. eexists.
  split; [vm_compute; reflexivity |].
  split; [vm_compute; reflexivity |].
  split; [vm_compute; reflexivity |].
  split; [vm_compute; reflexivity |].
  split; [vm_compute; reflexivity |].
  split; [vm_compute; reflexivity |].
  vm_compute. discriminate.
Qed.

(** ** The fill of missing values *)

Lemma bfill_length {A : Type} (col : list (option A)) :
  List.length (bfill col) = List.length col.
Proof. induction col as [| x col IH]; cbn [bfill List.length]; congruence. Qed.

Lemma ffill_from_length {A : Type} (last : option A) (col : list (option A)) :
  List.length (ffill_from last col) = List.length col.
Proof.
  revert last. induction col as [| [v |] col IH]; intros last; cbn [ffill_from List.length];
    [reflexivity | |]; rewrite IH; reflexivity.
Qed.

Lemma ffill_length {A : Type} (col : list (option A)) :
  List.length (ffill col) = List.length col.
Proof. apply ffill_from_length. Qed.

Lemma bfill_hd_defined {A : Type} (col : list (option A)) :
  existsb defined col = true -> defined (hd None (bfill col)) = true.
Proof.
  induction col as [| [v |] col IH]; cbn [existsb bfill hd defined orb]; intros H.
  - discriminate.
  - reflexivity.
  - apply IH. exact H.
Qed.

Lemma ffill_from_defined {A : Type} (last : option A) (col : list (option A)) :
  defined last = true \/ defined (hd None col) = true \/ col = [] ->
  forallb defined (ffill_from last col) = true.
Proof.
  revert last. induction col as [| [v |] col IH]; intros last H; cbn [ffill_from forallb defined].
  - reflexivity.
  - cbn [andb]. apply IH. left. reflexivity.
  - destruct H as [H | [H | H]]; [| discriminate | discriminate].
    rewrite H. cbn [andb]. apply IH. left. exact H.
Qed.

Lemma fill_defined {A : Type} (col : list (option A)) :
  existsb defined col = true -> forallb defined (ffill (bfill col)) = true.
Proof.
  intros H. apply ffill_from_defined. right; left. apply bfill_hd_defined. exact H.
Qed.

Lemma fill_undefined {A : Type} (col : list (option A)) :
  existsb defined col = false -> ffill (bfill col) = col.
Proof.
  intros H.
  assert (B : bfill col = col).
  { induction col as [| [v |] col IH]; cbn [existsb defined orb bfill] in *;
      [reflexivity | discriminate |].
    rewrite (IH H). destruct col as [| [w |] col']; cbn in *; try reflexivity; discriminate. }
  rewrite B. unfold ffill.
  induction col as [| [v |] col IH]; cbn [existsb defined orb ffill_from] in *;
    [reflexivity | discriminate |].
  rewrite IH; [reflexivity | exact H |].
  clear - B. cbn [bfill] in B. injection B as _ B. exact B.
Qed.

Lemma with_lag_columns_spec (rows : list Feat.t) (c1 c2 : list (option spec_float)) :
  List.length c1 = List.length rows -> List.length c2 = List.length rows ->
  map Feat.orders_last_hour (with_lag_columns rows c1 c2) = c1
  /\ map Feat.orders_last_day_same_hour (with_lag_columns rows c1 c2) = c2
  /\ map complete_columns (with_lag_columns rows c1 c2) = map complete_columns rows.
Proof.
  revert c1 c2. induction rows as [| r rows IH]; intros [| a c1] [| b c2] H1 H2;
    cbn [List.length] in *; try discriminate.
  - repeat split.
  - cbn [with_lag_columns map].
    destruct (IH c1 c2 ltac:(lia) ltac:(lia)) as [E1 [E2 E3]].
    rewrite E1, E2, E3. repeat split.
Qed.

Lemma fillna_spec (method : list (option spec_float) -> list (option spec_float))
  (df : list Feat.t) :
  (forall col, List.length (method col) = List.length col) ->
  map Feat.orders_last_hour (fillna method df) = method (map Feat.orders_last_hour df)
  /\ map Feat.orders_last_day_same_hour (fillna method df)
     = method (map Feat.orders_last_day_same_hour df)
  /\ map complete_columns (fillna method df) = map complete_columns df.
Proof.
  intros L. unfold fillna. apply with_lag_columns_spec; rewrite L, length_map; reflexivity.
Qed.

Lemma create_logistics_features_columns (df : list Demand.t) :
  map Feat.orders_last_hour (create_logistics_features df)
  = ffill (bfill (map Feat.orders_last_hour (features_before_fill df)))
  /\ map Feat.orders_last_day_same_hour (create_logistics_features df)
     = ffill (bfill (map Feat.orders_last_day_same_hour (features_before_fill df)))
  /\ map complete_columns (create_logistics_features df)
     = map complete_columns (features_before_fill df).
Proof.
  unfold create_logistics_features.
  destruct (fillna_spec bfill (features_before_fill df) (@bfill_length spec_float)) as [B1 [B2 B3]].
  destruct (fillna_spec ffill (fillna bfill (features_before_fill df)) (@ffill_length spec_float))
    as [F1 [F2 F3]].
  rewrite F1, F2, F3, B1, B2, B3. repeat split.
Qed.

Lemma features_before_fill_length (df : list Demand.t) :
  List.length (features_before_fill df) = List.length df.
Proof.
  unfold features_before_fill.
  rewrite <- (length_map demand_of), features_from_demand.
  symmetry. apply Permutation_length. apply sort_values_perm.
Qed.

(** C3 (amended). After the backward fill followed by the forward fill,
    applied to the whole table once the lag and rolling columns exist, a lag
    column with at least one defined cell has no undefined cell left, and the
    other columns are unchanged and defined.  A lag column with no defined
    cell at all stays undefined, and the operation still returns the table,
    one row per observation: it has no failure case. *)
Theorem C3_fill_policy (df : list Demand.t) :
  List.length (create_logistics_features df) = List.length df
  /\ map complete_columns (create_logistics_features df)
     = map complete_columns (features_before_fill df)
  /\ (existsb defined (map Feat.orders_last_hour (features_before_fill df)) = true ->
      forallb defined (map Feat.orders_last_hour (create_logistics_features df)) = true)
  /\ (existsb defined (map Feat.orders_last_day_same_hour (features_before_fill df)) = true ->
      forallb defined (map Feat.orders_last_day_same_hour (create_logistics_features df)) = true)
  /\ (existsb defined (map Feat.orders_last_hour (features_before_fill df)) = false ->
      map Feat.orders_last_hour (create_logistics_features df)
      = map Feat.orders_last_hour (features_before_fill df))
  /\ (existsb defined (map Feat.orders_last_day_same_hour (features_before_fill df)) = false ->
      map Feat.orders_last_day_same_hour (create_logistics_features df)
      = map Feat.orders_last_day_same_hour (features_before_fill df)).
Proof.
  destruct (create_logistics_features_columns df) as [E1 [E2 E3]].
  split; [| split; [exact E3 |]].
  - rewrite <- (length_map complete_columns), E3, length_map.
    apply features_before_fill_length.
  - rewrite E1, E2.
    split; [apply fill_defined | split; [apply fill_defined | split; apply fill_undefined]].
Qed.

Lemma C3_fill_policy_witness :
  forallb defined (map Feat.orders_last_hour (create_logistics_features alternating_history)) = true
  /\ forallb defined
       (map Feat.orders_last_day_same_hour (create_logistics_features alternating_history)) = true
  /\ map Feat.orders_last_hour (create_logistics_features single_observation)
     = map Feat.orders_last_hour (features_before_fill single_observation).
Proof.
  destruct (C3_fill_policy alternating_history) as [_ [_ [H1 [H24 _]]]].
  destruct (C3_fill_policy single_observation) as [_ [_ [_ [_ [H0 _]]]]].
  split; [apply H1; vm_compute; reflexivity | split].
  - apply H24. vm_compute. reflexivity.
  - apply H0. vm_compute. reflexivity.
Defined.

(** The claim as stated fails: for a table with a single observation the
    operation returns a row whose lag features are undefined. *)
Lemma C3_counterexample :
  ~ (forall (df : list Demand.t) (f : Feat.t),
        In f (create_logistics_features df) ->
        Feat.orders_last_hour f <> None /\ Feat.orders_last_day_same_hour f <> None)
  /\ map Feat.orders_last_hour (create_logistics_features single_observation) = [None]
  /\ map Feat.orders_last_day_same_hour (create_logistics_features single_observation) = [None].
Proof.
  split; [| split; reflexivity].
  intros H.
  destruct (H single_observation
              (Feat.mk 0 7 10 0 0 0 Normal None None (mean [10]) 0)) as [H1 _].
  - left. reflexivity.
  - apply H1. reflexivity.
Qed.

(** ** The rolling mean *)

(** ** Sums of integers in float64 *)

Lemma add_fz (sa sb : bool) (a b t : Z) :
  0 < a < 2 ^ 53 -> 0 < b < 2 ^ 53 ->
  Z.abs (cond_Zopp sa a + cond_Zopp sb b) < 2 ^ 53 ->
  -1000 <= t <= 900 ->
  represents (Float64.add (fz sa a t) (fz sb b t)) (cond_Zopp sa a + cond_Zopp sb b) t
  /\ (cond_Zopp sa a + cond_Zopp sb b = 0 ->
      Float64.add (fz sa a t) (fz sb b t) = S754_zero false).
Proof.
  intros Ha Hb Hab Ht.
  pose proof (Zdigits2_le_53 a Ha) as Da.
  pose proof (Zdigits2_le_53 b Hb) as Db.
  pose proof (mantissa_53 a Ha) as Ma.
  pose proof (mantissa_53 b Hb) as Mb.
  unfold Float64.add, fz. cbn [SFadd].
  set (ea := t + Zdigits2 a - 53). set (eb := t + Zdigits2 b - 53).
  set (ez := Z.min ea eb).
  rewrite !shl_align_fst by (unfold ez; lia).
  rewrite !Z2Pos.id by lia.
  assert (Hz : ez <= t) by (unfold ez, ea, eb; lia).
  assert (Ea : a * 2 ^ (53 - Zdigits2 a) * 2 ^ (ea - ez) = a * 2 ^ (t - ez)).
  { rewrite <- Z.mul_assoc, <- Z.pow_add_r by (unfold ez, ea, eb; lia).
    f_equal. f_equal. unfold ea. lia. }
  assert (Eb : b * 2 ^ (53 - Zdigits2 b) * 2 ^ (eb - ez) = b * 2 ^ (t - ez)).
  { rewrite <- Z.mul_assoc, <- Z.pow_add_r by (unfold ez, ea, eb; lia).
    f_equal. f_equal. unfold eb. lia. }
  rewrite Ea, Eb.
  assert (En : cond_Zopp sa (a * 2 ^ (t - ez)) + cond_Zopp sb (b * 2 ^ (t - ez))
               = (cond_Zopp sa a + cond_Zopp sb b) * 2 ^ (t - ez)).
  { destruct sa, sb; cbn [cond_Zopp]; ring. }
  split.
  - replace ez with (t - (t - ez)) at 3 by lia.
    apply binary_normalize_exact; try lia; exact En.
  - intros Z0. rewrite En, Z0. reflexivity.
Qed.

Lemma of_Z_fz (v : Z) :
  v <> 0 -> Z.abs v < 2 ^ 53 -> Float64.of_Z v = fz (v <? 0) (Z.abs v) 0.
Proof.
  intros N B. apply represents_bound_fz; [apply of_Z_represents; exact B | exact N].
Qed.

(** The float64 sum of two integers is their sum, as long as it stays below
    [2 ^ 53] in absolute value. *)
Lemma add_of_Z (a b : Z) :
  Z.abs a < 2 ^ 53 -> Z.abs b < 2 ^ 53 -> Z.abs (a + b) < 2 ^ 53 ->
  Float64.add (Float64.of_Z a) (Float64.of_Z b) = Float64.of_Z (a + b).
Proof.
  intros Ha Hb Hab.
  destruct (Z.eq_dec a 0) as [Ea | Na].
  - subst a. cbn [Z.add]. change (Float64.of_Z 0) with (S754_zero false).
    destruct (Z.eq_dec b 0) as [Eb | Nb]; [subst b; reflexivity |].
    rewrite (of_Z_fz b Nb Hb). reflexivity.
  - destruct (Z.eq_dec b 0) as [Eb | Nb].
    + subst b. rewrite Z.add_0_r. change (Float64.of_Z 0) with (S754_zero false).
      rewrite (of_Z_fz a Na Ha). reflexivity.
    + rewrite (of_Z_fz a Na Ha), (of_Z_fz b Nb Hb).
      pose proof (add_fz (a <? 0) (b <? 0) (Z.abs a) (Z.abs b) 0) as Sab.
      rewrite !cond_Zopp_abs in Sab.
      destruct (Sab ltac:(lia) ltac:(lia) Hab ltac:(lia)) as [R Z0].
      destruct (Z.eq_dec (a + b) 0) as [E0 | N0].
      * rewrite (Z0 E0), E0. reflexivity.
      * rewrite (of_Z_fz (a + b) N0 Hab).
        apply represents_bound_fz; assumption.
Qed.

Lemma sum_Z_abs_nonneg (w : list Z) : 0 <= sum_Z (map Z.abs w).
Proof. induction w as [| c w IH]; cbn [map sum_Z fold_right]; [lia |]. fold (sum_Z (map Z.abs w)). lia. Qed.

Lemma sum_Z_abs_bound (w : list Z) : Z.abs (sum_Z w) <= sum_Z (map Z.abs w).
Proof.
  induction w as [| c w IH]; cbn [map sum_Z fold_right]; [lia |].
  fold (sum_Z w). fold (sum_Z (map Z.abs w)). lia.
Qed.

Lemma fold_add_exact (w : list Z) (acc : Z) :
  Z.abs acc + sum_Z (map Z.abs w) < 2 ^ 53 ->
  fold_left Float64.add (map Float64.of_Z w) (Float64.of_Z acc) = Float64.of_Z (acc + sum_Z w).
Proof.
  revert acc. induction w as [| c w IH]; intros acc H; cbn [map fold_left sum_Z fold_right].
  - rewrite Z.add_0_r. reflexivity.
  - cbn [map sum_Z fold_right] in H. fold (sum_Z (map Z.abs w)) in H. fold (sum_Z w).
    pose proof (sum_Z_abs_nonneg w) as P.
    rewrite add_of_Z by lia.
    rewrite IH by lia. f_equal. ring.
Qed.

(** The mean of a window whose counts add up to less than [2 ^ 53] in
    absolute value is the correctly rounded quotient of the exact sum by the
    number of counts. *)
Lemma mean_exact (w : list Z) :
  sum_Z (map Z.abs w) < 2 ^ 53 ->
  mean w = Float64.div (Float64.of_Z (sum_Z w)) (Float64.of_Z (Z.of_nat (List.length w))).
Proof.
  intros H. unfold mean, sum_float. f_equal.
  change (S754_zero false) with (Float64.of_Z 0).
  rewrite fold_add_exact by (cbn [Z.abs]; lia). reflexivity.
Qed.

Lemma last_n_window {A : Type} (i : nat) (l : list A) :
  (i < List.length l)%nat ->
  let window := last_n 3 (firstn (S i) l) in
  List.length window = Nat.min 3 (S i)
  /\ forall j, (j < List.length window)%nat ->
               nth_error window j = nth_error l (S i - List.length window + j).
Proof.
  intros H. cbv zeta. unfold last_n.
  rewrite firstn_length_le by lia.
  rewrite length_skipn, firstn_length_le by lia.
  split; [lia |].
  intros j Hj. rewrite nth_error_skipn, nth_error_firstn.
  destruct (Nat.ltb_spec (S i - 3 + j) (S i)); [| lia].
  f_equal. lia.
Qed.

Lemma last_n_incl {A : Type} (n k : nat) (l : list A) (x : A) :
  In x (last_n n (firstn k l)) -> In x l.
Proof.
  unfold last_n. intros H. apply In_nth_error in H. destruct H as [j Hj].
  rewrite nth_error_skipn, nth_error_firstn in Hj.
  destruct (_ <? _)%nat; [| discriminate].
  apply nth_error_In in Hj. exact Hj.
Qed.

Lemma sum_abs_le (w : list Z) (b : Z) :
  (forall c, In c w -> Z.abs c <= b) ->
  sum_Z (map Z.abs w) <= Z.of_nat (List.length w) * b.
Proof.
  induction w as [| c w IH]; intros H; [cbn; lia |].
  cbn [map List.length]. change (sum_Z (Z.abs c :: map Z.abs w)) with (Z.abs c + sum_Z (map Z.abs w)).
  pose proof (H c (or_introl eq_refl)).
  specialize (IH (fun c' Hc' => H c' (or_intror Hc'))). lia.
Qed.

(** The counts of a restaurant's series are counts of the table. *)
Lemma series_count_In (df : list Demand.t) (rid c : Z) :
  In c (map Feat.order_count (series df rid)) ->
  exists r, In r df /\ Demand.order_count r = c.
Proof.
  intros H. apply in_map_iff in H. destruct H as [f [Ef Hf]].
  assert (Hd : In (demand_of f) (filter (same_restaurant rid) df)).
  { apply (Permutation_in _ (series_perm df rid)). apply in_map. exact Hf. }
  apply filter_In in Hd. destruct Hd as [Hd _].
  exists (demand_of f). split; [exact Hd | exact Ef].
Qed.

Lemma window_sum_bound (df : list Demand.t) (rid : Z) (i : nat) :
  forallb (fun r => Z.abs (Demand.order_count r) <=? 2 ^ 51) df = true ->
  (i < List.length (series df rid))%nat ->
  sum_Z (map Z.abs (last_n 3 (firstn (S i) (map Feat.order_count (series df rid))))) < 2 ^ 53.
Proof.
  intros B Hi.
  set (counts := map Feat.order_count (series df rid)).
  assert (Hc : (i < List.length counts)%nat) by (unfold counts; rewrite length_map; exact Hi).
  destruct (last_n_window i counts Hc) as [L _].
  pose proof (sum_abs_le (last_n 3 (firstn (S i) counts)) (2 ^ 51)) as Sb.
  assert (Hb : forall c, In c (last_n 3 (firstn (S i) counts)) -> Z.abs c <= 2 ^ 51).
  { intros c Hin. apply last_n_incl in Hin.
    destruct (series_count_In df rid c Hin) as [r [Hr Er]].
    rewrite forallb_forall in B. specialize (B r Hr). apply Z.leb_le in B. lia. }
  specialize (Sb Hb). rewrite L in Sb. lia.
Qed.

Lemma filter_none {A : Type} (p : A -> bool) (l : list A) :
  (forall x, In x l -> p x = false) -> filter p l = [].
Proof.
  induction l as [| x l IH]; cbn [filter]; intros H; [reflexivity |].
  rewrite (H x (or_introl eq_refl)). apply IH. intros y Hy. apply H. right. exact Hy.
Qed.

(** A filter that keeps the positions from [a] up to [b]. *)
Lemma filter_positions {A : Type} (p : A -> bool) (l : list A) (a b : nat) :
  (forall j x, nth_error l j = Some x -> p x = ((a <=? j)%nat && (j <? b)%nat)) ->
  filter p l = skipn a (firstn b l).
Proof.
  revert a b. induction l as [| x l IH]; intros a b H.
  - rewrite firstn_nil, skipn_nil. reflexivity.
  - cbn [filter]. rewrite (H 0%nat x eq_refl).
    destruct b as [| b].
    + rewrite andb_false_r. cbn [firstn]. rewrite skipn_nil.
      apply filter_none. intros y Hy. apply In_nth_error in Hy. destruct Hy as [j Hj].
      rewrite (H (S j) y Hj). apply andb_false_r.
    + cbn [firstn]. destruct a as [| a].
      * cbn [Nat.leb Nat.ltb andb skipn]. cbn [Nat.ltb Nat.leb]. f_equal.
        rewrite (IH 0%nat b); [reflexivity |].
        intros j y Hj. rewrite (H (S j) y Hj). reflexivity.
      * cbn [Nat.leb andb skipn].
        apply (IH a b). intros j y Hj. rewrite (H (S j) y Hj). reflexivity.
Qed.

Lemma hourly_dates (s : list Feat.t) (i j : nat) (f p : Feat.t) :
  hourly s -> nth_error s i = Some f -> nth_error s j = Some p ->
  Feat.order_date p - Z.of_nat j = Feat.order_date f - Z.of_nat i.
Proof.
  intros H.
  assert (G : forall k x y, nth_error s 0 = Some x -> nth_error s k = Some y ->
                            Feat.order_date y = Feat.order_date x + Z.of_nat k).
  { induction k as [| k IH]; intros x y Hx Hy.
    - rewrite Hx in Hy. inversion Hy. lia.
    - destruct (nth_error s k) as [z |] eqn:Ez.
      + rewrite (H k z y Ez Hy), (IH x z Hx eq_refl). lia.
      + apply nth_error_None in Ez.
        assert (nth_error s (S k) <> None) by congruence.
        apply nth_error_Some in H0. lia. }
  intros Hf Hp.
  destruct (nth_error s 0) as [x |] eqn:Ex.
  - rewrite (G i x f eq_refl Hf), (G j x p eq_refl Hp). lia.
  - apply nth_error_None in Ex.
    assert (nth_error s i <> None) by congruence.
    apply nth_error_Some in H0. lia.
Qed.

Lemma filter_and {A : Type} (p q : A -> bool) (l : list A) :
  filter (fun x => p x && q x) l = filter q (filter p l).
Proof.
  induction l as [| x l IH]; cbn [filter]; [reflexivity |].
  destruct (p x); cbn [andb filter]; [destruct (q x) |]; rewrite IH; reflexivity.
Qed.

(** In a series with a row for every hour, the last three rows up to a row
    are the rows of the hour of that row and of the two hours before. *)
Lemma hourly_window (df : list Demand.t) (rid : Z) (i : nat) (f : Feat.t) :
  hourly (series df rid) ->
  nth_error (series df rid) i = Some f ->
  Permutation (last_n 3 (firstn (S i) (map Feat.order_count (series df rid))))
              (spec_hour_window df rid (Feat.order_date f)).
Proof.
  intros H Hf.
  set (t := Feat.order_date f).
  set (inwin := fun r : Demand.t => (t - 2 <=? Demand.order_date r) && (Demand.order_date r <=? t)).
  assert (Hi : (i < List.length (series df rid))%nat).
  { apply nth_error_Some. congruence. }
  assert (E : filter (fun x => inwin (demand_of x)) (series df rid)
              = last_n 3 (firstn (S i) (series df rid))).
  { unfold last_n. rewrite firstn_length_le by lia.
    apply filter_positions. intros j x Hx.
    pose proof (hourly_dates _ i j f x H Hf Hx) as D.
    unfold inwin. cbn [demand_of Demand.order_date]. fold t in D.
    destruct (Nat.leb_spec (S i - 3) j), (Nat.ltb_spec j (S i)); cbn [andb].
    - apply andb_true_iff. rewrite Z.leb_le, Z.leb_le. lia.
    - apply andb_false_iff. right. apply Z.leb_gt. lia.
    - apply andb_false_iff. left. apply Z.leb_gt. lia.
    - lia. }
  unfold spec_hour_window.
  replace (filter (in_hours rid t) df) with (filter inwin (filter (same_restaurant rid) df)).
  2:{ rewrite <- filter_and. apply filter_ext. intros r. unfold in_hours, inwin.
      rewrite andb_assoc. reflexivity. }
  apply (Permutation_trans
           (l' := map Demand.order_count (filter inwin (map demand_of (series df rid))))).
  - rewrite filter_map_comm, E, map_map.
    unfold last_n. rewrite firstn_map, length_map, skipn_map.
    reflexivity.
  - apply Permutation_map. apply Permutation_filter'. apply series_perm.
Qed.

Lemma sum_Z_perm (l l' : list Z) : Permutation l l' -> sum_Z l = sum_Z l'.
Proof.
  induction 1 as [| x l l' _ IH | x y l | l l' l'' _ IH1 _ IH2];
    unfold sum_Z in *; cbn [fold_right] in *; lia.
Qed.

(** C5 (amended). Within the series of a restaurant, sorted ascending by time,
    [orders_3h_mean] at step [i] is the float64 mean of [order_count] over
    the row of step [i] and up to two rows before it: one value at the first
    step, two at the second, three from then on, whatever the hours between
    the rows.  For counts of at most [2 ^ 51] in absolute value the window
    sum is exact and the mean is the correctly rounded quotient of the sum by
    the number of values.  When the series has a row for every hour, the
    window holds the counts of the current and the two preceding hours.  The
    fill leaves the column unchanged.  For 48 observations alternating
    between 10 and 20, the value at index 2 is the mean of 10, 20 and 10, the
    double nearest to 40/3, which is 13.33 to two decimals. *)
Theorem C5_rolling_mean :
  (forall (df : list Demand.t) (rid : Z),
      StronglySorted (fun a b => Feat.order_date a <= Feat.order_date b) (series df rid)
      /\ Permutation (map demand_of (series df rid)) (filter (same_restaurant rid) df))
  /\ (forall (df : list Demand.t) (rid : Z) (i : nat) (f : Feat.t),
        forallb (fun r => Z.abs (Demand.order_count r) <=? 2 ^ 51) df = true ->
        nth_error (series df rid) i = Some f ->
        let counts := map Feat.order_count (series df rid) in
        let window := last_n 3 (firstn (S i) counts) in
        Feat.orders_3h_mean f
        = Float64.div (Float64.of_Z (sum_Z window))
                      (Float64.of_Z (Z.of_nat (List.length window)))
        /\ List.length window = Nat.min 3 (S i)
        /\ (forall j, (j < List.length window)%nat ->
                      nth_error window j = nth_error counts (S i - List.length window + j))
        /\ nth_error counts i = Some (Feat.order_count f)
        /\ (hourly (series df rid) ->
            Permutation window (spec_hour_window df rid (Feat.order_date f))
            /\ Feat.orders_3h_mean f
               = Float64.div
                   (Float64.of_Z (sum_Z (spec_hour_window df rid (Feat.order_date f))))
                   (Float64.of_Z
                      (Z.of_nat (List.length (spec_hour_window df rid (Feat.order_date f)))))))
  /\ (forall df : list Demand.t,
        map complete_columns (create_logistics_features df)
        = map complete_columns (features_before_fill df))
  /\ (exists f,
        nth_error (create_logistics_features alternating_history) 2 = Some f
        /\ Feat.orders_3h_mean f = mean [10; 20; 10]
        /\ Feat.orders_3h_mean f = Float64.div (Float64.of_Z 40) (Float64.of_Z 3)
        /\ (Qabs (Float64.to_Q (Feat.orders_3h_mean f) - (40 # 3)) <= 1 # 2 ^ 50)%Q
        /\ Qfloor (Float64.to_Q (Feat.orders_3h_mean f) * 100 + (1 # 2)) = 1333).
Proof.
  split; [| split; [| split]].
  - intros df rid. split; [apply series_sorted | apply series_perm].
  - intros df rid i f B Hf. cbv zeta.
    destruct (series_features df rid i f Hf) as [_ [_ [Hm Hi]]].
    destruct (last_n_window i (map Feat.order_count (series df rid)) Hi) as [L W].
    assert (Hs : (i < List.length (series df rid))%nat).
    { rewrite length_map in Hi. exact Hi. }
    assert (V : Feat.orders_3h_mean f
                = Float64.div
                    (Float64.of_Z
                       (sum_Z (last_n 3 (firstn (S i) (map Feat.order_count (series df rid))))))
                    (Float64.of_Z
                       (Z.of_nat
                          (List.length
                             (last_n 3 (firstn (S i) (map Feat.order_count (series df rid)))))))).
    { rewrite Hm. apply mean_exact. apply (window_sum_bound df rid i B Hs). }
    split; [exact V | split; [exact L | split; [exact W | split]]].
    + rewrite nth_error_map, Hf. reflexivity.
    + intros H. pose proof (hourly_window df rid i f H Hf) as P.
      split; [exact P |].
      rewrite V, (sum_Z_perm _ _ P), (Permutation_length P). reflexivity.
  - intros df. apply (create_logistics_features_columns df).
  - eexists. split; [vm_compute; reflexivity |].
    cbn [Feat.orders_3h_mean].
    split; [vm_compute; reflexivity | split; [vm_compute; reflexivity | split]].
    + vm_compute. discriminate.
    + vm_compute. reflexivity.
Qed.

Lemma C5_rolling_mean_witness :
  exists f,
    nth_error (series alternating_history 7) 2 = Some f
    /\ Feat.orders_3h_mean f = Float64.div (Float64.of_Z 40) (Float64.of_Z 3)
    /\ Permutation [10; 20; 10] (spec_hour_window alternating_history 7 (Feat.order_date f)).
Proof.
  destruct C5_rolling_mean as [_ [H _]].
  eexists.
  destruct (H alternating_history 7 2%nat _ ltac:(vm_compute; reflexivity)
              ltac:(vm_compute; reflexivity)) as [Hm [_ [_ [_ Hh]]]].
  split; [vm_compute; reflexivity | split; [exact Hm |]].
  apply Hh.
  intros j p q Hp Hq.
  do 48 (destruct j as [| j]; [vm_compute in Hp, Hq; inversion Hp; inversion Hq; reflexivity |]).
  vm_compute in Hq. destruct j; discriminate Hq.
Defined.

(** The claim as stated fails on a series with a gap: restaurant 7 has 3
    orders in the hour from 09:00 and 6 orders in the hour from 14:00.  The
    mean over the hour from 14:00 and the two hours before it is 6, and
    [orders_3h_mean] of that row is 4.5, the mean of both rows. *)
Lemma C5_counterexample :
  exists f,
    nth_error (create_logistics_features gap_history) 1 = Some f
    /\ Feat.restaurant_id f = 7
    /\ Feat.order_date f = 14
    /\ spec_hour_window gap_history 7 (Feat.order_date f) = [6]
    /\ (spec_mean (spec_hour_window gap_history 7 (Feat.order_date f)) == 6)%Q
    /\ (Float64.to_Q (Feat.orders_3h_mean f) == 9 # 2)%Q
    /\ ~ (Float64.to_Q (Feat.orders_3h_mean f)
          == spec_mean (spec_hour_window gap_history 7 (Feat.order_date f)))%Q.
Proof.
  eexists. split; [vm_compute; reflexivity |].
  split; [reflexivity | split; [reflexivity | split; [reflexivity |]]].
  split; [vm_compute; reflexivity | split; [vm_compute; reflexivity |]].
  vm_compute. discriminate.
Qed.


(** ** Hourly aggregation *)

Lemma key_compare_eq (a b : Z * Z) : key_compare a b = Eq <-> a = b.
Proof.
  unfold key_compare. destruct a as [a1 a2], b as [b1 b2]. cbn [fst snd].
  destruct (Z.compare_spec a1 b1) as [E | L | G].
  - subst. rewrite Z.compare_eq_iff. split; [intros ->; reflexivity | intros H; inversion H; reflexivity].
  - split; [discriminate | intros H; inversion H; lia].
  - split; [discriminate | intros H; inversion H; lia].
Qed.

Lemma key_compare_lt (a b : Z * Z) :
  key_compare a b = Lt <-> fst a < fst b \/ (fst a = fst b /\ snd a < snd b).
Proof.
  unfold key_compare.
  destruct (Z.compare_spec (fst a) (fst b)) as [E | L | G].
  - rewrite Z.compare_lt_iff. split; [intros H; right; split; assumption | intros [H | [_ H]]; [lia | exact H]].
  - split; [intros _; left; exact L | reflexivity].
  - split; [discriminate | intros [H | [H _]]; lia].
Qed.

Lemma key_compare_gt (a b : Z * Z) : key_compare a b = Gt <-> key_compare b a = Lt.
Proof.
  rewrite key_compare_lt. unfold key_compare.
  destruct (Z.compare_spec (fst a) (fst b)) as [E | L | G].
  - rewrite Z.compare_gt_iff. split; [intros H; right; split; [symmetry; exact E | exact H] | intros [H | [_ H]]; [lia | exact H]].
  - split; [discriminate | intros [H | [H _]]; lia].
  - split; [intros _; left; exact G | reflexivity].
Qed.

Lemma key_lt_trans (a b c : Z * Z) : key_lt a b -> key_lt b c -> key_lt a c.
Proof. unfold key_lt. rewrite !key_compare_lt. lia. Qed.

Lemma key_eqb_eq (a b : Z * Z) : key_eqb a b = true <-> a = b.
Proof.
  unfold key_eqb. rewrite <- key_compare_eq.
  destruct (key_compare a b); split; intros; congruence.
Qed.

Lemma key_lt_neq (a b : Z * Z) : key_lt a b -> key_eqb a b = false.
Proof. unfold key_lt, key_eqb. intros ->. reflexivity. Qed.

Lemma agg_insert_keys (r : Raw.t) (acc : list group) (k : Z * Z) :
  In k (map g_key (agg_insert r acc)) <-> k = group_key r \/ In k (map g_key acc).
Proof.
  induction acc as [| g acc IH]; cbn [agg_insert map In].
  - cbn. intuition congruence.
  - destruct (key_compare (group_key r) (g_key g)) eqn:E; cbn [map In g_key].
    + apply key_compare_eq in E. rewrite E. intuition congruence.
    + cbn. intuition congruence.
    + rewrite IH. intuition congruence.
Qed.

Lemma agg_insert_sorted (r : Raw.t) (acc : list group) :
  StronglySorted key_lt (map g_key acc) ->
  StronglySorted key_lt (map g_key (agg_insert r acc)).
Proof.
  induction acc as [| g acc IH]; cbn [agg_insert map]; intros S.
  - constructor; constructor.
  - inversion S as [| ? ? Sacc Hg]; subst.
    destruct (key_compare (group_key r) (g_key g)) eqn:E; cbn [map g_key].
    + constructor; assumption.
    + constructor; [exact S |].
      constructor; [exact E |].
      rewrite Forall_forall in *. intros k Hk.
      apply (key_lt_trans _ (g_key g)); [exact E | apply Hg; exact Hk].
    + constructor; [apply IH; exact Sacc |].
      rewrite Forall_forall in *. intros k Hk.
      apply agg_insert_keys in Hk. destruct Hk as [-> | Hk].
      * apply key_compare_gt. exact E.
      * apply Hg. exact Hk.
Qed.

Lemma fold_agg_invariant (P : list group -> Prop) (df : list Raw.t) (acc : list group) :
  P acc -> (forall r a, P a -> P (agg_insert r a)) ->
  P (fold_left (fun a r => agg_insert r a) df acc).
Proof.
  intros H0 Hstep. revert acc H0.
  induction df as [| r df IH]; intros acc H0; cbn [fold_left]; [exact H0|].
  apply IH. apply Hstep. exact H0.
Qed.

Lemma groupby_agg_sorted (df : list Raw.t) :
  StronglySorted key_lt (map g_key (groupby_agg df)).
Proof.
  unfold groupby_agg.
  apply (fold_agg_invariant (fun a => StronglySorted key_lt (map g_key a))).
  - constructor.
  - intros r a. apply agg_insert_sorted.
Qed.

Lemma groupby_agg_keys (df : list Raw.t) (k : Z * Z) :
  In k (map g_key (groupby_agg df)) <-> In k (map group_key df).
Proof.
  unfold groupby_agg.
  assert (G : forall acc,
             In k (map g_key (fold_left (fun a r => agg_insert r a) df acc))
             <-> In k (map group_key df) \/ In k (map g_key acc)).
  { induction df as [| r df IH]; intros acc; cbn [fold_left map In].
    - tauto.
    - rewrite IH, agg_insert_keys. intuition congruence. }
  rewrite G. cbn. tauto.
Qed.

Lemma add_weather_keys (draw : nat -> weather) (gs : list group) (i : nat) :
  map demand_key (add_weather draw i gs) = map g_key gs.
Proof.
  revert i. induction gs as [| g gs IH]; intros i; cbn [add_weather map]; [reflexivity|].
  rewrite IH. unfold demand_key. cbn. destruct (g_key g). reflexivity.
Qed.

Lemma add_weather_counts (draw : nat -> weather) (gs : list group) (i : nat) :
  map Demand.order_count (add_weather draw i gs) = map g_order_count gs.
Proof.
  revert i. induction gs as [| g gs IH]; intros i; cbn [add_weather map]; [reflexivity|].
  rewrite IH. reflexivity.
Qed.

Lemma StronglySorted_NoDup (l : list (Z * Z)) : StronglySorted key_lt l -> NoDup l.
Proof.
  induction 1 as [| k l Hl IH Hk]; constructor; [| exact IH].
  intros Hin. rewrite Forall_forall in Hk. specialize (Hk k Hin).
  apply key_lt_neq in Hk. assert (key_eqb k k = true) by (apply key_eqb_eq; reflexivity).
  congruence.
Qed.

Lemma add_weather_row (draw : nat -> weather) (gs : list group) (i : nat) (r : Demand.t) :
  In r (add_weather draw i gs) ->
  exists g, In g gs
            /\ demand_key r = g_key g
            /\ Demand.order_count r = g_order_count g
            /\ Demand.is_weekend r = g_is_weekend g
            /\ Demand.is_lunch_rush r = g_is_lunch_rush g
            /\ Demand.is_dinner_rush r = g_is_dinner_rush g.
Proof.
  revert i. induction gs as [| g gs IH]; intros i H; cbn [add_weather] in H.
  - destruct H.
  - destruct H as [E | H].
    + exists g. subst r. unfold demand_key. cbn. destruct (g_key g). auto 10.
    + destruct (IH _ H) as [g' [Hin Hg]]. exists g'. split; [right; exact Hin | exact Hg].
Qed.

(** X1. On a table of sales without rows the preparation raises
    [ValueError].  On any other table it returns a demand table with one row
    per pair of hour bucket and restaurant: the rows are in strictly
    ascending order of (hour, restaurant), so that no pair occurs twice, a
    pair occurs exactly when some sale falls in it, and the table is not
    empty and has at most as many rows as there are sales. *)
Theorem X1_one_row_per_hour_and_restaurant (draw : nat -> weather) (df : list Raw.t) :
  (df = [] <-> prepare_swiggy_demand_data draw df = Raise ValueError)
  /\ (df <> [] <-> exists table, prepare_swiggy_demand_data draw df = Ok table)
  /\ (forall table : list Demand.t,
        prepare_swiggy_demand_data draw df = Ok table ->
        StronglySorted key_lt (map demand_key table)
        /\ NoDup (map demand_key table)
        /\ (forall k : Z * Z, In k (map demand_key table) <-> In k (map group_key df))
        /\ table <> []
        /\ (List.length table <= List.length df)%nat).
Proof.
  split; [| split].
  - unfold prepare_swiggy_demand_data. destruct df; split; intros H; try reflexivity; discriminate.
  - unfold prepare_swiggy_demand_data. destruct df as [| r df]; split.
    + intros H. congruence.
    + intros [table H]. discriminate.
    + intros _. eauto.
    + intros _. discriminate.
  - intros table Ht. destruct (prepare_table _ _ _ Ht) as [Hne Et]. subst table.
    rewrite add_weather_keys.
    pose proof (groupby_agg_sorted df) as S.
    split; [exact S | split; [apply StronglySorted_NoDup; exact S | split; [apply groupby_agg_keys |]]].
    split.
    + intros E. destruct df as [| r df]; [congruence |].
      assert (Hk : In (group_key r) (map g_key (groupby_agg (r :: df)))).
      { apply groupby_agg_keys. left. reflexivity. }
      rewrite <- (add_weather_keys draw _ 0%nat), E in Hk. destruct Hk.
    + rewrite <- (length_map demand_key), add_weather_keys.
      rewrite <- (length_map group_key df).
      apply NoDup_incl_length; [apply StronglySorted_NoDup; exact S |].
      intros k Hk. apply groupby_agg_keys. exact Hk.
Qed.

Lemma X1_one_row_per_hour_and_restaurant_witness :
  prepare_swiggy_demand_data (fun _ => Normal) [] = Raise ValueError
  /\ exists table,
      prepare_swiggy_demand_data (fun _ => Normal) saturday_sales = Ok table
      /\ NoDup (map demand_key table)
      /\ List.length table = 2%nat.
Proof.
  split.
  - apply (proj1 (X1_one_row_per_hour_and_restaurant (fun _ => Normal) [])). reflexivity.
  - eexists. split; [reflexivity |]. split; [| reflexivity].
    apply (proj2 (proj2 (X1_one_row_per_hour_and_restaurant (fun _ => Normal) saturday_sales))).
    reflexivity.
Defined.

(** ** Conservation of the order counts *)

Lemma sum_Z_app (l l' : list Z) : sum_Z (l ++ l') = sum_Z l + sum_Z l'.
Proof.
  unfold sum_Z. induction l as [| x l IH]; cbn [app fold_right]; [reflexivity|].
  rewrite IH. ring.
Qed.

Lemma sum_Z_cons (x : Z) (l : list Z) : sum_Z (x :: l) = x + sum_Z l.
Proof. reflexivity. Qed.

Lemma int64_range (z : Z) : int64 z = true <-> - 2 ^ 63 <= z < 2 ^ 63.
Proof.
  unfold int64. rewrite andb_true_iff, Z.leb_le, Z.ltb_lt. reflexivity.
Qed.

Lemma wrap64_int64 (z : Z) : int64 (wrap64 z) = true.
Proof.
  apply int64_range. unfold wrap64.
  pose proof (Z.mod_pos_bound (z + 2 ^ 63) (2 ^ 64) ltac:(lia)). lia.
Qed.

Lemma wrap64_id (z : Z) : - 2 ^ 63 <= z < 2 ^ 63 -> wrap64 z = z.
Proof.
  intros H. unfold wrap64. rewrite Z.mod_small by lia. lia.
Qed.

Lemma wrap64_add_l (a b : Z) : wrap64 (wrap64 a + b) = wrap64 (a + b).
Proof.
  unfold wrap64. f_equal.
  replace ((a + 2 ^ 63) mod 2 ^ 64 - 2 ^ 63 + b + 2 ^ 63) with ((a + 2 ^ 63) mod 2 ^ 64 + b) by ring.
  rewrite Zplus_mod_idemp_l. f_equal. ring.
Qed.

Lemma wrap64_add_r (a b : Z) : wrap64 (a + wrap64 b) = wrap64 (a + b).
Proof. rewrite Z.add_comm, wrap64_add_l. f_equal. ring. Qed.

Lemma agg_insert_sum (r : Raw.t) (acc : list group) :
  wrap64 (sum_Z (map g_order_count (agg_insert r acc)))
  = wrap64 (sum_Z (map g_order_count acc) + Raw.order_count r).
Proof.
  induction acc as [| g acc IH]; cbn [agg_insert map].
  - rewrite !sum_Z_cons. cbn [group_of g_order_count]. f_equal. unfold sum_Z. cbn. ring.
  - destruct (key_compare (group_key r) (g_key g)); cbn [map]; rewrite !sum_Z_cons;
      cbn [g_order_count group_of].
    + rewrite wrap64_add_l. f_equal. ring.
    + f_equal. ring.
    + rewrite <- wrap64_add_r, IH, wrap64_add_r. f_equal. ring.
Qed.

Lemma groupby_agg_sum (df : list Raw.t) :
  wrap64 (sum_Z (map g_order_count (groupby_agg df))) = wrap64 (sum_Z (map Raw.order_count df)).
Proof.
  unfold groupby_agg.
  assert (G : forall acc,
             wrap64 (sum_Z (map g_order_count (fold_left (fun a r => agg_insert r a) df acc)))
             = wrap64 (sum_Z (map g_order_count acc) + sum_Z (map Raw.order_count df))).
  { induction df as [| r df IH]; intros acc; cbn [fold_left map].
    - f_equal. unfold sum_Z at 3. cbn. ring.
    - rewrite IH, sum_Z_cons, <- wrap64_add_l, agg_insert_sum, wrap64_add_l. f_equal. ring. }
  rewrite G. reflexivity.
Qed.

Lemma key_eqb_refl (k : Z * Z) : key_eqb k k = true.
Proof. apply key_eqb_eq. reflexivity. Qed.

Lemma key_eqb_sym (a b : Z * Z) : key_eqb a b = key_eqb b a.
Proof.
  destruct (key_eqb a b) eqn:E.
  - apply key_eqb_eq in E. subst. symmetry. apply key_eqb_refl.
  - destruct (key_eqb b a) eqn:E'; [| reflexivity].
    apply key_eqb_eq in E'. subst. rewrite key_eqb_refl in E. discriminate.
Qed.

Lemma group_total_cons (k : Z * Z) (g : group) (gs : list group) :
  group_total k (g :: gs)
  = (if key_eqb (g_key g) k then g_order_count g else 0) + group_total k gs.
Proof.
  unfold group_total, sum_Z. cbn [filter].
  destruct (key_eqb (g_key g) k); cbn [map fold_right]; ring.
Qed.

Lemma agg_insert_group_total (r : Raw.t) (acc : list group) (k : Z * Z) :
  wrap64 (group_total k (agg_insert r acc))
  = wrap64 (group_total k acc + (if key_eqb (group_key r) k then Raw.order_count r else 0)).
Proof.
  induction acc as [| g acc IH]; cbn [agg_insert].
  - rewrite group_total_cons. cbn [group_of g_key g_order_count]. f_equal. ring.
  - destruct (key_compare (group_key r) (g_key g)) eqn:E.
    + apply key_compare_eq in E. rewrite !group_total_cons. cbn [g_key g_order_count]. rewrite E.
      destruct (key_eqb (g_key g) k).
      * rewrite wrap64_add_l. f_equal. ring.
      * f_equal. ring.
    + rewrite !group_total_cons. cbn [group_of g_key g_order_count]. f_equal. ring.
    + rewrite !group_total_cons.
      rewrite <- wrap64_add_r, IH, wrap64_add_r. f_equal. ring.
Qed.

Lemma groupby_agg_group_total (df : list Raw.t) (k : Z * Z) :
  wrap64 (group_total k (groupby_agg df)) = wrap64 (sum_Z (map Raw.order_count (sales_of k df))).
Proof.
  unfold groupby_agg.
  assert (G : forall acc,
             wrap64 (group_total k (fold_left (fun a r => agg_insert r a) df acc))
             = wrap64 (group_total k acc + sum_Z (map Raw.order_count (sales_of k df)))).
  { unfold sales_of. induction df as [| r df IH]; intros acc; cbn [fold_left].
    - f_equal. cbn. ring.
    - rewrite IH, <- wrap64_add_l, agg_insert_group_total, wrap64_add_l. cbn [filter].
      destruct (key_eqb (group_key r) k); cbn [map]; [rewrite sum_Z_cons |]; f_equal; ring. }
  rewrite G. reflexivity.
Qed.

Lemma group_total_absent (k : Z * Z) (gs : list group) :
  ~ In k (map g_key gs) -> group_total k gs = 0.
Proof.
  induction gs as [| g gs IH]; cbn [map In]; intros H; [reflexivity|].
  rewrite group_total_cons, IH by tauto.
  destruct (key_eqb (g_key g) k) eqn:E; [| reflexivity].
  apply key_eqb_eq in E. tauto.
Qed.

Lemma group_total_unique (g : group) (gs : list group) :
  NoDup (map g_key gs) -> In g gs -> group_total (g_key g) gs = g_order_count g.
Proof.
  induction gs as [| h gs IH]; cbn [map]; intros N H; [destruct H|].
  inversion N as [| ? ? Nh Ngs]; subst.
  rewrite group_total_cons.
  destruct H as [E | H].
  - subst h. rewrite key_eqb_refl, group_total_absent by exact Nh. ring.
  - destruct (key_eqb (g_key h) (g_key g)) eqn:E.
    + apply key_eqb_eq in E. exfalso. apply Nh. rewrite E. apply in_map. exact H.
    + rewrite IH by assumption. ring.
Qed.

Lemma agg_insert_int64 (r : Raw.t) (acc : list group) :
  int64 (Raw.order_count r) = true ->
  Forall (fun g => int64 (g_order_count g) = true) acc ->
  Forall (fun g => int64 (g_order_count g) = true) (agg_insert r acc).
Proof.
  intros Hr. induction 1 as [| g acc Hg Hacc IH]; cbn [agg_insert].
  - constructor; [exact Hr | constructor].
  - destruct (key_compare (group_key r) (g_key g)).
    + constructor; [apply wrap64_int64 | exact Hacc].
    + constructor; [exact Hr | constructor; assumption].
    + constructor; assumption.
Qed.

Lemma groupby_agg_int64 (df : list Raw.t) :
  forallb int64 (map Raw.order_count df) = true ->
  Forall (fun g => int64 (g_order_count g) = true) (groupby_agg df).
Proof.
  unfold groupby_agg.
  assert (G : forall acc,
             forallb int64 (map Raw.order_count df) = true ->
             Forall (fun g => int64 (g_order_count g) = true) acc ->
             Forall (fun g => int64 (g_order_count g) = true)
                    (fold_left (fun a r => agg_insert r a) df acc)).
  { induction df as [| r df IH]; intros acc H Hacc; cbn [fold_left]; [exact Hacc |].
    cbn [map forallb] in H. apply andb_prop in H. destruct H as [Hr H].
    apply IH; [exact H | apply agg_insert_int64; assumption]. }
  intros H. apply G; [exact H | constructor].
Qed.

Lemma abs_sum_nonneg (l : list Z) : 0 <= sum_Z (map Z.abs l).
Proof.
  induction l as [| x l IH]; [cbn; lia |].
  cbn [map]. rewrite sum_Z_cons. lia.
Qed.

Lemma abs_sum_filter (p : Raw.t -> bool) (l : list Raw.t) :
  Z.abs (sum_Z (map Raw.order_count (filter p l)))
  <= sum_Z (map Z.abs (map Raw.order_count l)).
Proof.
  induction l as [| x l IH]; [cbn; lia |].
  cbn [filter map]. rewrite sum_Z_cons.
  destruct (p x); cbn [map]; rewrite ?sum_Z_cons; lia.
Qed.

Lemma abs_sum_all (l : list Z) : Z.abs (sum_Z l) <= sum_Z (map Z.abs l).
Proof.
  induction l as [| x l IH]; [cbn; lia |].
  cbn [map]. rewrite !sum_Z_cons. lia.
Qed.

Lemma agg_insert_exact (r : Raw.t) (acc : list group) :
  sum_Z (map Z.abs (map g_order_count acc)) + Z.abs (Raw.order_count r) < 2 ^ 63 ->
  sum_Z (map g_order_count (agg_insert r acc))
  = sum_Z (map g_order_count acc) + Raw.order_count r
  /\ sum_Z (map Z.abs (map g_order_count (agg_insert r acc)))
     <= sum_Z (map Z.abs (map g_order_count acc)) + Z.abs (Raw.order_count r).
Proof.
  induction acc as [| g acc IH]; cbn [agg_insert map]; intros H.
  - rewrite !sum_Z_cons. cbn [group_of g_order_count]. unfold sum_Z. cbn [fold_right]. lia.
  - rewrite !sum_Z_cons in H.
    pose proof (abs_sum_nonneg (map g_order_count acc)) as N.
    destruct (key_compare (group_key r) (g_key g)); cbn [map]; rewrite !sum_Z_cons;
      cbn [g_order_count group_of].
    + rewrite wrap64_id by lia. lia.
    + lia.
    + destruct (IH ltac:(lia)) as [E L]. lia.
Qed.

Lemma groupby_agg_exact (df : list Raw.t) :
  sum_Z (map Z.abs (map Raw.order_count df)) < 2 ^ 63 ->
  sum_Z (map g_order_count (groupby_agg df)) = sum_Z (map Raw.order_count df).
Proof.
  unfold groupby_agg.
  assert (G : forall acc,
             sum_Z (map Z.abs (map g_order_count acc))
             + sum_Z (map Z.abs (map Raw.order_count df)) < 2 ^ 63 ->
             sum_Z (map g_order_count (fold_left (fun a r => agg_insert r a) df acc))
             = sum_Z (map g_order_count acc) + sum_Z (map Raw.order_count df)).
  { induction df as [| r df IH]; intros acc H; cbn [fold_left map] in *.
    - unfold sum_Z at 3. cbn. ring.
    - rewrite !sum_Z_cons in H.
      pose proof (abs_sum_nonneg (map Raw.order_count df)) as N.
      destruct (agg_insert_exact r acc ltac:(lia)) as [E L].
      rewrite IH by lia. rewrite E, sum_Z_cons. ring. }
  intros H. rewrite G by (cbn; exact H). cbn. ring.
Qed.

Lemma demand_row_count (draw : nat -> weather) (df : list Raw.t) (table : list Demand.t) (r : Demand.t) :
  prepare_swiggy_demand_data draw df = Ok table ->
  forallb int64 (map Raw.order_count df) = true ->
  In r table ->
  Demand.order_count r
  = wrap64 (sum_Z (map Raw.order_count (sales_of (demand_key r) df))).
Proof.
  intros Ht Hi Hr. destruct (prepare_table _ _ _ Ht) as [_ Et]. subst table.
  destruct (add_weather_row _ _ _ _ Hr) as [g [Hg [Ek [Ec _]]]].
  rewrite Ek, Ec, <- groupby_agg_group_total.
  rewrite group_total_unique;
    [| apply StronglySorted_NoDup; apply groupby_agg_sorted | exact Hg].
  symmetry. apply wrap64_id. apply int64_range.
  pose proof (groupby_agg_int64 df Hi) as F. rewrite Forall_forall in F. apply F. exact Hg.
Qed.

(** X2. What the aggregation does to the orders, for sales whose counts are
    [int64] values.  The [order_count] of a row of the demand table is the
    [int64] sum, with wrap-around, of [order_count] over the sales of its
    restaurant that fall in its hour, and the counts of the table add up to
    the counts of the sales modulo [2 ^ 64].  When the absolute values of
    the counts of all sales add up to less than [2 ^ 63] nothing wraps: the
    aggregation loses and invents no order. *)
Theorem X2_order_counts_conserved
  (draw : nat -> weather) (df : list Raw.t) (table : list Demand.t) :
  prepare_swiggy_demand_data draw df = Ok table ->
  forallb int64 (map Raw.order_count df) = true ->
  Forall (fun r => Demand.order_count r
                   = wrap64 (sum_Z (map Raw.order_count (sales_of (demand_key r) df))))
         table
  /\ wrap64 (sum_Z (map Demand.order_count table)) = wrap64 (sum_Z (map Raw.order_count df))
  /\ (sum_Z (map Z.abs (map Raw.order_count df)) < 2 ^ 63 ->
      Forall (fun r => Demand.order_count r
                       = sum_Z (map Raw.order_count (sales_of (demand_key r) df)))
             table
      /\ sum_Z (map Demand.order_count table) = sum_Z (map Raw.order_count df)).
Proof.
  intros Ht Hi.
  assert (Rows : Forall (fun r => Demand.order_count r
                                  = wrap64 (sum_Z (map Raw.order_count (sales_of (demand_key r) df))))
                        table).
  { apply Forall_forall. intros r Hr. apply (demand_row_count draw df table r Ht Hi Hr). }
  destruct (prepare_table _ _ _ Ht) as [_ Et].
  split; [exact Rows | split].
  - subst table. rewrite add_weather_counts. apply groupby_agg_sum.
  - intros Hb. split.
    + rewrite Forall_forall in Rows. apply Forall_forall. intros r Hr.
      rewrite (Rows r Hr). apply wrap64_id.
      pose proof (abs_sum_filter (fun s => key_eqb (group_key s) (demand_key r)) df) as B.
      fold (sales_of (demand_key r) df) in B. lia.
    + subst table. rewrite add_weather_counts. apply groupby_agg_exact. exact Hb.
Qed.

Lemma X2_order_counts_conserved_witness :
  (exists table,
      prepare_swiggy_demand_data (fun _ => Normal) saturday_sales = Ok table
      /\ map Demand.order_count table = [7; 1]
      /\ sum_Z (map Demand.order_count table) = sum_Z (map Raw.order_count saturday_sales))
  /\ (exists table,
        prepare_swiggy_demand_data (fun _ => Normal) overflowing_sales = Ok table
        /\ Forall (fun r => Demand.order_count r
                            = wrap64 (sum_Z (map Raw.order_count
                                               (sales_of (demand_key r) overflowing_sales))))
                  table
        /\ map Demand.order_count table = [- 2 ^ 63]).
Proof.
  split.
  - eexists. split; [reflexivity | split; [reflexivity |]].
    eapply (proj2 (proj2 (X2_order_counts_conserved (fun _ => Normal) saturday_sales _
                            eq_refl eq_refl))).
    vm_compute. reflexivity.
  - eexists. split; [reflexivity | split; [| vm_compute; reflexivity]].
    apply (proj1 (X2_order_counts_conserved (fun _ => Normal) overflowing_sales _
                    eq_refl eq_refl)).
Defined.

(** ** The weekend flag *)

Lemma raw_day_of_week (r : Raw.t) :
  Raw.day_of_week r = day_of_week (fst (group_key r)).
Proof.
  unfold Raw.day_of_week, day_of_week, group_key. cbn [fst].
  rewrite Z.div_div by lia. reflexivity.
Qed.

Lemma agg_insert_weekend_ok (r : Raw.t) (acc : list group) :
  Forall group_weekend_ok acc -> Forall group_weekend_ok (agg_insert r acc).
Proof.
  assert (G : group_weekend_ok (group_of r)).
  { unfold group_weekend_ok, weekend_flag. cbn [group_of g_is_weekend g_key].
    unfold Raw.is_weekend. rewrite raw_day_of_week. reflexivity. }
  induction 1 as [| g acc Hg Hacc IH]; cbn [agg_insert].
  - constructor; [exact G | constructor].
  - destruct (key_compare (group_key r) (g_key g)).
    + constructor; [exact Hg | exact Hacc].
    + constructor; [exact G | constructor; assumption].
    + constructor; assumption.
Qed.

Lemma groupby_agg_weekend_ok (df : list Raw.t) : Forall group_weekend_ok (groupby_agg df).
Proof.
  unfold groupby_agg.
  apply (fold_agg_invariant (Forall group_weekend_ok)).
  - constructor.
  - intros r a. apply agg_insert_weekend_ok.
Qed.

Lemma demand_row_flags (draw : nat -> weather) (df : list Raw.t) (table : list Demand.t) (r : Demand.t) :
  prepare_swiggy_demand_data draw df = Ok table ->
  In r table ->
  Demand.is_weekend r = weekend_flag (Demand.order_date r)
  /\ Demand.is_lunch_rush r = lunch_flag (Demand.hour r)
  /\ Demand.is_dinner_rush r = dinner_flag (Demand.hour r).
Proof.
  intros Ht Hr. destruct (prepare_table _ _ _ Ht) as [_ Et]. subst table.
  destruct (add_weather_row _ _ _ _ Hr) as [g [Hg [Ek [_ [Ew [El Ed]]]]]].
  pose proof (groupby_agg_weekend_ok df) as W.
  pose proof (groupby_agg_flags_ok df) as F.
  rewrite Forall_forall in W, F.
  specialize (W g Hg). destruct (F g Hg) as [Fl Fd].
  unfold group_weekend_ok in W. unfold Demand.hour.
  assert (Eo : Demand.order_date r = fst (g_key g)).
  { rewrite <- Ek. reflexivity. }
  rewrite Ew, El, Ed, Eo. auto.
Qed.

(** X3. The weekend flag of a row of the demand table is 1 when the day of
    its hour is a Saturday or a Sunday and 0 otherwise, and the three flags
    of a row depend on its hour alone: rows of the same hour, of whatever
    restaurants, carry the same flags. *)
Theorem X3_flags_of_the_hour
  (draw : nat -> weather) (df : list Raw.t) (table : list Demand.t) (r : Demand.t) :
  prepare_swiggy_demand_data draw df = Ok table ->
  In r table ->
  (Demand.is_weekend r = 1
   <-> day_of_week (Demand.order_date r) = 5 \/ day_of_week (Demand.order_date r) = 6)
  /\ (Demand.is_weekend r = 0 <-> 0 <= day_of_week (Demand.order_date r) <= 4)
  /\ (forall r' : Demand.t,
        In r' table ->
        Demand.order_date r' = Demand.order_date r ->
        Demand.is_weekend r' = Demand.is_weekend r
        /\ Demand.is_lunch_rush r' = Demand.is_lunch_rush r
        /\ Demand.is_dinner_rush r' = Demand.is_dinner_rush r).
Proof.
  intros Ht Hr.
  destruct (demand_row_flags draw df table r Ht Hr) as [Ew [El Ed]].
  assert (B : 0 <= day_of_week (Demand.order_date r) < 7).
  { unfold day_of_week. apply Z.mod_pos_bound. lia. }
  split; [| split].
  - rewrite Ew. unfold weekend_flag.
    destruct (Z.leb_spec 5 (day_of_week (Demand.order_date r))); split; intros; lia.
  - rewrite Ew. unfold weekend_flag.
    destruct (Z.leb_spec 5 (day_of_week (Demand.order_date r))); split; intros; lia.
  - intros r' Hr' E.
    destruct (demand_row_flags draw df table r' Ht Hr') as [Ew' [El' Ed']].
    unfold Demand.hour in *. rewrite Ew, El, Ed, Ew', El', Ed', E. auto.
Qed.

Lemma X3_flags_of_the_hour_witness :
  exists table r,
    prepare_swiggy_demand_data (fun _ => Normal) saturday_sales = Ok table
    /\ In r table
    /\ day_of_week (Demand.order_date r) = 5
    /\ (Demand.is_weekend r = 1
        <-> day_of_week (Demand.order_date r) = 5
            \/ day_of_week (Demand.order_date r) = 6).
Proof.
  eexists. eexists.
  split; [reflexivity | split; [left; reflexivity | split; [reflexivity |]]].
  eapply (X3_flags_of_the_hour (fun _ => Normal) saturday_sales).
  - reflexivity.
  - left. reflexivity.
Defined.

(** ** Independence of the order of the sales *)

Lemma group_of_same_key (r1 r2 : Raw.t) :
  group_key r1 = group_key r2 ->
  mk_group (group_key r2) (wrap64 (Raw.order_count r2 + Raw.order_count r1))
           (Raw.is_weekend r2) (Raw.is_lunch_rush r2) (Raw.is_dinner_rush r2)
  = mk_group (group_key r1) (wrap64 (Raw.order_count r1 + Raw.order_count r2))
             (Raw.is_weekend r1) (Raw.is_lunch_rush r1) (Raw.is_dinner_rush r1).
Proof.
  intros E.
  assert (Eh : Raw.hour r1 = Raw.hour r2).
  { unfold Raw.hour. change (Raw.order_date r1 / 3600) with (fst (group_key r1)).
    change (Raw.order_date r2 / 3600) with (fst (group_key r2)). rewrite E. reflexivity. }
  unfold Raw.is_weekend, Raw.is_lunch_rush, Raw.is_dinner_rush.
  rewrite !raw_day_of_week, Eh, E. f_equal. f_equal. ring.
Qed.

Lemma key_compare_refl (k : Z * Z) : key_compare k k = Eq.
Proof. apply key_compare_eq. reflexivity. Qed.

Lemma key_compare_antisym (a b : Z * Z) : key_compare b a = CompOpp (key_compare a b).
Proof.
  destruct (key_compare a b) eqn:E; cbn [CompOpp].
  - apply key_compare_eq in E. subst. apply key_compare_refl.
  - apply key_compare_gt. exact E.
  - apply key_compare_gt in E. exact E.
Qed.

Lemma agg_insert_comm (r1 r2 : Raw.t) (acc : list group) :
  agg_insert r1 (agg_insert r2 acc) = agg_insert r2 (agg_insert r1 acc).
Proof.
  assert (Base : forall rest,
             agg_insert r1 rest = group_of r1 :: rest ->
             agg_insert r2 rest = group_of r2 :: rest ->
             agg_insert r1 (group_of r2 :: rest) = agg_insert r2 (group_of r1 :: rest)).
  { intros rest H1 H2.
    change (agg_insert r1 (group_of r2 :: rest))
      with (match key_compare (group_key r1) (group_key r2) with
            | Eq => mk_group (group_key r2) (wrap64 (Raw.order_count r2 + Raw.order_count r1))
                             (Raw.is_weekend r2) (Raw.is_lunch_rush r2) (Raw.is_dinner_rush r2)
                    :: rest
            | Lt => group_of r1 :: group_of r2 :: rest
            | Gt => group_of r2 :: agg_insert r1 rest
            end).
    change (agg_insert r2 (group_of r1 :: rest))
      with (match key_compare (group_key r2) (group_key r1) with
            | Eq => mk_group (group_key r1) (wrap64 (Raw.order_count r1 + Raw.order_count r2))
                             (Raw.is_weekend r1) (Raw.is_lunch_rush r1) (Raw.is_dinner_rush r1)
                    :: rest
            | Lt => group_of r2 :: group_of r1 :: rest
            | Gt => group_of r1 :: agg_insert r2 rest
            end).
    rewrite H1, H2.
    rewrite (key_compare_antisym (group_key r1) (group_key r2)).
    destruct (key_compare (group_key r1) (group_key r2)) eqn:E; cbn [CompOpp];
      [| reflexivity | reflexivity].
    apply key_compare_eq in E. f_equal. apply group_of_same_key. exact E. }
  induction acc as [| g acc IH].
  - apply Base; reflexivity.
  - cbn [agg_insert].
    destruct (key_compare (group_key r1) (g_key g)) eqn:E1,
             (key_compare (group_key r2) (g_key g)) eqn:E2.
    + cbn [agg_insert g_key]. rewrite E1, E2.
      cbn [g_key g_order_count g_is_weekend g_is_lunch_rush g_is_dinner_rush].
      f_equal. f_equal. rewrite !wrap64_add_l. f_equal. ring.
    + assert (L : key_compare (group_key r1) (group_key r2) = Gt).
      { apply key_compare_eq in E1. rewrite E1. apply key_compare_gt. exact E2. }
      cbn [agg_insert group_of g_key]. rewrite L, E1, E2. reflexivity.
    + cbn [agg_insert g_key]. rewrite E1, E2. reflexivity.
    + assert (L : key_compare (group_key r2) (group_key r1) = Gt).
      { apply key_compare_eq in E2. rewrite E2. apply key_compare_gt. exact E1. }
      cbn [agg_insert group_of g_key]. rewrite L, E1, E2. reflexivity.
    + apply Base; cbn [agg_insert]; [rewrite E1 | rewrite E2]; reflexivity.
    + assert (L : key_compare (group_key r2) (group_key r1) = Gt).
      { apply key_compare_gt. apply (key_lt_trans _ (g_key g)); [exact E1 |].
        apply key_compare_gt. exact E2. }
      cbn [agg_insert group_of g_key]. rewrite L, E1, E2. reflexivity.
    + cbn [agg_insert g_key]. rewrite E1, E2. reflexivity.
    + assert (L : key_compare (group_key r1) (group_key r2) = Gt).
      { apply key_compare_gt. apply (key_lt_trans _ (g_key g)); [exact E2 |].
        apply key_compare_gt. exact E1. }
      cbn [agg_insert group_of g_key]. rewrite L, E1, E2. reflexivity.
    + cbn [agg_insert]. rewrite E1, E2, IH. reflexivity.
Qed.

Lemma groupby_agg_perm (df df' : list Raw.t) :
  Permutation df df' -> groupby_agg df = groupby_agg df'.
Proof.
  unfold groupby_agg. intros P.
  assert (G : forall acc,
             fold_left (fun a r => agg_insert r a) df acc
             = fold_left (fun a r => agg_insert r a) df' acc).
  { induction P as [| x l l' _ IH | x y l | l l' l'' _ IH1 _ IH2]; intros acc; cbn [fold_left].
    - reflexivity.
    - apply IH.
    - rewrite agg_insert_comm. reflexivity.
    - rewrite IH1. apply IH2. }
  apply G.
Qed.

(** X4. The demand table does not depend on the order of the sales in the
    loaded table: the flags that the aggregation takes from the first sale of
    a group are the same for every sale of the group. *)
Theorem X4_order_of_sales_irrelevant (draw : nat -> weather) (df df' : list Raw.t) :
  Permutation df df' ->
  prepare_swiggy_demand_data draw df = prepare_swiggy_demand_data draw df'.
Proof.
  intros P. unfold prepare_swiggy_demand_data.
  destruct df as [| r df], df' as [| r' df'].
  - reflexivity.
  - apply Permutation_nil in P. discriminate P.
  - apply Permutation_sym, Permutation_nil in P. discriminate P.
  - rewrite (groupby_agg_perm _ _ P). reflexivity.
Qed.

Lemma X4_order_of_sales_irrelevant_witness :
  prepare_swiggy_demand_data (fun _ => Normal) saturday_sales
  = prepare_swiggy_demand_data (fun _ => Normal) (rev saturday_sales).
Proof.
  apply (X4_order_of_sales_irrelevant (fun _ => Normal) saturday_sales (rev saturday_sales)).
  apply Permutation_rev.
Defined.

(** ** The values that the fill gives *)

Lemma first_last_defined {A : Type} (col : list (option A)) :
  (first_defined col = None -> last_defined col = None)
  /\ (forall v, first_defined col = Some v -> exists w, last_defined col = Some w).
Proof.
  induction col as [| [x |] col [IH0 IH1]]; cbn [first_defined last_defined].
  - split; [reflexivity | discriminate].
  - split; [discriminate |]. intros v _. destruct (last_defined col); eauto.
  - split.
    + intros H. rewrite (IH0 H). reflexivity.
    + intros v H. destruct (IH1 v H) as [w Hw]. rewrite Hw. eauto.
Qed.

Lemma bfill_hd {A : Type} (col : list (option A)) :
  hd None (bfill col) = first_defined col.
Proof.
  destruct col as [| [x |] col]; cbn [bfill hd first_defined]; try reflexivity.
  induction col as [| [y |] col IH]; cbn [bfill hd first_defined]; try reflexivity.
  exact IH.
Qed.

Lemma fill_from_nth {A : Type} (col : list (option A)) (last : option A) (i : nat) :
  nth_error (ffill_from last (bfill col)) i
  = option_map (fun _ => match first_defined (skipn i col) with
                         | Some v => Some v
                         | None => match last_defined col with
                                   | Some w => Some w
                                   | None => last
                                   end
                         end)
               (nth_error col i).
Proof.
  revert last i. induction col as [| x col IH]; intros last i.
  - destruct i; reflexivity.
  - cbn [bfill]. rewrite bfill_hd.
    destruct (first_last_defined col) as [F0 F1].
    destruct x as [v |].
    + cbn [ffill_from]. destruct i as [| i]; cbn [nth_error skipn first_defined option_map last_defined].
      * reflexivity.
      * rewrite IH. destruct (nth_error col i); cbn [option_map]; [| reflexivity].
        destruct (first_defined (skipn i col)); [reflexivity |].
        destruct (last_defined col); reflexivity.
    + destruct (first_defined col) as [v |] eqn:E.
      * destruct (F1 v eq_refl) as [w Hw].
        cbn [ffill_from]. destruct i as [| i]; cbn [nth_error skipn first_defined option_map last_defined].
        -- rewrite E. reflexivity.
        -- rewrite IH, Hw. reflexivity.
      * pose proof (F0 eq_refl) as Hl.
        cbn [ffill_from]. destruct i as [| i]; cbn [nth_error skipn first_defined option_map last_defined].
        -- rewrite E, Hl. reflexivity.
        -- rewrite IH, Hl. reflexivity.
Qed.

Lemma fill_nth {A : Type} (col : list (option A)) (i : nat) :
  nth_error (ffill (bfill col)) i = option_map (fun _ => filled col i) (nth_error col i).
Proof.
  unfold ffill, filled. rewrite fill_from_nth.
  destruct (nth_error col i); cbn [option_map]; [| reflexivity].
  destruct (first_defined (skipn i col)); [reflexivity |].
  destruct (last_defined col); reflexivity.
Qed.

Lemma first_defined_skipn {A : Type} (col : list (option A)) (i : nat) (x : option A) :
  nth_error col i = Some x ->
  first_defined (skipn i col)
  = match x with
    | Some v => Some v
    | None => first_defined (skipn (S i) col)
    end.
Proof.
  revert i. induction col as [| y col IH]; intros i H.
  - destruct i; discriminate.
  - destruct i as [| i]; cbn [nth_error] in H.
    + inversion H; subst. cbn [skipn first_defined]. destruct x; reflexivity.
    + change (skipn (S i) (y :: col)) with (skipn i col).
      change (skipn (S (S i)) (y :: col)) with (skipn (S i) col).
      apply IH. exact H.
Qed.

Lemma filled_defined {A : Type} (col : list (option A)) (i : nat) (v : A) :
  nth_error col i = Some (Some v) -> filled col i = Some v.
Proof.
  intros H. unfold filled. rewrite (first_defined_skipn col i _ H). reflexivity.
Qed.

Lemma filled_next {A : Type} (col : list (option A)) (i : nat) (v : A) :
  nth_error col i = Some None -> filled col (S i) = Some v -> filled col i = Some v.
Proof.
  unfold filled. intros H. rewrite (first_defined_skipn col i _ H). auto.
Qed.

Lemma last_defined_In {A : Type} (col : list (option A)) (v : A) :
  last_defined col = Some v -> In (Some v) col.
Proof.
  induction col as [| x col IH]; cbn [last_defined]; [discriminate |].
  destruct (last_defined col) as [w |].
  - intros H. inversion H; subst. right. apply IH. reflexivity.
  - intros ->. left. reflexivity.
Qed.

Lemma first_defined_In {A : Type} (col : list (option A)) (v : A) :
  first_defined col = Some v -> In (Some v) col.
Proof.
  induction col as [| [x |] col IH]; cbn [first_defined]; [discriminate | |].
  - intros H. inversion H; subst. left. reflexivity.
  - intros H. right. apply IH. exact H.
Qed.

Lemma filled_In {A : Type} (col : list (option A)) (i : nat) (v : A) :
  filled col i = Some v -> In (Some v) col.
Proof.
  unfold filled. destruct (first_defined (skipn i col)) as [w |] eqn:E.
  - intros H. inversion H; subst.
    apply first_defined_In in E. rewrite <- (firstn_skipn i col). apply in_or_app. right. exact E.
  - apply last_defined_In.
Qed.

(** ** Rows of the feature table *)

Lemma features_from_nth (prev rows : list Demand.t) (i : nat) (b : Feat.t) :
  nth_error (features_from prev rows) i = Some b ->
  exists r, nth_error rows i = Some r /\ b = add_features (prev ++ firstn i rows) r.
Proof.
  revert prev i. induction rows as [| r rows IH]; intros prev i H; cbn [features_from] in H.
  - destruct i; discriminate.
  - destruct i as [| i]; cbn [nth_error] in H.
    + inversion H. exists r. cbn [nth_error firstn]. rewrite app_nil_r. auto.
    + destruct (IH _ _ H) as [r' [Hr Hb]]. exists r'. split; [exact Hr |].
      cbn [firstn]. rewrite <- app_assoc in Hb. exact Hb.
Qed.

Lemma create_logistics_features_demand (df : list Demand.t) :
  map demand_of (create_logistics_features df) = sort_values df.
Proof.
  destruct (create_logistics_features_columns df) as [_ [_ E]].
  assert (M : forall l, map demand_of l = map (fun c => fst (fst c)) (map complete_columns l)).
  { intros l. rewrite map_map. reflexivity. }
  rewrite M, E, <- M. unfold features_before_fill. apply features_from_demand.
Qed.

Lemma create_logistics_features_nth (df : list Demand.t) (i : nat) (f : Feat.t) :
  nth_error (create_logistics_features df) i = Some f ->
  exists b,
    nth_error (features_before_fill df) i = Some b
    /\ complete_columns f = complete_columns b
    /\ Feat.orders_last_hour f = filled (map Feat.orders_last_hour (features_before_fill df)) i
    /\ Feat.orders_last_day_same_hour f
       = filled (map Feat.orders_last_day_same_hour (features_before_fill df)) i.
Proof.
  intros H.
  destruct (create_logistics_features_columns df) as [E1 [E2 E3]].
  assert (H3 : nth_error (map complete_columns (create_logistics_features df)) i
               = Some (complete_columns f)) by (rewrite nth_error_map, H; reflexivity).
  rewrite E3, nth_error_map in H3.
  destruct (nth_error (features_before_fill df) i) as [b |] eqn:Eb; [| discriminate].
  exists b. split; [reflexivity | split; [cbn [option_map] in H3; congruence |]].
  assert (H1 : nth_error (map Feat.orders_last_hour (create_logistics_features df)) i
               = Some (Feat.orders_last_hour f)) by (rewrite nth_error_map, H; reflexivity).
  assert (H2 : nth_error (map Feat.orders_last_day_same_hour (create_logistics_features df)) i
               = Some (Feat.orders_last_day_same_hour f)) by (rewrite nth_error_map, H; reflexivity).
  rewrite E1, fill_nth, nth_error_map, Eb in H1.
  rewrite E2, fill_nth, nth_error_map, Eb in H2.
  cbn [option_map] in H1, H2. inversion H1. inversion H2. auto.
Qed.

Lemma before_fill_nth (df : list Demand.t) (i : nat) (f : Feat.t) :
  nth_error (create_logistics_features df) i = Some f ->
  exists b,
    nth_error (features_before_fill df) i = Some b
    /\ b = add_features (firstn i (sort_values df)) (demand_of f)
    /\ nth_error (sort_values df) i = Some (demand_of f).
Proof.
  intros H.
  destruct (create_logistics_features_nth df i f H) as [b [Hb [Ec _]]].
  exists b. split; [exact Hb |].
  unfold features_before_fill in Hb.
  destruct (features_from_nth _ _ _ _ Hb) as [r [Hr Er]]. cbn [app] in Er.
  assert (Ed : demand_of f = r).
  { assert (Ed : demand_of f = demand_of b) by (unfold complete_columns in Ec; congruence).
    rewrite Ed, Er. apply demand_of_add_features. }
  rewrite Ed. auto.
Qed.

Lemma shift_value_last (l : list Z) (x : Z) :
  shift_value 1 (l ++ [x]) = Some (Float64.of_Z x).
Proof.
  unfold shift_value. rewrite length_app. cbn [List.length].
  destruct (Nat.ltb_spec (List.length l + 1) 1); [lia |].
  replace (List.length l + 1 - 1)%nat with (List.length l) by lia.
  rewrite nth_error_app2 by lia. rewrite Nat.sub_diag. reflexivity.
Qed.

Lemma group_history_start (df : list Demand.t) (i : nat) (f : Feat.t) :
  nth_error (create_logistics_features df) i = Some f ->
  starts_restaurant (create_logistics_features df) i f ->
  group_history (firstn i (sort_values df)) (demand_of f) = [].
Proof.
  intros H S. unfold group_history.
  rewrite filter_none; [reflexivity |].
  intros r Hr. apply In_nth_error in Hr. destruct Hr as [j Hj].
  assert (Hlt : (j < i)%nat).
  { assert (L : (j < List.length (firstn i (sort_values df)))%nat)
      by (apply nth_error_Some; congruence).
    rewrite length_firstn in L. lia. }
  rewrite nth_error_firstn in Hj. destruct (Nat.ltb_spec j i); [| lia].
  rewrite <- (create_logistics_features_demand df), nth_error_map in Hj.
  destruct (nth_error (create_logistics_features df) j) as [p |] eqn:Ep; [| discriminate].
  cbn [option_map] in Hj. inversion Hj; subst r.
  specialize (S j p Hlt Ep).
  unfold same_restaurant. cbn [demand_of Demand.restaurant_id].
  apply Z.eqb_neq. exact S.
Qed.

Lemma before_fill_start (df : list Demand.t) (i : nat) (f : Feat.t) :
  nth_error (create_logistics_features df) i = Some f ->
  starts_restaurant (create_logistics_features df) i f ->
  nth_error (map Feat.orders_last_hour (features_before_fill df)) i = Some None.
Proof.
  intros H S.
  destruct (before_fill_nth df i f H) as [b [Hb [Eb _]]].
  rewrite nth_error_map, Hb. cbn [option_map]. rewrite Eb.
  cbn [add_features Feat.orders_last_hour].
  rewrite (group_history_start df i f H S). reflexivity.
Qed.

Lemma before_fill_next (df : list Demand.t) (i : nat) (f g : Feat.t) :
  nth_error (create_logistics_features df) i = Some f ->
  nth_error (create_logistics_features df) (S i) = Some g ->
  Feat.restaurant_id g = Feat.restaurant_id f ->
  nth_error (map Feat.orders_last_hour (features_before_fill df)) (S i)
  = Some (Some (Float64.of_Z (Feat.order_count f))).
Proof.
  intros Hf Hg E.
  destruct (before_fill_nth df i f Hf) as [_ [_ [_ Sf]]].
  destruct (before_fill_nth df (S i) g Hg) as [c [Hc [Ec _]]].
  rewrite nth_error_map, Hc. cbn [option_map]. rewrite Ec.
  cbn [add_features Feat.orders_last_hour]. unfold group_history.
  assert (F : firstn (S i) (sort_values df) = firstn i (sort_values df) ++ [demand_of f]).
  { rewrite <- (firstn_skipn i (sort_values df)) at 1.
    assert (L : (i < List.length (sort_values df))%nat) by (apply nth_error_Some; congruence).
    rewrite firstn_app, firstn_firstn, length_firstn.
    replace (Nat.min (S i) i) with i by lia.
    replace (S i - Nat.min i (List.length (sort_values df)))%nat with 1%nat by lia.
    f_equal.
    rewrite <- (firstn_skipn i (sort_values df)) in Sf.
    rewrite nth_error_app2 in Sf by (rewrite length_firstn; lia).
    rewrite length_firstn in Sf. replace (i - Nat.min i (List.length (sort_values df)))%nat with 0%nat in Sf by lia.
    destruct (skipn i (sort_values df)) as [| r rest]; [discriminate |].
    cbn in Sf. inversion Sf. reflexivity. }
  rewrite F, filter_app, map_app. cbn [filter].
  unfold same_restaurant at 2. cbn [demand_of Demand.restaurant_id].
  rewrite E, Z.eqb_refl. cbn [map]. rewrite shift_value_last. reflexivity.
Qed.

Lemma bfill_all_defined {A : Type} (col : list (option A)) :
  forallb defined col = true -> bfill col = col.
Proof.
  induction col as [| [v |] col IH]; cbn [forallb defined andb bfill]; intros H;
    [reflexivity | | discriminate].
  rewrite (IH H). reflexivity.
Qed.

Lemma ffill_from_all_defined {A : Type} (last : option A) (col : list (option A)) :
  forallb defined col = true -> ffill_from last col = col.
Proof.
  revert last. induction col as [| [v |] col IH]; intros last; cbn [forallb defined andb ffill_from];
    intros H; [reflexivity | | discriminate].
  rewrite (IH _ H). reflexivity.
Qed.

Lemma bfill_none_defined {A : Type} (col : list (option A)) :
  existsb defined col = false -> bfill col = col.
Proof.
  induction col as [| [v |] col IH]; cbn [existsb defined orb bfill]; intros H;
    [reflexivity | discriminate |].
  rewrite (IH H). destruct col as [| [w |] col']; cbn in *; try reflexivity; discriminate.
Qed.

Lemma ffill_none_defined {A : Type} (col : list (option A)) :
  existsb defined col = false -> ffill col = col.
Proof.
  unfold ffill.
  induction col as [| [v |] col IH]; cbn [existsb defined orb ffill_from]; intros H;
    [reflexivity | discriminate |].
  rewrite (IH H). reflexivity.
Qed.

Lemma fill_idempotent {A : Type} (col : list (option A)) :
  bfill (ffill (bfill col)) = ffill (bfill col)
  /\ ffill (ffill (bfill col)) = ffill (bfill col).
Proof.
  destruct (existsb defined col) eqn:E.
  - pose proof (fill_defined col E) as D.
    split; [apply bfill_all_defined | apply ffill_from_all_defined]; exact D.
  - rewrite (fill_undefined col E).
    split; [apply bfill_none_defined | apply ffill_none_defined]; exact E.
Qed.

Lemma with_lag_columns_same (rows : list Feat.t) :
  with_lag_columns rows (map Feat.orders_last_hour rows)
                   (map Feat.orders_last_day_same_hour rows) = rows.
Proof.
  induction rows as [| r rows IH]; cbn [map with_lag_columns]; [reflexivity |].
  rewrite IH. destruct r. reflexivity.
Qed.

Lemma create_logistics_features_refill (df : list Demand.t) :
  fillna ffill (fillna bfill (create_logistics_features df)) = create_logistics_features df.
Proof.
  destruct (create_logistics_features_columns df) as [E1 [E2 _]].
  assert (B : fillna bfill (create_logistics_features df) = create_logistics_features df).
  { unfold fillna at 1. rewrite E1, E2.
    rewrite (proj1 (fill_idempotent _)), (proj1 (fill_idempotent _)).
    rewrite <- E1, <- E2. apply with_lag_columns_same. }
  rewrite B. unfold fillna at 1. rewrite E1, E2.
  rewrite (proj2 (fill_idempotent _)), (proj2 (fill_idempotent _)).
  rewrite <- E1, <- E2. apply with_lag_columns_same.
Qed.

(** X5. The feature table holds the rows of the demand table, every one of
    them and no other, sorted by restaurant and then by time, with the demand
    columns unchanged; the festival flag of a row is 1 when its day is one of
    the five listed dates and 0 otherwise. *)
Theorem X5_feature_rows (df : list Demand.t) :
  map demand_of (create_logistics_features df) = sort_values df
  /\ Permutation (map demand_of (create_logistics_features df)) df
  /\ StronglySorted feat_le (create_logistics_features df)
  /\ Forall (fun f => (Feat.is_festival f = 1 <-> In (Feat.order_date f / 24) festival_dates)
                      /\ (Feat.is_festival f = 0
                          <-> ~ In (Feat.order_date f / 24) festival_dates))
            (create_logistics_features df).
Proof.
  pose proof (create_logistics_features_demand df) as E.
  split; [exact E | split; [| split]].
  - rewrite E. symmetry. apply sort_values_perm.
  - pose proof (sort_values_sorted df) as S. rewrite <- E in S.
    apply StronglySorted_map in S. clear E.
    induction S as [| x l Hl IH Hx]; [constructor |].
    constructor; [exact IH |].
    rewrite Forall_forall in *. intros y Hy. specialize (Hx y Hy).
    unfold row_le_prop, row_le in Hx. cbn [demand_of Demand.restaurant_id Demand.order_date] in Hx.
    unfold feat_le.
    destruct (Z.ltb_spec (Feat.restaurant_id x) (Feat.restaurant_id y)); [left; assumption |].
    cbn [orb] in Hx. apply andb_prop in Hx. destruct Hx as [Hr Hd].
    apply Z.eqb_eq in Hr. apply Z.leb_le in Hd. right. auto.
  - apply Forall_forall. intros f Hf. apply In_nth_error in Hf. destruct Hf as [i Hi].
    destruct (create_logistics_features_nth df i f Hi) as [b [Hb [Ec _]]].
    unfold features_before_fill in Hb.
    destruct (features_from_nth _ _ _ _ Hb) as [r [_ Er]].
    assert (Ef : Feat.is_festival f = on_festival (Feat.order_date f)).
    { assert (Ei : Feat.is_festival f = Feat.is_festival b)
        by (unfold complete_columns in Ec; congruence).
      assert (Eo : Feat.order_date f = Feat.order_date b)
        by (unfold complete_columns, demand_of in Ec; congruence).
      rewrite Ei, Eo, Er. reflexivity. }
    rewrite Ef. unfold on_festival.
    destruct (existsb (Z.eqb (Feat.order_date f / 24)) festival_dates) eqn:Ex.
    + apply existsb_exists in Ex. destruct Ex as [d [Hd Ed]]. apply Z.eqb_eq in Ed.
      rewrite Ed. split; split; intros; try reflexivity; try assumption; try lia; tauto.
    + assert (N : ~ In (Feat.order_date f / 24) festival_dates).
      { intros Hin. assert (T : existsb (Z.eqb (Feat.order_date f / 24)) festival_dates = true).
        { apply existsb_exists. exists (Feat.order_date f / 24). split; [exact Hin | apply Z.eqb_refl]. }
        congruence. }
      split; split; intros; try reflexivity; try assumption; try lia; tauto.
Qed.

(** X6. The value that the two fills leave in a cell of a lag column: the
    first defined cell of the column at or below it in the table, whatever
    the restaurant of that row, and, when there is none, the last defined
    cell of the column.  A defined cell keeps its value, every value of the
    filled column is a value of the column before the fill, and filling a
    second time changes nothing. *)
Theorem X6_fill_values (df : list Demand.t) :
  (forall (i : nat) (f : Feat.t),
      nth_error (create_logistics_features df) i = Some f ->
      Feat.orders_last_hour f
      = filled (map Feat.orders_last_hour (features_before_fill df)) i
      /\ Feat.orders_last_day_same_hour f
         = filled (map Feat.orders_last_day_same_hour (features_before_fill df)) i)
  /\ (forall (i : nat) (f b : Feat.t),
        nth_error (create_logistics_features df) i = Some f ->
        nth_error (features_before_fill df) i = Some b ->
        (forall v, Feat.orders_last_hour b = Some v -> Feat.orders_last_hour f = Some v)
        /\ (forall v, Feat.orders_last_day_same_hour b = Some v ->
                      Feat.orders_last_day_same_hour f = Some v))
  /\ (forall (f : Feat.t) (v : spec_float),
        In f (create_logistics_features df) ->
        (Feat.orders_last_hour f = Some v ->
         exists b, In b (features_before_fill df) /\ Feat.orders_last_hour b = Some v)
        /\ (Feat.orders_last_day_same_hour f = Some v ->
            exists b, In b (features_before_fill df)
                      /\ Feat.orders_last_day_same_hour b = Some v))
  /\ fillna ffill (fillna bfill (create_logistics_features df)) = create_logistics_features df.
Proof.
  split; [| split; [| split]].
  - intros i f H. destruct (create_logistics_features_nth df i f H) as [b [_ [_ [H1 H2]]]].
    auto.
  - intros i f b H Hb. destruct (create_logistics_features_nth df i f H) as [b' [Hb' [_ [H1 H2]]]].
    rewrite Hb in Hb'. inversion Hb'; subst b'.
    split; intros v Hv.
    + rewrite H1. apply filled_defined. rewrite nth_error_map, Hb, <- Hv. reflexivity.
    + rewrite H2. apply filled_defined. rewrite nth_error_map, Hb, <- Hv. reflexivity.
  - intros f v Hf. apply In_nth_error in Hf. destruct Hf as [i Hi].
    destruct (create_logistics_features_nth df i f Hi) as [_ [_ [_ [H1 H2]]]].
    split; intros Hv.
    + rewrite H1 in Hv. apply filled_In in Hv. apply in_map_iff in Hv.
      destruct Hv as [b [Eb Hb]]. eauto.
    + rewrite H2 in Hv. apply filled_In in Hv. apply in_map_iff in Hv.
      destruct Hv as [b [Eb Hb]]. eauto.
  - apply create_logistics_features_refill.
Qed.

Lemma X6_fill_values_witness :
  exists f,
    nth_error (create_logistics_features two_restaurants) 0 = Some f
    /\ Feat.orders_last_hour f
       = filled (map Feat.orders_last_hour (features_before_fill two_restaurants)) 0
    /\ Feat.orders_last_hour f = Some (Float64.of_Z 10).
Proof.
  eexists. split; [vm_compute; reflexivity |].
  split; [| vm_compute; reflexivity].
  apply (proj1 (X6_fill_values two_restaurants) 0%nat). vm_compute. reflexivity.
Defined.

(** X7. For a table whose counts are [int64] values: the first row of a
    restaurant that has a second row takes its own [order_count], converted
    to float64, as [orders_last_hour]: the backward fill gives it the lag of
    the next row, which is the count of the row itself.  For a count of at
    most [2 ^ 53] in absolute value the cell is the count without rounding. *)
Theorem X7_first_hour_own_count (df : list Demand.t) (i : nat) (f g : Feat.t) :
  forallb (fun r => int64 (Demand.order_count r)) df = true ->
  nth_error (create_logistics_features df) i = Some f ->
  nth_error (create_logistics_features df) (S i) = Some g ->
  Feat.restaurant_id g = Feat.restaurant_id f ->
  starts_restaurant (create_logistics_features df) i f ->
  Feat.orders_last_hour f = Some (Float64.of_Z (Feat.order_count f))
  /\ (Z.abs (Feat.order_count f) <= 2 ^ 53 ->
      exists x, Feat.orders_last_hour f = Some x
                /\ py_int x = Ok (Feat.order_count f)
                /\ (Float64.to_Q x == inject_Z (Feat.order_count f))%Q).
Proof.
  intros _ Hf Hg E S.
  assert (L : Feat.orders_last_hour f = Some (Float64.of_Z (Feat.order_count f))).
  { destruct (create_logistics_features_nth df i f Hf) as [_ [_ [_ [H1 _]]]].
    rewrite H1. apply filled_next.
    - apply (before_fill_start df i f Hf S).
    - apply filled_defined. apply (before_fill_next df i f g Hf Hg E). }
  split; [exact L |].
  intros B. exists (Float64.of_Z (Feat.order_count f)).
  split; [exact L | apply of_Z_exact; exact B].
Qed.

Lemma X7_first_hour_own_count_witness :
  exists f,
    nth_error (create_logistics_features two_restaurants) 1 = Some f
    /\ Feat.restaurant_id f = 7
    /\ Feat.order_count f = 10
    /\ Feat.orders_last_hour f = Some (Float64.of_Z (Feat.order_count f)).
Proof.
  eexists. split; [vm_compute; reflexivity |].
  split; [reflexivity | split; [reflexivity |]].
  eapply (proj1 (X7_first_hour_own_count two_restaurants 1 _ _ _ _ _ _ _)).
  Unshelve.
  - exact (Feat.mk 1 7 20 0 0 0 Normal (Some (Float64.of_Z 10)) None (mean [10; 20]) 0).
  - vm_compute. reflexivity.
  - vm_compute. reflexivity.
  - vm_compute. reflexivity.
  - reflexivity.
  - intros j p Hj Hp. destruct j as [| j]; [| lia].
    vm_compute in Hp. inversion Hp. cbn. lia.
Defined.

(** X8. For a table whose counts are [int64] values: the fill crosses the
    boundary between restaurants.  A row that starts a restaurant and is
    followed by the first of at least two rows of another restaurant
    receives, as [orders_last_hour], the [order_count] of that other
    restaurant's first row, converted to float64 (the count itself, without
    rounding, when it is at most [2 ^ 53] in absolute value). *)
Theorem X8_fill_crosses_restaurants (df : list Demand.t) (i : nat) (f g h : Feat.t) :
  forallb (fun r => int64 (Demand.order_count r)) df = true ->
  nth_error (create_logistics_features df) i = Some f ->
  nth_error (create_logistics_features df) (S i) = Some g ->
  nth_error (create_logistics_features df) (S (S i)) = Some h ->
  starts_restaurant (create_logistics_features df) i f ->
  starts_restaurant (create_logistics_features df) (S i) g ->
  Feat.restaurant_id h = Feat.restaurant_id g ->
  Feat.restaurant_id g <> Feat.restaurant_id f
  /\ Feat.orders_last_hour f = Some (Float64.of_Z (Feat.order_count g))
  /\ Feat.orders_last_hour g = Some (Float64.of_Z (Feat.order_count g))
  /\ (Z.abs (Feat.order_count g) <= 2 ^ 53 ->
      exists x, Feat.orders_last_hour f = Some x
                /\ py_int x = Ok (Feat.order_count g)
                /\ (Float64.to_Q x == inject_Z (Feat.order_count g))%Q).
Proof.
  intros _ Hf Hg Hh Sf Sg E.
  assert (G : Feat.orders_last_hour g = Some (Float64.of_Z (Feat.order_count g))).
  { destruct (create_logistics_features_nth df (S i) g Hg) as [_ [_ [_ [H1 _]]]].
    rewrite H1. apply filled_next.
    - apply (before_fill_start df (S i) g Hg Sg).
    - apply filled_defined. apply (before_fill_next df (S i) g h Hg Hh E). }
  assert (F : Feat.orders_last_hour f = Some (Float64.of_Z (Feat.order_count g))).
  { destruct (create_logistics_features_nth df i f Hf) as [_ [_ [_ [H1 _]]]].
    destruct (create_logistics_features_nth df (S i) g Hg) as [_ [_ [_ [H1g _]]]].
    rewrite H1. apply filled_next.
    + apply (before_fill_start df i f Hf Sf).
    + rewrite <- H1g. exact G. }
  split; [| split; [exact F | split; [exact G |]]].
  - intros N. apply (Sg i f ltac:(lia) Hf). symmetry. exact N.
  - intros B. exists (Float64.of_Z (Feat.order_count g)).
    split; [exact F | apply of_Z_exact; exact B].
Qed.

Lemma X8_fill_crosses_restaurants_witness :
  exists f g,
    nth_error (create_logistics_features two_restaurants) 0 = Some f
    /\ nth_error (create_logistics_features two_restaurants) 1 = Some g
    /\ Feat.restaurant_id f = 3
    /\ Feat.restaurant_id g = 7
    /\ Feat.orders_last_hour f = Some (Float64.of_Z (Feat.order_count g)).
Proof.
  eexists. eexists. split; [vm_compute; reflexivity |].
  split; [vm_compute; reflexivity |].
  split; [reflexivity | split; [reflexivity |]].
  eapply (proj1 (proj2 (X8_fill_crosses_restaurants two_restaurants 0 _ _ _ _ _ _ _ _ _ _))).
  Unshelve.
  - exact (Feat.mk 1 7 20 0 0 0 Normal (Some (Float64.of_Z 10)) None (mean [10; 20]) 0).
  - vm_compute. reflexivity.
  - vm_compute. reflexivity.
  - vm_compute. reflexivity.
  - vm_compute. reflexivity.
  - intros j p Hj. lia.
  - intros j p Hj Hp. destruct j as [| j]; [| lia].
    vm_compute in Hp. inversion Hp. cbn. lia.
  - reflexivity.
Defined.

(** ** Failures of the forecast *)

Lemma py_int_finite (x : spec_float) :
  match py_int x with
  | Ok _ => finite x = true
  | Raise e => finite x = false /\ (e = ValueError \/ e = OverflowError)
  end.
Proof. destruct x; cbn; auto. Qed.

Lemma delivery_partners_of_raises (n : Z) (e : exn) :
  delivery_partners_of n = Raise e -> e = ValueError \/ e = OverflowError.
Proof.
  unfold delivery_partners_of.
  pose proof (py_int_finite (Float64.mul (Float64.of_Z n) Float64.lit_0_6)) as P.
  destruct (py_int _) as [p | e']; cbn [bind]; [discriminate |].
  intros H. inversion H; subst. tauto.
Qed.

Lemma translate_row_outcome (row : Forecast.t) :
  match translate_row row with
  | Ok _ => finite_row row = true
  | Raise e => e = ValueError \/ e = OverflowError
  end.
Proof.
  unfold translate_row, predicted_orders_of, finite_row.
  pose proof (py_int_finite (Forecast.yhat row)) as P1.
  pose proof (py_int_finite (Forecast.yhat_lower row)) as P2.
  pose proof (py_int_finite (Forecast.yhat_upper row)) as P3.
  destruct (py_int (Forecast.yhat row)) as [n | e]; cbn [bind]; [| tauto].
  destruct (delivery_partners_of (Z.max 0 n)) as [p | e] eqn:Ep; cbn [bind];
    [| apply (delivery_partners_of_raises _ _ Ep)].
  destruct (py_int (Forecast.yhat_lower row)) as [lo | e]; cbn [bind]; [| tauto].
  destruct (py_int (Forecast.yhat_upper row)) as [hi | e]; cbn [bind]; [| tauto].
  rewrite P1, P2, P3. reflexivity.
Qed.

Lemma translate_row_not_finite (row : Forecast.t) :
  finite_row row = false ->
  exists e, translate_row row = Raise e /\ (e = ValueError \/ e = OverflowError).
Proof.
  intros H. pose proof (translate_row_outcome row) as O.
  destruct (translate_row row) as [r | e]; [congruence | eauto].
Qed.

Lemma for_each_raise {A B : Type} (f : A -> result B) (l : list A) (e : exn) :
  for_each f l = Raise e -> exists x, In x l /\ f x = Raise e.
Proof.
  induction l as [| x l IH]; cbn [for_each]; [discriminate |].
  destruct (f x) as [y | e'] eqn:Ex; cbn [bind].
  - destruct (for_each f l) as [ys | e'']; cbn [bind]; [discriminate |].
    intros H. inversion H; subst. destruct (IH eq_refl) as [x' [Hin Hx]].
    exists x'. split; [right; exact Hin | exact Hx].
  - intros H. inversion H; subst. exists x. split; [left; reflexivity | exact Ex].
Qed.

Lemma for_each_In_raise {A B : Type} (f : A -> result B) (l : list A) (x : A) (e : exn) :
  In x l -> f x = Raise e -> exists e', for_each f l = Raise e'.
Proof.
  induction l as [| y l IH]; intros Hin Hx; [destruct Hin |].
  cbn [for_each]. destruct (f y) as [z | e'] eqn:Ey; cbn [bind]; [| eauto].
  destruct Hin as [E | Hin]; [subst; congruence |].
  destruct (IH Hin Hx) as [e'' He]. rewrite He. cbn [bind]. eauto.
Qed.

Lemma get_demand_forecast_frame (model : predictor) (now hours : Z) :
  -1 <= hours ->
  get_demand_forecast model now hours
  = (forecast <- model (future_frame now hours) ;; for_each translate_row forecast).
Proof.
  intros H. unfold get_demand_forecast, future_frame.
  destruct (Z.ltb_spec (hours + 1) 0); [lia | reflexivity].
Qed.

(** X9. The failures of [get_demand_forecast].  A horizon below -1 raises
    [ValueError] whatever the model; from -1 on, an exception of [predict] is
    passed on unchanged, and the horizons -1 and 0 ask [predict] for an empty
    frame.  The forecast is all or nothing: one prediction, lower or upper
    bound that is NaN or infinite, in any row, makes the whole call raise
    [ValueError] or [OverflowError]; when a list is returned it has one
    record per row of the forecast frame, all of them finite. *)
Theorem X9_forecast_failures (model : predictor) (now hours : Z) :
  (hours < -1 -> get_demand_forecast model now hours = Raise ValueError)
  /\ (-1 <= hours <= 0 ->
      future_frame now hours = []
      /\ get_demand_forecast model now hours
         = (forecast <- model [] ;; for_each translate_row forecast))
  /\ (forall e : exn,
        -1 <= hours -> model (future_frame now hours) = Raise e ->
        get_demand_forecast model now hours = Raise e)
  /\ (forall (forecast : list Forecast.t) (c : Forecast.t),
        -1 <= hours -> model (future_frame now hours) = Ok forecast ->
        In c forecast -> finite_row c = false ->
        exists e, get_demand_forecast model now hours = Raise e
                  /\ (e = ValueError \/ e = OverflowError))
  /\ (forall rs : list Result.t,
        get_demand_forecast model now hours = Ok rs ->
        -1 <= hours
        /\ exists forecast,
            model (future_frame now hours) = Ok forecast
            /\ List.length rs = List.length forecast
            /\ forallb finite_row forecast = true).
Proof.
  split; [| split; [| split; [| split]]].
  - intros H. unfold get_demand_forecast.
    destruct (Z.ltb_spec (hours + 1) 0); [reflexivity | lia].
  - intros H.
    assert (F : future_frame now hours = []).
    { unfold future_frame, date_range.
      assert (C : hours = -1 \/ hours = 0) by lia. destruct C; subst; reflexivity. }
    split; [exact F |]. rewrite get_demand_forecast_frame, F by lia. reflexivity.
  - intros e H Hm. rewrite get_demand_forecast_frame, Hm by lia. reflexivity.
  - intros forecast c H Hm Hc Hf. rewrite get_demand_forecast_frame, Hm by lia. cbn [bind].
    destruct (translate_row_not_finite c Hf) as [e [He _]].
    destruct (for_each_In_raise translate_row forecast c e Hc He) as [e' He'].
    exists e'. split; [exact He' |].
    destruct (for_each_raise _ _ _ He') as [x [_ Hx]].
    pose proof (translate_row_outcome x) as O. rewrite Hx in O. exact O.
  - intros rs H.
    assert (Hh : -1 <= hours).
    { unfold get_demand_forecast in H. destruct (Z.ltb_spec (hours + 1) 0); [discriminate | lia]. }
    split; [exact Hh |].
    rewrite get_demand_forecast_frame in H by lia.
    destruct (model (future_frame now hours)) as [forecast | e]; cbn [bind] in H; [| discriminate].
    exists forecast. split; [reflexivity |].
    pose proof (for_each_Forall2 _ _ _ H) as F. split.
    + symmetry. apply (Forall2_length_eq _ _ _ F).
    + apply forallb_forall. intros c Hc.
      clear H. induction F as [| row r forecast rs Hr _ IH]; [destruct Hc |].
      destruct Hc as [E | Hc]; [| apply IH; exact Hc].
      subst c. pose proof (translate_row_outcome row) as O. rewrite Hr in O. exact O.
Qed.

Lemma X9_forecast_failures_witness :
  get_demand_forecast (flat_model 7) 0 (-2) = Raise ValueError
  /\ get_demand_forecast (failing_model KeyError) 0 24 = Raise KeyError
  /\ exists e, get_demand_forecast nan_model 0 24 = Raise e
               /\ (e = ValueError \/ e = OverflowError).
Proof.
  split; [apply (proj1 (X9_forecast_failures (flat_model 7) 0 (-2))); lia |].
  split.
  - apply (proj1 (proj2 (proj2 (X9_forecast_failures (failing_model KeyError) 0 24)))); [lia | reflexivity].
  - eapply (proj1 (proj2 (proj2 (proj2 (X9_forecast_failures nan_model 0 24))))).
    + lia.
    + reflexivity.
    + left. reflexivity.
    + reflexivity.
Defined.

(** ** Rush hours of whole days *)

Lemma count_label_forecast (label : string) (forecast : list Forecast.t) (rs : list Result.t) :
  Forall2 (fun row r => translate_row row = Ok r) forecast rs ->
  count_label label rs
  = List.length (filter (fun c => String.eqb (rush_period_of c) label) forecast).
Proof.
  unfold count_label.
  induction 1 as [| row r forecast rs Hr _ IH]; [reflexivity |].
  destruct (translate_row_fields _ _ Hr) as [_ [_ [_ Hl]]].
  cbn [filter]. rewrite Hl.
  destruct (String.eqb (rush_period_of row) label); cbn [List.length]; rewrite IH; reflexivity.
Qed.

Lemma hour_counts (label : string) (n : nat) :
  List.length (filter (fun i => String.eqb (hour_label (Z.of_nat i)) label) (seq 0 24)) = n ->
  forall c : Z, 0 <= c < 24 ->
  List.length (filter (fun j => String.eqb (hour_label ((c + Z.of_nat j) mod 24)) label) (seq 0 24)) = n.
Proof.
  intros H0 c Hc.
  rewrite <- H0.
  set (p := fun j => String.eqb (hour_label ((c + Z.of_nat j) mod 24)) label).
  set (q := fun i => String.eqb (hour_label (Z.of_nat i)) label).
  assert (E1 : List.length (filter p (seq (Z.to_nat (24 - c)) (Z.to_nat c)))
               = List.length (filter q (seq 0 (Z.to_nat c)))).
  { pose proof (filter_length_by_index p q (seq (Z.to_nat (24 - c)) (Z.to_nat c)) 0) as F.
    rewrite length_seq in F. apply F. intros i j Hi.
    rewrite nth_error_seq in Hi. destruct (Nat.ltb_spec i (Z.to_nat c)); [| discriminate].
    assert (Ej : j = (Z.to_nat (24 - c) + i)%nat) by congruence. subst j. unfold p, q. f_equal. f_equal.
    replace (c + Z.of_nat (Z.to_nat (24 - c) + i)) with (Z.of_nat (0 + i) + 1 * 24) by lia.
    rewrite Z.mod_add by lia. apply Z.mod_small. lia. }
  assert (E2 : List.length (filter p (seq 0 (Z.to_nat (24 - c))))
               = List.length (filter q (seq (Z.to_nat c) (Z.to_nat (24 - c))))).
  { pose proof (filter_length_by_index p q (seq 0 (Z.to_nat (24 - c))) (Z.to_nat c)) as F.
    rewrite length_seq in F. apply F. intros i j Hi.
    rewrite nth_error_seq in Hi. destruct (Nat.ltb_spec i (Z.to_nat (24 - c))); [| discriminate].
    assert (Ej : j = (0 + i)%nat) by congruence. subst j. unfold p, q. f_equal. f_equal.
    rewrite Z.mod_small by lia. lia. }
  replace (seq 0 24) with (seq 0 (Z.to_nat (24 - c)) ++ seq (Z.to_nat (24 - c)) (Z.to_nat c)) at 1.
  2:{ rewrite <- seq_app. f_equal. lia. }
  replace (seq 0 24) with (seq 0 (Z.to_nat c) ++ seq (Z.to_nat c) (Z.to_nat (24 - c))).
  2:{ rewrite <- seq_app. f_equal. lia. }
  rewrite !filter_app, !length_app, E1, E2. lia.
Qed.

Lemma day_counts (label : string) (n : nat) (s : Z) (days : nat) :
  List.length (filter (fun i => String.eqb (hour_label (Z.of_nat i)) label) (seq 0 24)) = n ->
  List.length (filter (fun i => String.eqb (hour_label ((s + Z.of_nat i) mod 24)) label)
                      (seq 0 (24 * days)))
  = (n * days)%nat.
Proof.
  intros H0. induction days as [| d IH].
  - rewrite !Nat.mul_0_r. reflexivity.
  - replace (24 * S d)%nat with (24 * d + 24)%nat by lia.
    rewrite seq_app, filter_app, length_app, IH. cbn [Nat.add].
    replace (n * S d)%nat with (n * d + n)%nat by lia. f_equal.
    rewrite <- (hour_counts label n H0 ((s + Z.of_nat (24 * d)) mod 24))
      by (apply Z.mod_pos_bound; lia).
    symmetry.
    replace (seq (24 * d) 24) with (seq (24 * d) (List.length (seq 0 24))) by reflexivity.
    apply filter_length_by_index. intros i j Hi.
    rewrite nth_error_seq in Hi. destruct (Nat.ltb_spec i 24); [| discriminate].
    assert (Ej : j = (0 + i)%nat) by congruence. subst j. f_equal. f_equal.
    rewrite Zplus_mod_idemp_l. f_equal. lia.
Qed.

Lemma carried_label (now hours : Z) (forecast : list Forecast.t) (i : nat) (c : Forecast.t) :
  0 <= hours ->
  carries_flags (future_frame now hours) forecast = true ->
  nth_error forecast i = Some c ->
  rush_period_of c = hour_label (hour_of_day (now / 3600 + 1 + Z.of_nat i)).
Proof.
  intros Hh Hc Hi.
  pose proof (all2_Forall2 _ _ _ Hc) as F2.
  destruct (Forall2_nth_error _ _ _ F2 i c Hi) as [f [Hf Hfc]].
  destruct (future_frame_nth now hours i f Hh Hf) as [Ef _].
  apply andb_prop in Hfc. destruct Hfc as [Hfc Hd].
  apply andb_prop in Hfc. destruct Hfc as [_ Hl].
  apply Bool.eqb_prop in Hl. apply Bool.eqb_prop in Hd.
  rewrite rush_period_of_label, Hl, Hd, Ef. unfold hour_label.
  cbn [future_row Future.is_lunch_rush Future.is_dinner_rush].
  destruct (in_lunch_window _), (in_dinner_window _); reflexivity.
Qed.

(** X10. Over a horizon of whole days, whatever the time of the call, every
    day of the forecast has three hours labelled "Lunch Rush", four labelled
    "Dinner Rush" and seventeen labelled "Regular", provided [predict]
    returns the rush columns of the future frame. *)
Theorem X10_rush_hours_per_day
  (model : predictor) (now days : Z) (forecast : list Forecast.t) (rs : list Result.t) :
  0 <= days ->
  model (future_frame now (24 * days)) = Ok forecast ->
  carries_flags (future_frame now (24 * days)) forecast = true ->
  get_demand_forecast model now (24 * days) = Ok rs ->
  Z.of_nat (count_label "Lunch Rush" rs) = 3 * days
  /\ Z.of_nat (count_label "Dinner Rush" rs) = 4 * days
  /\ Z.of_nat (count_label "Regular" rs) = 17 * days
  /\ Z.of_nat (List.length rs) = 24 * days.
Proof.
  intros Hd Hm Hc Hrs.
  rewrite get_demand_forecast_unfold in Hrs by lia.
  rewrite Hm in Hrs. cbn [bind] in Hrs.
  pose proof (for_each_Forall2 _ _ _ Hrs) as F.
  assert (L : List.length forecast = (24 * Z.to_nat days)%nat).
  { rewrite <- (Forall2_length_eq _ _ _ (all2_Forall2 _ _ _ Hc)).
    unfold future_frame. rewrite length_map, future_dates_eq by lia.
    rewrite length_map, length_seq. lia. }
  assert (Count : forall label n,
             List.length (filter (fun i => String.eqb (hour_label (Z.of_nat i)) label) (seq 0 24)) = n ->
             count_label label rs = (n * Z.to_nat days)%nat).
  { intros label n Hn.
    rewrite (count_label_forecast label forecast rs F).
    rewrite (filter_length_by_index _
               (fun i => String.eqb (hour_label ((now / 3600 + 1 + Z.of_nat i) mod 24)) label)
               forecast 0).
    - rewrite L. apply day_counts. exact Hn.
    - intros i c Hi. rewrite (carried_label now (24 * days) forecast i c ltac:(lia) Hc Hi).
      reflexivity. }
  rewrite (Count "Lunch Rush"%string 3%nat eq_refl).
  rewrite (Count "Dinner Rush"%string 4%nat eq_refl).
  rewrite (Count "Regular"%string 17%nat eq_refl).
  rewrite <- (Forall2_length_eq _ _ _ F), L. lia.
Qed.

Lemma X10_rush_hours_per_day_witness :
  exists rs, get_demand_forecast (flat_model 7) (17 * 3600 + 1234) (24 * 2) = Ok rs
             /\ Z.of_nat (count_label "Lunch Rush" rs) = 3 * 2
             /\ Z.of_nat (count_label "Dinner Rush" rs) = 4 * 2
             /\ Z.of_nat (count_label "Regular" rs) = 17 * 2
             /\ Z.of_nat (List.length rs) = 24 * 2.
Proof.
  eexists. split; [vm_compute; reflexivity |].
  eapply (X10_rush_hours_per_day (flat_model 7) (17 * 3600 + 1234) 2).
  - lia.
  - reflexivity.
  - vm_compute. reflexivity.
  - vm_compute. reflexivity.
Defined.

(** ** Flags of the future rows and of the training table *)

Lemma feature_row_source (df : list Demand.t) (g : Feat.t) :
  In g (create_logistics_features df) ->
  In (demand_of g) df /\ Feat.is_festival g = on_festival (Feat.order_date g).
Proof.
  intros Hg. split.
  - apply (Permutation_in _ (Permutation_sym (sort_values_perm df))).
    rewrite <- create_logistics_features_demand. apply in_map. exact Hg.
  - apply In_nth_error in Hg. destruct Hg as [i Hi].
    destruct (create_logistics_features_nth df i g Hi) as [b [Hb [Ec _]]].
    unfold features_before_fill in Hb.
    destruct (features_from_nth _ _ _ _ Hb) as [r [_ Er]].
    assert (Ei : Feat.is_festival g = Feat.is_festival b)
      by (unfold complete_columns in Ec; congruence).
    assert (Eo : Feat.order_date g = Feat.order_date b)
      by (unfold complete_columns, demand_of in Ec; congruence).
    rewrite Ei, Eo, Er. reflexivity.
Qed.

Lemma future_frame_In (now hours : Z) (f : Future.t) :
  In f (future_frame now hours) -> f = future_row (Future.ds f).
Proof.
  unfold future_frame. intros H. apply in_map_iff in H. destruct H as [ds [E _]].
  subst f. reflexivity.
Qed.

(** X11. A future row and a row of the training table for the same hour
    carry the same lunch, dinner and weekend flags.  The festival flag and
    the weather differ: every future row has [is_festival] 0 and
    [weather_impact] 0, also on the five festival dates, on which the
    training table has [is_festival] 1. *)
Theorem X11_future_flags_and_training_flags
  (draw : nat -> weather) (df : list Raw.t) (table : list Demand.t) (g : Feat.t)
  (now hours : Z) (f : Future.t) :
  prepare_swiggy_demand_data draw df = Ok table ->
  In g (create_logistics_features table) ->
  In f (future_frame now hours) ->
  Future.ds f = Feat.order_date g ->
  Future.is_lunch_rush f = Feat.is_lunch_rush g
  /\ Future.is_dinner_rush f = Feat.is_dinner_rush g
  /\ (Future.is_weekend f = true <-> Feat.is_weekend g = 1)
  /\ (Future.is_weekend f = false <-> Feat.is_weekend g = 0)
  /\ Future.is_festival f = 0
  /\ Future.weather_impact f = 0
  /\ (In (Future.ds f / 24) festival_dates -> Feat.is_festival g = 1).
Proof.
  intros Ht Hg Hf E.
  destruct (feature_row_source _ g Hg) as [Hd Ef].
  destruct (demand_row_flags draw df table _ Ht Hd) as [Ew [El Ed]].
  unfold Demand.hour in El, Ed.
  cbn [demand_of Demand.is_weekend Demand.is_lunch_rush Demand.is_dinner_rush Demand.order_date]
    in Ew, El, Ed.
  rewrite (future_frame_In now hours f Hf).
  cbn [future_row Future.is_lunch_rush Future.is_dinner_rush Future.is_weekend
       Future.is_festival Future.weather_impact Future.ds].
  rewrite Ew, El, Ed, E. unfold weekend_flag, lunch_flag, dinner_flag, hour_of_day.
  split; [reflexivity | split; [reflexivity |]].
  destruct (5 <=? day_of_week (Feat.order_date g)).
  - repeat split; intros; try reflexivity; try discriminate; try lia.
    rewrite Ef. unfold on_festival.
    assert (T : existsb (Z.eqb (Feat.order_date g / 24)) festival_dates = true).
    { apply existsb_exists. exists (Feat.order_date g / 24). split; [assumption | apply Z.eqb_refl]. }
    rewrite T. reflexivity.
  - repeat split; intros; try reflexivity; try discriminate; try lia.
    rewrite Ef. unfold on_festival.
    assert (T : existsb (Z.eqb (Feat.order_date g / 24)) festival_dates = true).
    { apply existsb_exists. exists (Feat.order_date g / 24). split; [assumption | apply Z.eqb_refl]. }
    rewrite T. reflexivity.
Qed.

Lemma X11_future_flags_and_training_flags_witness :
  exists table g f,
    prepare_swiggy_demand_data (fun _ => Normal) saturday_sales = Ok table
    /\ In g (create_logistics_features table)
    /\ In f (future_frame (60 * 3600) 3)
    /\ Future.ds f = Feat.order_date g
    /\ Future.is_lunch_rush f = Feat.is_lunch_rush g
    /\ (Future.is_weekend f = true <-> Feat.is_weekend g = 1).
Proof.
  eexists. eexists. eexists.
  split; [reflexivity |].
  split; [left; vm_compute; reflexivity |].
  split; [left; reflexivity |].
  split; [reflexivity |].
  match goal with
  | |- Future.is_lunch_rush ?f = Feat.is_lunch_rush ?g /\ _ =>
      destruct (X11_future_flags_and_training_flags
                  (fun _ => Normal) saturday_sales _ g (60 * 3600) 3 f eq_refl)
        as [A [_ [B _]]]
  end.
  - left. vm_compute. reflexivity.
  - left. reflexivity.
  - reflexivity.
  - split; [exact A | exact B].
Defined.

(** ** Monotone staffing *)

(** X12. Below [2 ^ 51] orders the number of partners never decreases when
    the orders grow, and never exceeds the orders except for the one partner
    of an hour without orders; up to three orders need one partner, and from
    two orders on the partners are the orders times 3/5, rounded down. *)
Theorem X12_partners_monotone (n m : Z) :
  0 <= n <= m -> m < 2 ^ 51 ->
  exists p q,
    delivery_partners_of n = Ok p
    /\ delivery_partners_of m = Ok q
    /\ p <= q
    /\ p <= Z.max 1 n
    /\ (p = 1 <-> n <= 3)
    /\ (2 <= n -> 5 * p <= 3 * n < 5 * p + 5).
Proof.
  intros Hn Hm.
  exists (Z.max 1 (3 * n / 5)), (Z.max 1 (3 * m / 5)).
  split; [apply delivery_partners_of_floor; lia |].
  split; [apply delivery_partners_of_floor; lia |].
  pose proof (Z.div_mod (3 * n) 5 ltac:(lia)) as Dn.
  pose proof (Z.mod_pos_bound (3 * n) 5 ltac:(lia)) as Bn.
  pose proof (Z.div_mod (3 * m) 5 ltac:(lia)) as Dm.
  pose proof (Z.mod_pos_bound (3 * m) 5 ltac:(lia)) as Bm.
  repeat split; intros; lia.
Qed.

Lemma X12_partners_monotone_witness :
  exists p q,
    delivery_partners_of 7 = Ok p
    /\ delivery_partners_of 12 = Ok q
    /\ p <= q
    /\ p <= Z.max 1 7
    /\ (p = 1 <-> 7 <= 3)
    /\ (2 <= 7 -> 5 * p <= 3 * 7 < 5 * p + 5).
Proof. apply (X12_partners_monotone 7 12); cbn; lia. Defined.

(** ** Orders of a finite prediction *)

Lemma to_Q_negative (m : positive) (e : Z) :
  (Qfloor (Float64.to_Q (S754_finite true m e)) < 0)%Z.
Proof.
  unfold Float64.to_Q. cbn [cond_Zopp].
  destruct e as [| p | p].
  - rewrite Qfloor_Z. lia.
  - rewrite Qfloor_Z. pose proof (pow2_pos (Z.pos p) ltac:(lia)). nia.
  - unfold Qfloor. cbn [Qnum Qden].
    apply Z.div_lt_upper_bound; lia.
Qed.

Lemma trunc_negative (m : positive) (e : Z) : Float64.trunc true m e <= 0.
Proof.
  unfold Float64.trunc. cbn [cond_Zopp].
  destruct e as [| p | p].
  - lia.
  - pose proof (pow2_pos (Z.pos p) ltac:(lia)). nia.
  - assert (0 <= Z.pos m / 2 ^ Z.pos p) by (apply Z.div_pos; [lia | apply pow2_pos; lia]).
    lia.
Qed.

(** X13. For every finite prediction the predicted orders are the floor of
    the prediction, and 0 when that is negative: a prediction below 1 gives
    no order, and still one delivery partner. *)
Theorem X13_orders_floor (yhat : spec_float) :
  finite yhat = true ->
  predicted_orders_of yhat = Ok (Z.max 0 (Qfloor (Float64.to_Q yhat)))
  /\ ((Float64.to_Q yhat < 1)%Q ->
      predicted_orders_of yhat = Ok 0 /\ delivery_partners_of 0 = Ok 1).
Proof.
  intros H.
  assert (E : predicted_orders_of yhat = Ok (Z.max 0 (Qfloor (Float64.to_Q yhat)))).
  { destruct yhat as [s | s | | s m e]; try discriminate H.
    - reflexivity.
    - unfold predicted_orders_of. cbn [py_int bind]. f_equal.
      destruct s.
      + pose proof (to_Q_negative m e). pose proof (trunc_negative m e). lia.
      + f_equal. apply (py_int_floor (S754_finite false m e)); reflexivity. }
  split; [exact E |].
  intros Hlt. split; [| reflexivity].
  rewrite E. f_equal.
  assert (Qfloor (Float64.to_Q yhat) < 1).
  { apply Z.lt_le_trans with (m := Qfloor 1 + 0); [| reflexivity].
    destruct (Z.lt_ge_cases (Qfloor (Float64.to_Q yhat)) 1) as [L | G]; [exact L |].
    exfalso. pose proof (Qfloor_le (Float64.to_Q yhat)) as F.
    assert (C : (1 <= Float64.to_Q yhat)%Q).
    { eapply Qle_trans; [| exact F]. unfold Qle, inject_Z. cbn [Qnum Qden]. lia. }
    apply (Qlt_not_le _ _ Hlt C). }
  lia.
Qed.

Lemma X13_orders_floor_witness :
  predicted_orders_of (Float64.div (Float64.of_Z 7) (Float64.of_Z 2))
  = Ok (Z.max 0 (Qfloor (Float64.to_Q (Float64.div (Float64.of_Z 7) (Float64.of_Z 2)))))
  /\ predicted_orders_of (Float64.div (Float64.of_Z 7) (Float64.of_Z 2)) = Ok 3.
Proof.
  split; [| vm_compute; reflexivity].
  apply (X13_orders_floor (Float64.div (Float64.of_Z 7) (Float64.of_Z 2))).
  vm_compute. reflexivity.
Defined.

(** ** The summary of an empty forecast *)

Lemma py_int_raises (x : spec_float) (e : exn) :
  py_int x = Raise e -> e = ValueError \/ e = OverflowError.
Proof. pose proof (py_int_finite x) as P. intros H. rewrite H in P. tauto. Qed.

(** X14. [calculate_logistics_impact] raises [KeyError] exactly for the
    empty list of results, which is what [get_demand_forecast] returns for a
    horizon of 0 hours (or -1) when [predict] returns an empty frame: the
    two calls in a row then raise [KeyError].  Any other failure of the
    summary is a [ValueError] or an [OverflowError]. *)
Theorem X14_empty_forecast (rs : list Result.t) :
  (calculate_logistics_impact rs = Raise KeyError <-> rs = [])
  /\ (forall e, calculate_logistics_impact rs = Raise e ->
                (e = KeyError /\ rs = []) \/ (rs <> [] /\ (e = ValueError \/ e = OverflowError)))
  /\ (forall (model : predictor) (now hours : Z),
        -1 <= hours <= 0 -> model [] = Ok [] ->
        get_demand_forecast model now hours = Ok []
        /\ (results <- get_demand_forecast model now hours ;;
            calculate_logistics_impact results) = Raise KeyError).
Proof.
  assert (R : forall e, calculate_logistics_impact rs = Raise e ->
                        (e = KeyError /\ rs = [])
                        \/ (rs <> [] /\ (e = ValueError \/ e = OverflowError))).
  { intros e. destruct rs as [| r rs'].
    - cbn. intros H. inversion H. left. auto.
    - unfold calculate_logistics_impact. cbn [logistics_metrics bind].
      cbn [Metrics.partners_saved Metrics.cost_savings].
      match goal with
      | |- context [py_int ?x] => destruct (py_int x) as [a | e1] eqn:E1
      end; cbn [bind].
      + match goal with
        | |- context [py_int ?x] => destruct (py_int x) as [b | e2] eqn:E2
        end; cbn [bind]; [discriminate |].
        intros H. inversion H; subst. right. split; [discriminate |].
        apply (py_int_raises _ _ E2).
      + intros H. inversion H; subst. right. split; [discriminate |].
        apply (py_int_raises _ _ E1). }
  split; [| split; [exact R |]].
  - split.
    + intros H. destruct (R _ H) as [[_ E] | [_ [E | E]]]; [exact E | discriminate | discriminate].
    + intros ->. reflexivity.
  - intros model now hours Hh Hm.
    assert (F : future_frame now hours = []).
    { unfold future_frame, date_range.
      assert (C : hours = -1 \/ hours = 0) by lia. destruct C; subst; reflexivity. }
    assert (G : get_demand_forecast model now hours = Ok []).
    { rewrite get_demand_forecast_frame, F, Hm by lia. reflexivity. }
    split; [exact G |]. rewrite G. reflexivity.
Qed.

Lemma X14_empty_forecast_witness :
  get_demand_forecast empty_model 0 0 = Ok []
  /\ (results <- get_demand_forecast empty_model 0 0 ;;
      calculate_logistics_impact results) = Raise KeyError.
Proof.
  apply (proj2 (proj2 (X14_empty_forecast [])) empty_model 0 0); [lia | reflexivity].
Defined.

(** ** The sign of the savings *)

Lemma translated_sums (rs : list Result.t) :
  forallb translated rs = true ->
  sum_Z (map Result.predicted_orders rs) < 2 ^ 51 ->
  0 <= sum_Z (map Result.predicted_orders rs)
  /\ Z.of_nat (List.length rs) <= sum_Z (map Result.delivery_partners_needed rs)
  /\ 5 * sum_Z (map Result.delivery_partners_needed rs)
     <= 5 * Z.of_nat (List.length rs) + 3 * sum_Z (map Result.predicted_orders rs)
  /\ (forallb at_least_two rs = true ->
      5 * sum_Z (map Result.delivery_partners_needed rs)
      <= 3 * sum_Z (map Result.predicted_orders rs))
  /\ (forallb at_most_one rs = true ->
      sum_Z (map Result.delivery_partners_needed rs) = Z.of_nat (List.length rs)
      /\ sum_Z (map Result.predicted_orders rs) <= Z.of_nat (List.length rs)).
Proof.
  assert (Nonneg : forall l, forallb translated l = true -> 0 <= sum_Z (map Result.predicted_orders l)).
  { induction l as [| r l IH]; cbn [forallb map]; intros H; [cbn; lia |].
    apply andb_prop in H. destruct H as [Hr Hl].
    unfold translated in Hr. apply andb_prop in Hr. destruct Hr as [Hr _].
    apply Z.leb_le in Hr. specialize (IH Hl). unfold sum_Z in *. cbn [fold_right]. lia. }
  induction rs as [| r rs IH]; intros Ht Hb.
  - cbn. repeat split; intros; lia.
  - cbn [forallb] in Ht. apply andb_prop in Ht. destruct Ht as [Hr Ht].
    pose proof (Nonneg rs Ht) as Nt.
    unfold translated in Hr. apply andb_prop in Hr. destruct Hr as [Ho Hp].
    apply Z.leb_le in Ho.
    assert (ET : sum_Z (map Result.predicted_orders (r :: rs))
                 = Result.predicted_orders r + sum_Z (map Result.predicted_orders rs))
      by reflexivity.
    assert (EP : sum_Z (map Result.delivery_partners_needed (r :: rs))
                 = Result.delivery_partners_needed r
                   + sum_Z (map Result.delivery_partners_needed rs))
      by reflexivity.
    rewrite ET in Hb |- *. rewrite EP.
    rewrite delivery_partners_of_floor in Hp by lia. apply Z.eqb_eq in Hp.
    destruct (IH Ht ltac:(lia)) as [_ [I1 [I2 [I3 I4]]]].
    pose proof (Z.div_mod (3 * Result.predicted_orders r) 5 ltac:(lia)) as Dv.
    pose proof (Z.mod_pos_bound (3 * Result.predicted_orders r) 5 ltac:(lia)) as Bv.
    cbn [List.length forallb]. rewrite Nat2Z.inj_succ.
    split; [lia | split; [lia | split; [lia | split]]].
    + intros H2. apply andb_prop in H2. destruct H2 as [Hr2 H2].
      unfold at_least_two in Hr2. apply Z.leb_le in Hr2. specialize (I3 H2). lia.
    + intros H1. apply andb_prop in H1. destruct H1 as [Hr1 H1].
      unfold at_most_one in Hr1. apply Z.leb_le in Hr1. destruct (I4 H1) as [I5 I6]. lia.
Qed.

(** ** Records of the translation loop *)

Lemma forecast_translated (model : predictor) (now hours : Z) (rs : list Result.t) :
  get_demand_forecast model now hours = Ok rs -> forallb translated rs = true.
Proof.
  intros H. destruct (get_demand_forecast_rows _ _ _ _ H) as [forecast [_ F]].
  clear H. induction F as [| row r forecast rs Hr _ IH]; [reflexivity |].
  cbn [forallb]. rewrite IH, andb_true_r.
  destruct (translate_row_fields _ _ Hr) as [_ [Ho [Hp _]]].
  unfold translated. rewrite Hp, Z.eqb_refl, andb_true_r.
  apply Z.leb_le. unfold predicted_orders_of in Ho.
  destruct (py_int (Forecast.yhat row)) as [n | e]; cbn [bind] in Ho; [| discriminate].
  inversion Ho. lia.
Qed.

Lemma translated_savings (rs : list Result.t) :
  rs <> [] ->
  forallb translated rs = true ->
  sum_Z (map Result.predicted_orders rs) < 2 ^ 39 ->
  Z.of_nat (List.length rs) < 2 ^ 39 ->
  exists i,
    calculate_logistics_impact rs = Ok i
    /\ Impact.total_predicted_orders i = sum_Z (map Result.predicted_orders rs)
    /\ 0 <= Impact.total_predicted_orders i
    /\ 4 * Impact.delivery_partners_saved i
       < 3 * Impact.total_predicted_orders i - 4 * Z.of_nat (List.length rs) + 4
    /\ (forallb at_least_two rs = true ->
        0 <= Impact.delivery_partners_saved i
        /\ 3 * Impact.total_predicted_orders i < 20 * Impact.delivery_partners_saved i + 20)
    /\ (forallb at_most_one rs = true -> Impact.delivery_partners_saved i <= 0).
Proof.
  intros Hne Ht HT Hn.
  destruct (translated_sums rs Ht ltac:(lia)) as [T0 [P1 [P2 [P3 P4]]]].
  set (T := sum_Z (map Result.predicted_orders rs)) in *.
  set (P := sum_Z (map Result.delivery_partners_needed rs)) in *.
  set (n := Z.of_nat (List.length rs)) in *.
  assert (Hpos : 0 < n).
  { unfold n. destruct rs; [congruence | cbn [List.length]; lia]. }
  destruct (calculate_logistics_impact_exact rs Hne ltac:(fold T; lia) ltac:(fold P; lia))
    as [m [_ Hi]].
  fold T in Hi. fold P in Hi.
  eexists. split; [exact Hi |].
  cbn [Impact.total_predicted_orders Impact.delivery_partners_saved].
  pose proof (Z.quot_rem' (3 * T - 4 * P) 4) as QR.
  assert (RB : - 4 < Z.rem (3 * T - 4 * P) 4 < 4).
  { pose proof (Z.rem_bound_abs (3 * T - 4 * P) 4 ltac:(lia)). lia. }
  assert (RS : 0 <= 3 * T - 4 * P -> 0 <= Z.rem (3 * T - 4 * P) 4).
  { intros G. apply Z.rem_nonneg; lia. }
  assert (RN : 3 * T - 4 * P <= 0 -> Z.rem (3 * T - 4 * P) 4 <= 0).
  { intros G. apply Z.rem_nonpos; lia. }
  clearbody T P n.
  split; [reflexivity | split; [exact T0 | split; [lia | split]]].
  - intros H2. specialize (P3 H2). split; lia.
  - intros H1. destruct (P4 H1) as [E1 E2]. lia.
Qed.

(** X15. The sign of the reported savings.  Every record that
    [get_demand_forecast] returns has the partners that the staffing rule
    gives to its orders, which are not negative.  For such records (totals
    below [2 ^ 39]) every hour is staffed with at least one partner, so the
    saved partners stay below three quarters of the orders minus the hours.
    When every hour predicts at least two orders the saved partners are not
    negative, and are at least 3/20 of the orders, less one; when every hour
    predicts at most one order they are not positive. *)
Theorem X15_sign_of_savings :
  (forall (model : predictor) (now hours : Z) (rs : list Result.t),
      get_demand_forecast model now hours = Ok rs -> forallb translated rs = true)
  /\ (forall rs : list Result.t,
      rs <> [] ->
      forallb translated rs = true ->
      sum_Z (map Result.predicted_orders rs) < 2 ^ 39 ->
      Z.of_nat (List.length rs) < 2 ^ 39 ->
      exists i,
        calculate_logistics_impact rs = Ok i
        /\ Impact.total_predicted_orders i = sum_Z (map Result.predicted_orders rs)
        /\ 0 <= Impact.total_predicted_orders i
        /\ 4 * Impact.delivery_partners_saved i
           < 3 * Impact.total_predicted_orders i - 4 * Z.of_nat (List.length rs) + 4
        /\ (forallb at_least_two rs = true ->
            0 <= Impact.delivery_partners_saved i
            /\ 3 * Impact.total_predicted_orders i < 20 * Impact.delivery_partners_saved i + 20)
        /\ (forallb at_most_one rs = true -> Impact.delivery_partners_saved i <= 0)).
Proof. split; [exact forecast_translated | exact translated_savings]. Qed.

Lemma X15_sign_of_savings_witness :
  exists rs i,
    get_demand_forecast (list_model [2; 7; 40]) 0 3 = Ok rs
    /\ calculate_logistics_impact rs = Ok i
    /\ 0 <= Impact.delivery_partners_saved i
    /\ 3 * Impact.total_predicted_orders i < 20 * Impact.delivery_partners_saved i + 20.
Proof.
  eexists.
  match goal with
  | |- exists i, get_demand_forecast ?m ?a ?b = Ok ?rs /\ _ =>
      let v := eval vm_compute in (get_demand_forecast m a b) in
      match v with
      | Ok ?l => unify rs l;
                 destruct (proj2 X15_sign_of_savings l) as [i [Hi [_ [_ [_ [H2 _]]]]]]
      end
  end.
  - discriminate.
  - vm_compute. reflexivity.
  - vm_compute. reflexivity.
  - vm_compute. reflexivity.
  - exists i. split; [vm_compute; reflexivity | split; [exact Hi |]].
    apply H2. vm_compute. reflexivity.
Defined.

(** ** Digits in groups of three *)

Lemma group3_cases (P : list ascii -> Prop) :
  P [] -> (forall a, P [a]) -> (forall a b, P [a; b]) -> (forall a b c, P [a; b; c]) ->
  (forall a b c d t, P (d :: t) -> P (a :: b :: c :: d :: t)) ->
  forall l, P l.
Proof.
  intros H0 H1 H2 H3 H4.
  assert (G : forall n l, (List.length l <= n)%nat -> P l).
  { induction n as [| n IH]; intros l Hl.
    - destruct l; [exact H0 | cbn in Hl; lia].
    - destruct l as [| a [| b [| c [| d t]]]]; auto.
      apply H4. apply IH. cbn [List.length] in *. lia. }
  intros l. apply (G (List.length l)). lia.
Qed.

Lemma group3_filter (l : list ascii) : filter not_comma (group3 l) = filter not_comma l.
Proof.
  induction l as [| a | a b | a b c | a b c d t IH] using group3_cases; try reflexivity.
  change (group3 (a :: b :: c :: d :: t)) with (a :: b :: c :: ","%char :: group3 (d :: t)).
  cbn [filter]. change (not_comma ","%char) with false. cbv iota. rewrite IH. reflexivity.
Qed.

Lemma group3_length (l : list ascii) :
  List.length (group3 l) = (List.length l + (List.length l - 1) / 3)%nat.
Proof.
  induction l as [| a | a b | a b c | a b c d t IH] using group3_cases; try reflexivity.
  change (group3 (a :: b :: c :: d :: t)) with (a :: b :: c :: ","%char :: group3 (d :: t)).
  cbn [List.length] in *. rewrite IH.
  replace (S (S (S (S (List.length t)))) - 1)%nat with (List.length t + 1 * 3)%nat by lia.
  rewrite Nat.div_add by lia.
  replace (S (List.length t) - 1)%nat with (List.length t) by lia. lia.
Qed.

Lemma group3_short (l : list ascii) : (List.length l <= 3)%nat -> group3 l = l.
Proof.
  destruct l as [| a [| b [| c [| d t]]]]; cbn [List.length]; intros H; try reflexivity. lia.
Qed.

(** ** Decimal digits *)

Lemma uint_digits (d : Decimal.uint) :
  forallb not_comma (list_ascii_of_string (NilEmpty.string_of_uint d)) = true.
Proof.
  induction d; cbn [NilEmpty.string_of_uint list_ascii_of_string forallb]; try reflexivity;
    rewrite IHd; reflexivity.
Qed.

Lemma forallb_filter_same {A : Type} (p : A -> bool) (l : list A) :
  forallb p l = true -> filter p l = l.
Proof.
  induction l as [| x l IH]; cbn [forallb filter]; intros H; [reflexivity |].
  apply andb_prop in H. destruct H as [Hx Hl]. rewrite Hx, (IH Hl). reflexivity.
Qed.

Lemma py_str_pos (p : positive) :
  py_str (Z.pos p) = NilEmpty.string_of_uint (Pos.to_uint p)
  /\ py_str (Z.neg p) = String "-"%char (NilEmpty.string_of_uint (Pos.to_uint p)).
Proof.
  unfold py_str. cbn [Z.to_int NilZero.string_of_int]. unfold NilZero.string_of_uint.
  pose proof (DecimalPos.Unsigned.to_uint_nonnil p) as N.
  destruct (Pos.to_uint p); [congruence | | | | | | | | | |]; auto.
Qed.

Lemma py_str_digits (n : Z) :
  forallb not_comma (list_ascii_of_string (py_str n)) = true.
Proof.
  destruct n as [| p | p].
  - reflexivity.
  - rewrite (proj1 (py_str_pos p)). apply uint_digits.
  - rewrite (proj2 (py_str_pos p)). cbn [list_ascii_of_string forallb].
    rewrite uint_digits. reflexivity.
Qed.

Lemma py_str_injective (n m : Z) : py_str n = py_str m -> n = m.
Proof.
  unfold py_str. intros H.
  assert (N : forall z, Z.to_int z <> Decimal.Pos Decimal.Nil /\ Z.to_int z <> Decimal.Neg Decimal.Nil).
  { intros [| p | p]; cbn [Z.to_int]; split; try discriminate;
      intros E; inversion E as [E']; apply (DecimalPos.Unsigned.to_uint_nonnil p E'). }
  assert (E : Some (Z.to_int n) = Some (Z.to_int m)).
  { rewrite <- (NilZero.isi (Z.to_int n)) by apply N.
    rewrite <- (NilZero.isi (Z.to_int m)) by apply N.
    rewrite H. reflexivity. }
  inversion E as [E'].
  rewrite <- (DecimalZ.of_to n), <- (DecimalZ.of_to m), E'. reflexivity.
Qed.

Lemma format_body (n : Z) :
  0 <= n ->
  py_format_thousands n
  = string_of_list_ascii (rev (group3 (rev (list_ascii_of_string (py_str n))))).
Proof.
  intros H. unfold py_format_thousands.
  destruct (Z.ltb_spec n 0); [lia |]. rewrite Z.abs_eq by lia. reflexivity.
Qed.

Lemma without_commas_body (digits : list ascii) :
  forallb not_comma digits = true ->
  filter not_comma (rev (group3 (rev digits))) = digits.
Proof.
  intros H. rewrite filter_rev, group3_filter, <- filter_rev, rev_involutive.
  apply forallb_filter_same. exact H.
Qed.

Lemma without_commas_format (n : Z) : without_commas (py_format_thousands n) = py_str n.
Proof.
  unfold without_commas, py_format_thousands.
  destruct (Z.ltb_spec n 0) as [L | G].
  - destruct n as [| p | p]; try lia.
    change (Z.abs (Z.neg p)) with (Z.pos p).
    cbn [list_ascii_of_string filter]. change (not_comma "-"%char) with true. cbv iota.
    rewrite list_ascii_of_string_of_list_ascii, without_commas_body by apply py_str_digits.
    cbn [string_of_list_ascii]. rewrite string_of_list_ascii_of_string.
    rewrite (proj1 (py_str_pos p)), (proj2 (py_str_pos p)). reflexivity.
  - rewrite Z.abs_eq by lia.
    rewrite list_ascii_of_string_of_list_ascii, without_commas_body by apply py_str_digits.
    apply string_of_list_ascii_of_string.
Qed.

Lemma string_length_list (s : string) : String.length s = List.length (list_ascii_of_string s).
Proof. induction s as [| c s IH]; cbn; congruence. Qed.

(** X16. The thousands format of the cost savings loses nothing: without
    its commas the text is [str(n)], two different amounts never give the
    same text, the text has one comma for every three digits after the
    first group, and an amount below 1000 in absolute value has none. *)
Theorem X16_thousands_format (n : Z) :
  without_commas (py_format_thousands n) = py_str n
  /\ (forall m : Z, py_format_thousands m = py_format_thousands n -> m = n)
  /\ String.length (py_format_thousands n)
     = (String.length (py_str n) + (String.length (py_str (Z.abs n)) - 1) / 3)%nat
  /\ ((String.length (py_str (Z.abs n)) <= 3)%nat -> py_format_thousands n = py_str n).
Proof.
  split; [apply without_commas_format | split; [| split]].
  - intros m H. apply py_str_injective.
    rewrite <- (without_commas_format m), <- (without_commas_format n), H. reflexivity.
  - unfold py_format_thousands.
    destruct (Z.ltb_spec n 0) as [L | G].
    + destruct n as [| p | p]; try lia.
      change (Z.abs (Z.neg p)) with (Z.pos p).
      rewrite (proj2 (py_str_pos p)), <- (proj1 (py_str_pos p)).
      cbn [String.length]. rewrite !string_length_list, list_ascii_of_string_of_list_ascii.
      rewrite length_rev, group3_length, length_rev. lia.
    + rewrite Z.abs_eq by lia.
      rewrite !string_length_list, list_ascii_of_string_of_list_ascii.
      rewrite length_rev, group3_length, length_rev. lia.
  - intros H. unfold py_format_thousands.
    rewrite group3_short by (rewrite length_rev, <- string_length_list; exact H).
    rewrite rev_involutive, string_of_list_ascii_of_string.
    destruct (Z.ltb_spec n 0) as [L | G].
    + destruct n as [| p | p]; try lia.
      change (Z.abs (Z.neg p)) with (Z.pos p).
      rewrite (proj2 (py_str_pos p)), (proj1 (py_str_pos p)). reflexivity.
    + rewrite Z.abs_eq by lia. reflexivity.
Qed.

Lemma X16_thousands_format_witness :
  py_format_thousands (-1234567) = "-1,234,567"%string
  /\ without_commas (py_format_thousands (-1234567)) = py_str (-1234567)
  /\ py_format_thousands 999 = py_str 999.
Proof.
  split; [vm_compute; reflexivity |].
  split; [apply (proj1 (X16_thousands_format (-1234567))) |].
  apply (proj2 (proj2 (proj2 (X16_thousands_format 999)))). vm_compute. lia.
Defined.

(** ** The highlighted staffing table *)

Lemma result_label (row : Forecast.t) (r : Result.t) :
  translate_row row = Ok r ->
  Result.rush_period r = "Lunch Rush"%string
  \/ Result.rush_period r = "Dinner Rush"%string
  \/ Result.rush_period r = "Regular"%string.
Proof.
  intros H. destruct (translate_row_fields _ _ H) as [_ [_ [_ Hl]]].
  rewrite Hl. unfold rush_period_of.
  destruct (Float64.truthy _); [auto |]. destruct (Float64.truthy _); auto.
Qed.

(** X17. In the staffing table of the dashboard the substring tests of
    [highlight_rush] agree with the equality tests of the chart on every
    record that [get_demand_forecast] returns: the first cell of a row is
    gold exactly for a "Lunch Rush" hour, blue exactly for a "Dinner Rush"
    hour and unstyled for a "Regular" hour, and the other three cells are
    never styled. *)
Theorem X17_highlight_follows_label
  (model : predictor) (now hours : Z) (rs : list Result.t) (r : Result.t) :
  get_demand_forecast model now hours = Ok rs ->
  In r rs ->
  highlight_rush (staffing_row r)
  = [ (if lunch_mask r then "background-color: #FFD700"
       else if dinner_mask r then "background-color: #1E90FF"
       else EmptyString)%string;
      EmptyString; EmptyString; EmptyString ]
  /\ lunch_mask r && dinner_mask r = false
  /\ (lunch_mask r || dinner_mask r = false <-> Result.rush_period r = "Regular"%string).
Proof.
  intros H Hr.
  destruct (get_demand_forecast_rows _ _ _ _ H) as [forecast [_ F]].
  assert (L : Result.rush_period r = "Lunch Rush"%string
              \/ Result.rush_period r = "Dinner Rush"%string
              \/ Result.rush_period r = "Regular"%string).
  { clear H. induction F as [| row x forecast rs Hx _ IH]; [destruct Hr |].
    destruct Hr as [E | Hr]; [subst x; apply (result_label row r Hx) | apply IH; exact Hr]. }
  unfold highlight_rush, staffing_row, lunch_mask, dinner_mask. cbn [Staffing.rush_period].
  destruct L as [E | [E | E]]; rewrite E;
    (split; [reflexivity | split; [reflexivity | split; [discriminate || reflexivity | reflexivity || discriminate]]]).
Qed.

Lemma X17_highlight_follows_label_witness :
  exists rs r,
    get_demand_forecast (flat_model 7) (10 * 3600) 3 = Ok rs
    /\ nth_error rs 1 = Some r
    /\ Result.rush_period r = "Lunch Rush"%string
    /\ highlight_rush (staffing_row r)
       = ["background-color: #FFD700"%string; EmptyString; EmptyString; EmptyString].
Proof.
  eexists. eexists.
  split; [vm_compute; reflexivity |].
  split; [reflexivity | split; [reflexivity |]].
  match goal with
  | |- highlight_rush (staffing_row ?r) = _ =>
      destruct (X17_highlight_follows_label (flat_model 7) (10 * 3600) 3 _ r
                  ltac:(vm_compute; reflexivity) ltac:(right; left; reflexivity)) as [E _]
  end.
  rewrite E. reflexivity.
Defined.

(** ** From the sales to the feature table *)

Lemma sorted_strict (l : list Feat.t) :
  StronglySorted feat_le l ->
  NoDup (map (fun f => (Feat.order_date f, Feat.restaurant_id f)) l) ->
  StronglySorted feat_lt l.
Proof.
  induction 1 as [| x l Hl IH Hx]; cbn [map]; intros N; [constructor |].
  inversion N as [| ? ? Nx Nl]; subst.
  constructor; [apply IH; exact Nl |].
  rewrite Forall_forall in *. intros y Hy.
  destruct (Hx y Hy) as [L | [E D]]; [left; exact L |].
  destruct (Z.eq_dec (Feat.order_date x) (Feat.order_date y)) as [Ed | Nd].
  - exfalso. apply Nx. apply in_map_iff. exists y. split; [| exact Hy].
    rewrite E, Ed. reflexivity.
  - right. split; [exact E | lia].
Qed.

Lemma feature_table_sorted (df : list Demand.t) :
  StronglySorted feat_le (create_logistics_features df).
Proof.
  pose proof (sort_values_sorted df) as S.
  rewrite <- (create_logistics_features_demand df) in S.
  apply StronglySorted_map in S.
  induction S as [| x l Hl IH Hx]; [constructor |].
  constructor; [exact IH |].
  rewrite Forall_forall in *. intros y Hy. specialize (Hx y Hy).
  unfold row_le_prop, row_le in Hx. cbn [demand_of Demand.restaurant_id Demand.order_date] in Hx.
  unfold feat_le.
  destruct (Z.ltb_spec (Feat.restaurant_id x) (Feat.restaurant_id y)); [left; assumption |].
  cbn [orb] in Hx. apply andb_prop in Hx. destruct Hx as [Hr Hd].
  apply Z.eqb_eq in Hr. apply Z.leb_le in Hd. right. auto.
Qed.

(** X18. The two steps of the preparation in a row, for sales whose counts
    are [int64] values: the feature table built from the demand table of the
    sales is strictly sorted by restaurant and then by hour, so that a
    restaurant has at most one row per hour and its rows follow each other in
    time, and it has one row per row of the demand table.  The lag of a row
    is the count of the restaurant's previous row, however many hours earlier
    that row is, converted to float64: the count itself when it is at most
    [2 ^ 53] in absolute value. *)
Theorem X18_feature_table_of_sales (draw : nat -> weather) (df : list Raw.t)
    (table : list Demand.t) :
  prepare_swiggy_demand_data draw df = Ok table ->
  forallb int64 (map Raw.order_count df) = true ->
  StronglySorted feat_lt (create_logistics_features table)
  /\ Permutation (map demand_of (create_logistics_features table)) table
  /\ (List.length (create_logistics_features table) <= List.length df)%nat
  /\ forallb (fun f => int64 (Feat.order_count f)) (create_logistics_features table) = true
  /\ (forall (i : nat) (f g : Feat.t),
        nth_error (create_logistics_features table) i = Some f ->
        nth_error (create_logistics_features table) (S i) = Some g ->
        Feat.restaurant_id g = Feat.restaurant_id f ->
        Feat.order_date f < Feat.order_date g
        /\ Feat.orders_last_hour g = Some (Float64.of_Z (Feat.order_count f))
        /\ (Z.abs (Feat.order_count f) <= 2 ^ 53 ->
            exists x, Feat.orders_last_hour g = Some x
                      /\ py_int x = Ok (Feat.order_count f)
                      /\ (Float64.to_Q x == inject_Z (Feat.order_count f))%Q)).
Proof.
  intros Ht Hi. destruct (prepare_table draw df table Ht) as [_ Et].
  assert (P : Permutation (map demand_of (create_logistics_features table)) table).
  { rewrite create_logistics_features_demand. symmetry. apply sort_values_perm. }
  assert (N : NoDup (map demand_key table)).
  { rewrite Et, add_weather_keys.
    apply StronglySorted_NoDup. apply groupby_agg_sorted. }
  assert (Srt : StronglySorted feat_lt (create_logistics_features table)).
  { apply sorted_strict; [apply feature_table_sorted |].
    apply (Permutation_NoDup (l := map demand_key table)); [| exact N].
    replace (map (fun f => (Feat.order_date f, Feat.restaurant_id f))
                 (create_logistics_features table))
      with (map demand_key (map demand_of (create_logistics_features table)))
      by (rewrite map_map; reflexivity).
    apply Permutation_map. symmetry. exact P. }
  assert (L : (List.length table <= List.length df)%nat).
  { rewrite Et.
    rewrite <- (length_map demand_key), add_weather_keys, <- (length_map group_key df).
    apply NoDup_incl_length; [apply StronglySorted_NoDup; apply groupby_agg_sorted |].
    intros k Hk. apply groupby_agg_keys. exact Hk. }
  assert (I : forallb (fun f => int64 (Feat.order_count f))
                      (create_logistics_features table) = true).
  { apply forallb_forall. intros f Hf.
    assert (Hd : In (demand_of f) table).
    { apply (Permutation_in _ P). apply in_map. exact Hf. }
    pose proof (demand_row_count draw df table (demand_of f) Ht Hi Hd) as Eg.
    cbn [demand_of Demand.order_count] in Eg. rewrite Eg. apply wrap64_int64. }
  split; [exact Srt | split; [exact P | split; [| split; [exact I |]]]].
  - rewrite <- (length_map demand_of), (Permutation_length P). exact L.
  - intros i f g Hf Hg E.
    assert (Lg : Feat.orders_last_hour g = Some (Float64.of_Z (Feat.order_count f))).
    { destruct (create_logistics_features_nth table (S i) g Hg) as [_ [_ [_ [H1 _]]]].
      rewrite H1. apply filled_defined. apply (before_fill_next table i f g Hf Hg E). }
    split; [| split; [exact Lg |]].
    + assert (Hl : feat_lt f g).
      { clear - Srt Hf Hg. revert i Hf Hg.
        induction Srt as [| x l Hl IH Hx]; intros i Hf Hg; [destruct i; discriminate |].
        destruct i as [| i]; cbn [nth_error] in Hf, Hg.
        - inversion Hf; subst x. rewrite Forall_forall in Hx. apply Hx.
          apply (nth_error_In l 0). exact Hg.
        - apply (IH i Hf Hg). }
      destruct Hl as [Hl | [_ Hl]]; [lia | exact Hl].
    + intros B. exists (Float64.of_Z (Feat.order_count f)).
      split; [exact Lg | apply of_Z_exact; exact B].
Qed.

Lemma X18_feature_table_of_sales_witness :
  exists table f g,
    prepare_swiggy_demand_data (fun _ => Normal) sales_with_gap = Ok table
    /\ nth_error (create_logistics_features table) 0 = Some f
    /\ nth_error (create_logistics_features table) 1 = Some g
    /\ Feat.order_date f = 9
    /\ Feat.order_date g = 14
    /\ Feat.order_date f < Feat.order_date g
    /\ Feat.orders_last_hour g = Some (Float64.of_Z (Feat.order_count f)).
Proof.
  eexists. eexists. eexists.
  split; [vm_compute; reflexivity |].
  split; [vm_compute; reflexivity |].
  split; [vm_compute; reflexivity |].
  split; [reflexivity | split; [reflexivity |]].
  pose proof (X18_feature_table_of_sales (fun _ => Normal) sales_with_gap _
                ltac:(vm_compute; reflexivity) ltac:(vm_compute; reflexivity)) as H.
  destruct H as [_ [_ [_ [_ H]]]].
  destruct (H 0%nat _ _ ltac:(vm_compute; reflexivity) ltac:(vm_compute; reflexivity)
              ltac:(reflexivity)) as [H1 [H2 _]].
  split; [exact H1 | exact H2].
Defined.
